(** * SDMX codelist browser: a model of [streamlit_app.py]

    The application fetches a registry of SDMX codelists, parses the
    namespaced XML into flat records, and exports one codelist as CSV
    and as a PDF.  This development embeds

    - the two parsers [fetch_codelists_from_xml] and
      [parse_codelist_items],
    - the inline CSV export (lines 180-187 of the script), and
    - [create_pdf],

    together with the part of the Python runtime they stand on:
    strings as sequences of code points, insertion-ordered dicts,
    [xml.etree.ElementTree] elements and its [findall] on the path
    [.//tag], [pandas.DataFrame] built from a list of dicts with
    [to_csv], and the text object of [reportlab].

    Library calls whose result is not determined by the script are
    section variables: the HTTP client, [str.lower] and the XML parser
    [ET.fromstring].  [MiniXML] is a namespace-aware parser for the
    element / attribute / character-data fragment of XML; it
    instantiates the XML parser at concrete documents. *)

From Stdlib Require Import List NArith ZArith Bool Lia.
From Stdlib Require Import Strings.Ascii Strings.String Strings.Byte.
From Stdlib Require Import Numbers.DecimalString.
Import ListNotations.

Set Implicit Arguments.

(* ================================================================== *)
(** ** Python values *)
(* ================================================================== *)

Module Py.

(** A Python [str] is a sequence of Unicode code points. *)
Definition char := N.
Definition str := list char.

(** A Python [bytes] object. *)
Definition bytes := list byte.

(** ASCII literal as a [str]. *)
Definition u (s : string) : str :=
  map N_of_ascii (list_ascii_of_string s).

(** ASCII literal as [bytes]. *)
Definition b (s : string) : bytes := list_byte_of_string s.

(** The same, with every apostrophe of the literal standing for the
    double-quote character (code 34). *)
Definition bq (s : string) : bytes :=
  map (fun c => if Byte.eqb c x27 then x22 else c) (list_byte_of_string s).

Fixpoint str_eqb (s t : str) : bool :=
  match s, t with
  | [], [] => true
  | c :: s', d :: t' => N.eqb c d && str_eqb s' t'
  | _, _ => false
  end.

(** [sep.join(parts)] *)
Fixpoint join (sep : str) (parts : list str) : str :=
  match parts with
  | [] => []
  | [p] => p
  | p :: rest => p ++ sep ++ join sep rest
  end.

(** *** Insertion-ordered dictionaries with [str] keys *)

Definition dict (V : Type) := list (str * V).

(** [d.get(k)], [None] when the key is absent. *)
Fixpoint dict_get {V} (d : dict V) (k : str) : option V :=
  match d with
  | [] => None
  | (k', v) :: d' => if str_eqb k' k then Some v else dict_get d' k
  end.

(** [d.get(k, default)] *)
Definition dict_get_default {V} (d : dict V) (k : str) (default : V) : V :=
  match dict_get d k with
  | Some v => v
  | None => default
  end.

(** [d[k] = v]: an existing key keeps its position, a new key goes last. *)
Fixpoint dict_set {V} (d : dict V) (k : str) (v : V) : dict V :=
  match d with
  | [] => [(k, v)]
  | (k', v') :: d' =>
      if str_eqb k' k then (k', v) :: d' else (k', v') :: dict_set d' k v
  end.

Definition dict_keys {V} (d : dict V) : list str := map fst d.

(** *** Cell values: what the record dicts of the script hold *)

Inductive value :=
| VStr (s : str)
| VBool (flag : bool)
| VNone
| VNaN.

(** [str(v)], as an f-string formats it. *)
Definition py_str (v : value) : str :=
  match v with
  | VStr s => s
  | VBool true => u "True"
  | VBool false => u "False"
  | VNone => u "None"
  | VNaN => u "nan"
  end.

(** [Element.text] is a [str] or [None]. *)
Definition of_text (t : option str) : value :=
  match t with
  | Some s => VStr s
  | None => VNone
  end.

(** *** Exceptions and the Streamlit error channel *)

Inductive exn :=
| ParseError (diagnostic : str)
| RequestException (message : str)
| UnicodeEncodeError (position : nat) (ch : char)
| KeyError (key : str)
| ValueError (message : str)
| LookupError (message : str).

(** A computation that may call [st.error] and may raise: it maps the
    messages shown so far to an outcome and the messages shown after. *)
Definition M (A : Type) := list str -> (exn + A) * list str.

Definition ret {A} (a : A) : M A := fun log => (inr a, log).

Definition raise {A} (e : exn) : M A := fun log => (inl e, log).

Definition bind {A B} (m : M A) (k : A -> M B) : M B :=
  fun log =>
    match m log with
    | (inr a, log') => k a log'
    | (inl e, log') => (inl e, log')
    end.

(** [try: body  except ...: handler]; a handler re-raises what it does
    not catch. *)
Definition try_except {A} (body : M A) (handler : exn -> M A) : M A :=
  fun log =>
    match body log with
    | (inr a, log') => (inr a, log')
    | (inl e, log') => handler e log'
    end.

(** [st.error(message)] *)
Definition st_error (message : str) : M unit :=
  fun log => (inr tt, log ++ [message]).

(** A library call that returns or raises. *)
Definition lift {A} (r : exn + A) : M A := fun log => (r, log).

(** [s.encode("ISO-8859-1")]: strict, the first code point above 255
    raises. *)
Fixpoint encode_latin1_from (pos : nat) (s : str) : exn + bytes :=
  match s with
  | [] => inr []
  | c :: s' =>
      match Byte.of_N c with
      | None => inl (UnicodeEncodeError pos c)
      | Some x =>
          match encode_latin1_from (S pos) s' with
          | inl e => inl e
          | inr bs => inr (x :: bs)
          end
      end
  end.

Definition encode_latin1 (s : str) : exn + bytes := encode_latin1_from 0 s.

End Py.

Import Py.

Declare Scope py_scope.
Delimit Scope py_scope with py.
Notation "x <- m ;; k" := (bind m (fun x => k))
  (at level 61, m at next level, right associativity) : py_scope.
Notation "m ;;; k" := (bind m (fun _ => k))
  (at level 61, right associativity) : py_scope.

(* ================================================================== *)
(** ** [xml.etree.ElementTree] *)
(* ================================================================== *)

Module ET.

(** An element: its expanded tag [{uri}local], its attribute dict, the
    character data before its first child ([None] when there is none),
    and its children in document order.  [tail] is never read by the
    script and is left out. *)
#[warnings="-register-all"]
Inductive Element :=
| mkElement (tag : str) (attrib : dict str) (text : option str)
            (children : list Element).

Definition tag (e : Element) : str :=
  match e with mkElement t _ _ _ => t end.
Definition attrib (e : Element) : dict str :=
  match e with mkElement _ a _ _ => a end.
Definition text (e : Element) : option str :=
  match e with mkElement _ _ x _ => x end.
Definition children (e : Element) : list Element :=
  match e with mkElement _ _ _ cs => cs end.

(** [Element.iter(tag)]: the element itself when its tag matches, then
    the matches below each child, depth first. *)
Fixpoint iter (t : str) (e : Element) : list Element :=
  match e with
  | mkElement t' _ _ cs =>
      (if str_eqb t' t then [e] else []) ++ flat_map (iter t) cs
  end.

(** [elem.findall(".//" + t)]: ElementPath runs [elem.iter(t)] and drops
    [elem] itself, which leaves the matches below the children. *)
Definition findall_descendants (elem : Element) (t : str) : list Element :=
  flat_map (iter t) (children elem).

(** A prefixed name of a path, resolved against the [namespaces] map
    given to [findall]. *)
Definition qname (uri local : str) : str :=
  u "{" ++ uri ++ u "}" ++ local.

End ET.

Import ET.

(* ================================================================== *)
(** ** [pandas.DataFrame] and [to_csv] *)
(* ================================================================== *)

Module Pandas.

Record DataFrame := mkDataFrame {
  columns : list str;
  rows : list (list value)
}.

Definition mem_str (k : str) (ks : list str) : bool :=
  existsb (str_eqb k) ks.

(** The keys of the dicts, each once, in order of first appearance. *)
Definition union_keys (data : list (dict value)) : list str :=
  fold_left
    (fun cols d =>
       fold_left (fun cols k => if mem_str k cols then cols else cols ++ [k])
                 (dict_keys d) cols)
    data [].

(** [pd.DataFrame(data)] for a list of dicts: one row per dict, a key
    that a dict lacks reads NaN.  [pd.DataFrame()] is [DataFrame_of []]. *)
Definition DataFrame_of (data : list (dict value)) : DataFrame :=
  let cols := union_keys data in
  mkDataFrame cols
    (map (fun d => map (fun c => dict_get_default d c VNaN) cols) data).

(** How [to_csv] prints a cell: missing values as the empty [na_rep]. *)
Definition csv_cell (v : value) : str :=
  match v with
  | VNone | VNaN => []
  | _ => py_str v
  end.

Definition comma : char := 44%N.
Definition dquote : char := 34%N.
Definition LF : char := 10%N.
Definition CR : char := 13%N.

(** [csv.QUOTE_MINIMAL]: a field is quoted when it holds the delimiter,
    the quote character or a character of the line terminator.  The
    terminator [to_csv] passes to the writer is [os.linesep], a line
    feed here, so a carriage return alone does not quote a field (the
    [csv] module of Python 3.11). *)
Definition csv_special (c : char) : bool :=
  N.eqb c comma || N.eqb c dquote || N.eqb c LF.

Definition csv_field (field : str) : str :=
  if existsb csv_special field
  then dquote :: flat_map (fun c => if N.eqb c dquote then [dquote; dquote] else [c]) field
       ++ [dquote]
  else field.

(** One [writerow]: a row made of a single empty field is written as a
    pair of quotes; the line terminator is a line feed. *)
Definition csv_fields (fields : list str) : list str :=
  match fields with
  | [[]] => [[dquote; dquote]]
  | _ => map csv_field fields
  end.

(** The table as written: the header fields, then the fields of each
    row. *)
Definition csv_table (df : DataFrame) : list (list str) :=
  csv_fields (columns df) :: map (fun r => csv_fields (map csv_cell r)) (rows df).

(** [df.to_csv(buffer, index=False, encoding=...)] into a [StringIO]:
    the text written to the buffer.  The buffer holds text, so the
    [encoding] argument is not used. *)
Definition to_csv (df : DataFrame) (encoding : str) : str :=
  flat_map (fun fields => join [comma] fields ++ [LF]) (csv_table df).

End Pandas.

Import Pandas.

(* ================================================================== *)
(** ** [reportlab]: canvas and text object *)
(* ================================================================== *)

Module ReportLab.

(** Lengths are in tenths of a point, which keeps the default leading
    of 14.4 points integral. *)
Definition pt (n : Z) : Z := (10 * n)%Z.

(** [reportlab.lib.pagesizes.letter] *)
Definition letter : Z * Z := (pt 612, pt 792).

(** A line of text as it is placed on a page. *)
Record TextLine := mkTextLine {
  line_x : Z;
  line_y : Z;
  line_font : str;
  line_size : Z;
  line_text : str
}.

Record Page := mkPage {
  page_size : Z * Z;
  page_lines : list TextLine
}.

Record Canvas := mkCanvas {
  pagesize : Z * Z;
  canvas_font : str;
  canvas_size : Z;
  canvas_leading : Z;
  page_code : list TextLine;
  pages : list Page
}.

Record TextObject := mkTextObject {
  cur_x : Z;
  cur_y : Z;
  font_name : str;
  font_size : Z;
  leading : Z;
  code : list TextLine
}.

(** [canvas.Canvas(buffer, pagesize=...)]: Helvetica 12 on 14.4. *)
Definition new_Canvas (size : Z * Z) : Canvas :=
  mkCanvas size (u "Helvetica") (pt 12) 144 [] [].

(** [c.beginText(x, y)] *)
Definition beginText (c : Canvas) (x y : Z) : TextObject :=
  mkTextObject x y (canvas_font c) (canvas_size c) (canvas_leading c) [].

(** [text.setFont(name, size)]: the leading becomes 1.2 times the size. *)
Definition setFont (t : TextObject) (name : str) (size : Z) : TextObject :=
  mkTextObject (cur_x t) (cur_y t) name size (size * 12 / 10)%Z (code t).

(** [text.textLine(s)]: place [s] at the cursor, then move the cursor
    down by the leading.  Nothing looks at the page size. *)
Definition textLine (t : TextObject) (s : str) : TextObject :=
  mkTextObject (cur_x t) (cur_y t - leading t)%Z (font_name t) (font_size t)
    (leading t)
    (code t ++ [mkTextLine (cur_x t) (cur_y t) (font_name t) (font_size t) s]).

(** [c.drawText(text)] *)
Definition drawText (c : Canvas) (t : TextObject) : Canvas :=
  mkCanvas (pagesize c) (canvas_font c) (canvas_size c) (canvas_leading c)
    (page_code c ++ code t) (pages c).

(** [c.showPage()]: close the current page, the only way a page starts. *)
Definition showPage (c : Canvas) : Canvas :=
  mkCanvas (pagesize c) (canvas_font c) (canvas_size c) (canvas_leading c)
    [] (pages c ++ [mkPage (pagesize c) (page_code c)]).

(** [c.save()]: a page that holds something is closed first; the
    document is the sequence of its pages. *)
Definition save (c : Canvas) : list Page :=
  match page_code c with
  | [] => pages c
  | _ => pages (showPage c)
  end.

(** A line lies on its page when its baseline is between the bottom and
    the top edge. *)
Definition on_page (p : Page) (l : TextLine) : bool :=
  (0 <=? line_y l)%Z && (line_y l <=? snd (page_size p))%Z.

End ReportLab.

Import ReportLab.

(* ================================================================== *)
(** ** A namespace-aware XML parser for concrete documents *)
(* ================================================================== *)

(** [MiniXML.fromstring] reads documents made of start tags, end tags,
    empty-element tags, attributes, namespace declarations, character
    data and processing instructions (the XML declaration among them),
    and builds the element tree that ElementTree builds for them:
    expanded names [{uri}local], namespace declarations removed from
    the attributes, [text] the character data before the first child,
    line ends read as line feeds.  For a document that is not well
    formed it raises [ParseError] with the diagnostic of expat, the
    message followed by the line and column of the error; for a
    document that declares an encoding expat does not read itself it
    raises what the parser raises after the codec lookup of Python
    3.11: [LookupError] for a name that is no codec, [ValueError] for
    a multi-byte codec.

    Outside this fragment are comments, CDATA sections, DOCTYPE
    declarations, references ([&...;]), names with characters beyond
    ASCII, text other than white space before or after the root
    element, byte order marks and UTF-16, the single-byte codecs of
    Python, declarations of the reserved prefixes and namespace
    names, two attributes with one expanded name, a declaration that
    is not XML's own ([version] 1.0 or 1.1, then [encoding], then
    [standalone]), and an input that ends inside a character or with
    a carriage return.  A document that uses one of them is reported
    as [ParseError] with the diagnostic [unsupported], which expat
    never gives. *)

Module MiniXML.

Definition c_lt : char := 60%N.
Definition c_gt : char := 62%N.
Definition c_slash : char := 47%N.
Definition c_eq : char := 61%N.
Definition c_amp : char := 38%N.
Definition c_bang : char := 33%N.
Definition c_qmark : char := 63%N.
Definition c_colon : char := 58%N.
Definition c_apos : char := 39%N.
Definition c_space : char := 32%N.
Definition c_rsqb : char := 93%N.

Definition is_space (c : char) : bool :=
  N.eqb c 32 || N.eqb c 9 || N.eqb c 10 || N.eqb c 13.

Definition is_quote (c : char) : bool := N.eqb c dquote || N.eqb c c_apos.

Definition is_letter (c : char) : bool :=
  ((65 <=? c) && (c <=? 90) || (97 <=? c) && (c <=? 122))%N.

Definition is_digit (c : char) : bool := ((48 <=? c) && (c <=? 57))%N.

Definition is_alnum (c : char) : bool := is_letter c || is_digit c.

(** Name characters of the fragment: an ASCII letter or an underscore
    starts a name; digits, hyphens and full stops continue it.  The
    colon is read apart, as the parser reads it with namespaces on. *)
Definition is_name_start (c : char) : bool := is_letter c || N.eqb c 95.

Definition is_name_char (c : char) : bool :=
  is_name_start c || is_digit c || N.eqb c 45 || N.eqb c 46.

Definition non_ascii (c : char) : bool := (128 <=? c)%N.

(** Control characters that no XML text holds. *)
Definition forbidden (c : char) : bool := (c <? 32)%N && negb (is_space c).

Definition lower_char (c : char) : char :=
  if ((65 <=? c) && (c <=? 90))%N then (c + 32)%N else c.

(** *** Encodings *)

Definition is_cont (x : N) : bool := ((128 <=? x) && (x <? 192))%N.

Definition in_range (lo hi x : N) : bool := ((lo <=? x) && (x <=? hi))%N.

(** How a decoder ends: it read all bytes, or it stopped at a byte
    sequence that is no character, or at one that the fragment does
    not cover (a character cut off by the end of the input, a lead
    byte above F4). *)
Inductive ending := Whole | Broken | Beyond.

(** A decoder gives the characters before the place it stopped at. *)
Definition decoded : Type := str * ending.

Definition more (c : char) (rest : decoded) : decoded := (c :: fst rest, snd rest).

Fixpoint utf8_decode (bs : list N) : decoded :=
  match bs with
  | [] => ([], Whole)
  | b0 :: r0 =>
      if (b0 <? 128)%N then more b0 (utf8_decode r0)
      else if in_range 192 223 b0 then
        match r0 with
        | b1 :: r1 =>
            if (194 <=? b0)%N && is_cont b1
            then more ((b0 - 192) * 64 + (b1 - 128))%N (utf8_decode r1)
            else ([], Broken)
        | [] => ([], Beyond)
        end
      else if in_range 224 239 b0 then
        match r0 with
        | b1 :: b2 :: r2 =>
            let c := ((b0 - 224) * 4096 + (b1 - 128) * 64 + (b2 - 128))%N in
            if is_cont b1 && is_cont b2 && (2048 <=? c)%N
               && negb (in_range 55296 57343 c) && negb (in_range 65534 65535 c)
            then more c (utf8_decode r2)
            else ([], Broken)
        | _ => ([], Beyond)
        end
      else if in_range 240 244 b0 then
        match r0 with
        | b1 :: b2 :: b3 :: r3 =>
            let c := ((b0 - 240) * 262144 + (b1 - 128) * 4096
                      + (b2 - 128) * 64 + (b3 - 128))%N in
            if is_cont b1 && is_cont b2 && is_cont b3
               && in_range 65536 1114111 c
            then more c (utf8_decode r3)
            else ([], Broken)
        | _ => ([], Beyond)
        end
      else if in_range 245 247 b0 then ([], Beyond)
      else ([], Broken)
  end.

Fixpoint ascii_decode (bs : list N) : decoded :=
  match bs with
  | [] => ([], Whole)
  | b0 :: r0 => if (b0 <? 128)%N then more b0 (ascii_decode r0) else ([], Broken)
  end.

Definition latin1_decode (bs : list N) : decoded := (bs, Whole).

(** A document that the parser takes for UTF-16, or whose first byte
    may start a byte order mark that the input cuts off. *)
Definition utf16_mark (bs : list N) : bool :=
  match bs with
  | [b0] => N.eqb b0 0 || N.eqb b0 254 || N.eqb b0 255 || N.eqb b0 239
  | b0 :: b1 :: _ =>
      N.eqb b0 254 && N.eqb b1 255 || N.eqb b0 255 && N.eqb b1 254
      || N.eqb b0 0 || N.eqb b1 0
  | [] => false
  end.

(** *** The XML declaration *)

(** [s] without the prefix [p]. *)
Fixpoint after_prefix (p s : str) : option str :=
  match p, s with
  | [], _ => Some s
  | c :: p', d :: s' => if N.eqb c d then after_prefix p' s' else None
  | _ :: _, [] => None
  end.

Fixpoint skip_spaces (s : str) : str :=
  match s with
  | c :: s' => if is_space c then skip_spaces s' else s
  | [] => []
  end.

(** At least one white space character. *)
Definition spaces (s : str) : option str :=
  match s with
  | c :: s' => if is_space c then Some (skip_spaces s') else None
  | [] => None
  end.

(** The text up to the quote [q], and what follows the quote. *)
Fixpoint quoted_value (q : char) (s : str) : option (str * str) :=
  match s with
  | [] => None
  | c :: s' =>
      if N.eqb c q then Some ([], s')
      else match quoted_value q s' with
           | Some (v, rest) => Some (c :: v, rest)
           | None => None
           end
  end.

(** One of [version="..."], [encoding="..."], [standalone="..."]
    after white space: its value and what follows it. *)
Definition pseudo_attribute (name : str) (s : str) : option (str * str) :=
  match spaces s with
  | Some s1 =>
      match after_prefix name s1 with
      | Some s2 =>
          match skip_spaces s2 with
          | e :: s3 =>
              if N.eqb e c_eq then
                match skip_spaces s3 with
                | q :: s4 => if is_quote q then quoted_value q s4 else None
                | [] => None
                end
              else None
          | [] => None
          end
      | None => None
      end
  | None => None
  end.

(** The names an XML declaration can give an encoding: a letter, then
    letters, digits, full stops, underscores and hyphens. *)
Definition enc_name (name : str) : bool :=
  match name with
  | [] => false
  | c :: rest =>
      is_letter c
      && forallb (fun d => is_alnum d || N.eqb d 46 || N.eqb d 95 || N.eqb d 45)
           rest
  end.

Inductive declaration :=
| NoDeclaration
| Declared (encoding : option str)
| BadDeclaration.

Definition declaration_end (encoding : option str) (s : str) : declaration :=
  match after_prefix (u "?>") (skip_spaces s) with
  | Some _ => Declared encoding
  | None => BadDeclaration
  end.

Definition declaration_standalone (encoding : option str) (s : str)
  : declaration :=
  match pseudo_attribute (u "standalone") s with
  | Some (v, rest) =>
      if mem_str v [u "yes"; u "no"] then declaration_end encoding rest
      else BadDeclaration
  | None => declaration_end encoding s
  end.

(** The XML declaration at the start of a document: the version, then
    the encoding and the standalone flag if given.  A processing
    instruction whose target only starts with [xml] is no
    declaration. *)
Definition read_declaration (s : str) : declaration :=
  match after_prefix (u "<?xml") s with
  | Some (c :: rest) =>
      if is_name_char c || N.eqb c c_colon || non_ascii c then NoDeclaration
      else
        match pseudo_attribute (u "version") (c :: rest) with
        | Some (v, r1) =>
            if mem_str v [u "1.0"; u "1.1"] then
              match pseudo_attribute (u "encoding") r1 with
              | Some (e, r2) =>
                  if enc_name e then declaration_standalone (Some e) r2
                  else BadDeclaration
              | None => declaration_standalone None r1
              end
            else BadDeclaration
        | None => BadDeclaration
        end
  | _ => NoDeclaration
  end.

Inductive encoding :=
| Utf8
| UsAscii
| Latin1
| MultiByte
| OutsideFragment
| Unknown.

(** A codec name as the lookup of Python normalises it: lower case,
    every run of hyphens and underscores one underscore, none at the
    end. *)
Fixpoint normalize_from (pending : bool) (name : str) : str :=
  match name with
  | [] => []
  | c :: rest =>
      if is_alnum c || N.eqb c 46 then
        (if pending then [95%N] else [])
        ++ lower_char c :: normalize_from false rest
      else normalize_from true rest
  end.

Definition codec_name (name : str) : str := normalize_from false name.

(** Names under which the codec lookup of Python 3.11 finds a multi-byte
    codec, one that does not decode 256 bytes to 256 characters. *)
Definition multi_byte_codecs : list str :=
  [ u "big5"; u "big5_hkscs"; u "big5_tw"; u "big5hkscs"; u "chinese";
    u "cp1361"; u "cp932"; u "cp936"; u "cp949"; u "cp950"; u "csbig5";
    u "csiso2022kr"; u "csiso58gb231280"; u "csshiftjis"; u "euc_cn";
    u "euc_jis2004"; u "euc_jis_2004"; u "euc_jisx0213"; u "euc_jp";
    u "euc_kr"; u "euccn"; u "eucgb2312_cn"; u "eucjis2004";
    u "eucjisx0213"; u "eucjp"; u "euckr"; u "gb18030"; u "gb18030_2000";
    u "gb2312"; u "gb2312_1980"; u "gb2312_80"; u "gbk"; u "hkscs";
    u "iso2022_kr"; u "iso2022kr"; u "iso_2022_kr"; u "iso_ir_58";
    u "jisx0213"; u "johab"; u "korean"; u "ks_c_5601"; u "ks_c_5601_1987";
    u "ks_x_1001"; u "ksc5601"; u "ksx1001"; u "ms1361"; u "ms932";
    u "ms936"; u "ms949"; u "ms950"; u "ms_kanji"; u "mskanji"; u "s_jis";
    u "s_jis_2004"; u "s_jisx0213"; u "shift_jis"; u "shift_jis_2004";
    u "shift_jisx0213"; u "shiftjis"; u "shiftjis2004"; u "shiftjisx0213";
    u "sjis"; u "sjis_2004"; u "sjisx0213"; u "u16"; u "u32"; u "u7";
    u "u_jis"; u "uhc"; u "ujis"; u "unicode_1_1_utf_7";
    u "unicodebigunmarked"; u "unicodelittleunmarked"; u "utf16"; u "utf32";
    u "utf7"; u "utf_16"; u "utf_16_be"; u "utf_16_le"; u "utf_16be";
    u "utf_16le"; u "utf_32"; u "utf_32_be"; u "utf_32_le"; u "utf_32be";
    u "utf_32le"; u "utf_7"; u "x_mac_japanese"; u "x_mac_korean";
    u "x_mac_simp_chinese"; u "x_mac_trad_chinese" ].

(** The other names under which the lookup finds a codec. *)
Definition other_codecs : list str :=
  [ u "ansi_x3.4_1968"; u "ansi_x3.4_1986"; u "ansi_x3_4_1968"; u "arabic";
    u "ascii"; u "asmo_708"; u "base64"; u "base64_codec"; u "base_64";
    u "bz2"; u "bz2_codec"; u "charmap"; u "cp037"; u "cp1006"; u "cp1026";
    u "cp1051"; u "cp1125"; u "cp1140"; u "cp1250"; u "cp1251"; u "cp1252";
    u "cp1253"; u "cp1254"; u "cp1255"; u "cp1256"; u "cp1257"; u "cp1258";
    u "cp154"; u "cp273"; u "cp367"; u "cp424"; u "cp437"; u "cp500";
    u "cp65001"; u "cp720"; u "cp737"; u "cp775"; u "cp819"; u "cp850";
    u "cp852"; u "cp855"; u "cp856"; u "cp857"; u "cp858"; u "cp860";
    u "cp861"; u "cp862"; u "cp863"; u "cp864"; u "cp865"; u "cp866";
    u "cp866u"; u "cp869"; u "cp874"; u "cp875"; u "cp_gr"; u "cp_is";
    u "csascii"; u "csibm037"; u "csibm1026"; u "csibm273"; u "csibm424";
    u "csibm500"; u "csibm855"; u "csibm857"; u "csibm858"; u "csibm860";
    u "csibm861"; u "csibm863"; u "csibm864"; u "csibm865"; u "csibm866";
    u "csibm869"; u "csiso2022jp"; u "csisolatin1"; u "csisolatin2";
    u "csisolatin3"; u "csisolatin4"; u "csisolatin5"; u "csisolatin6";
    u "csisolatinarabic"; u "csisolatincyrillic"; u "csisolatingreek";
    u "csisolatinhebrew"; u "cskoi8r"; u "cspc775baltic";
    u "cspc850multilingual"; u "cspc862latinhebrew"; u "cspc8codepage437";
    u "cspcp852"; u "csptcp154"; u "cyrillic"; u "cyrillic_asian";
    u "ebcdic_cp_be"; u "ebcdic_cp_ca"; u "ebcdic_cp_ch"; u "ebcdic_cp_he";
    u "ebcdic_cp_nl"; u "ebcdic_cp_us"; u "ebcdic_cp_wt"; u "ecma_114";
    u "ecma_118"; u "elot_928"; u "greek"; u "greek8"; u "hebrew"; u "hex";
    u "hex_codec"; u "hp_roman8"; u "hz"; u "hz_gb"; u "hz_gb_2312";
    u "hzgb"; u "ibm037"; u "ibm039"; u "ibm1026"; u "ibm1051"; u "ibm1125";
    u "ibm1140"; u "ibm273"; u "ibm367"; u "ibm424"; u "ibm437"; u "ibm500";
    u "ibm775"; u "ibm819"; u "ibm850"; u "ibm852"; u "ibm855"; u "ibm857";
    u "ibm858"; u "ibm860"; u "ibm861"; u "ibm862"; u "ibm863"; u "ibm864";
    u "ibm865"; u "ibm866"; u "ibm869"; u "idna"; u "iso2022_jp";
    u "iso2022_jp_1"; u "iso2022_jp_2"; u "iso2022_jp_2004";
    u "iso2022_jp_3"; u "iso2022_jp_ext"; u "iso2022jp"; u "iso2022jp_1";
    u "iso2022jp_2"; u "iso2022jp_2004"; u "iso2022jp_3"; u "iso2022jp_ext";
    u "iso646_us"; u "iso8859"; u "iso8859_1"; u "iso8859_10";
    u "iso8859_11"; u "iso8859_13"; u "iso8859_14"; u "iso8859_15";
    u "iso8859_16"; u "iso8859_2"; u "iso8859_3"; u "iso8859_4";
    u "iso8859_5"; u "iso8859_6"; u "iso8859_7"; u "iso8859_8";
    u "iso8859_9"; u "iso_2022_jp"; u "iso_2022_jp_1"; u "iso_2022_jp_2";
    u "iso_2022_jp_2004"; u "iso_2022_jp_3"; u "iso_2022_jp_ext";
    u "iso_646.irv_1991"; u "iso_8859_1"; u "iso_8859_10";
    u "iso_8859_10_1992"; u "iso_8859_11"; u "iso_8859_11_2001";
    u "iso_8859_13"; u "iso_8859_14"; u "iso_8859_14_1998"; u "iso_8859_15";
    u "iso_8859_16"; u "iso_8859_16_2001"; u "iso_8859_1_1987";
    u "iso_8859_2"; u "iso_8859_2_1987"; u "iso_8859_3";
    u "iso_8859_3_1988"; u "iso_8859_4"; u "iso_8859_4_1988";
    u "iso_8859_5"; u "iso_8859_5_1988"; u "iso_8859_6";
    u "iso_8859_6_1987"; u "iso_8859_7"; u "iso_8859_7_1987";
    u "iso_8859_8"; u "iso_8859_8_1988"; u "iso_8859_9";
    u "iso_8859_9_1989"; u "iso_celtic"; u "iso_ir_100"; u "iso_ir_101";
    u "iso_ir_109"; u "iso_ir_110"; u "iso_ir_126"; u "iso_ir_127";
    u "iso_ir_138"; u "iso_ir_144"; u "iso_ir_148"; u "iso_ir_157";
    u "iso_ir_166"; u "iso_ir_199"; u "iso_ir_226"; u "iso_ir_6";
    u "koi8_r"; u "koi8_t"; u "koi8_u"; u "kz1048"; u "kz_1048"; u "l1";
    u "l10"; u "l2"; u "l3"; u "l4"; u "l5"; u "l6"; u "l7"; u "l8"; u "l9";
    u "latin"; u "latin1"; u "latin10"; u "latin2"; u "latin3"; u "latin4";
    u "latin5"; u "latin6"; u "latin7"; u "latin8"; u "latin9"; u "latin_1";
    u "mac_arabic"; u "mac_centeuro"; u "mac_croatian"; u "mac_cyrillic";
    u "mac_farsi"; u "mac_greek"; u "mac_iceland"; u "mac_latin2";
    u "mac_roman"; u "mac_romanian"; u "mac_turkish"; u "maccentraleurope";
    u "maccyrillic"; u "macgreek"; u "maciceland"; u "macintosh";
    u "maclatin2"; u "macroman"; u "macturkish"; u "palmos"; u "pt154";
    u "ptcp154"; u "punycode"; u "quopri"; u "quopri_codec";
    u "quoted_printable"; u "quotedprintable"; u "r8";
    u "raw_unicode_escape"; u "rk1048"; u "roman8"; u "rot13"; u "rot_13";
    u "ruscii"; u "strk1048_2002"; u "thai"; u "tis620"; u "tis_620";
    u "tis_620_0"; u "tis_620_2529_0"; u "tis_620_2529_1"; u "u8";
    u "undefined"; u "unicode_escape"; u "us"; u "us_ascii"; u "utf";
    u "utf8"; u "utf8_ucs2"; u "utf8_ucs4"; u "utf_8"; u "utf_8_sig";
    u "uu"; u "uu_codec"; u "windows_1250"; u "windows_1251";
    u "windows_1252"; u "windows_1253"; u "windows_1254"; u "windows_1255";
    u "windows_1256"; u "windows_1257"; u "windows_1258"; u "zip"; u "zlib";
    u "zlib_codec" ].

(** The encodings expat reads itself go by their names without regard
    to case; any other name goes to the codec lookup.  A name that is
    not one an XML declaration can give, and a name with a full stop
    that the tables do not hold, are outside the fragment. *)
Definition classify (name : str) : encoding :=
  let lower := map lower_char name in
  if str_eqb lower (u "utf-8") then Utf8
  else if str_eqb lower (u "us-ascii") then UsAscii
  else if str_eqb lower (u "iso-8859-1") then Latin1
  else if mem_str lower [u "utf-16"; u "utf-16be"; u "utf-16le"]
  then OutsideFragment
  else if negb (enc_name name) then OutsideFragment
  else if mem_str (codec_name name) multi_byte_codecs then MultiByte
  else if mem_str (codec_name name) other_codecs then OutsideFragment
  else if existsb (N.eqb 46) name then OutsideFragment
  else Unknown.

(** Line ends: a carriage return, alone or before a line feed, reads
    as a line feed. *)
Fixpoint line_ends (s : str) : str :=
  match s with
  | [] => []
  | c :: r =>
      if N.eqb c CR then
        match r with
        | d :: r' => if N.eqb d LF then LF :: line_ends r' else LF :: line_ends r
        | [] => [LF]
        end
      else c :: line_ends r
  end.

(** *** Positions *)

(** Line and column after [k] characters of [s]: lines count from 1,
    columns from 0. *)
Fixpoint locate (s : str) (k line column : nat) : nat * nat :=
  match k, s with
  | S k', c :: s' =>
      if N.eqb c LF then locate s' k' (S line) 0
      else locate s' k' line (S column)
  | _, _ => (line, column)
  end.

Definition decimal (n : nat) : str :=
  u (NilEmpty.string_of_uint (Nat.to_uint n)).

(** A diagnostic as expat words it: the message, then the position. *)
Definition diagnostic_at (s : str) (message : str) (k : nat) : str :=
  let (line, column) := locate s k 1 0 in
  message ++ u ": line " ++ decimal line ++ u ", column " ++ decimal column.

(** *** Tokens *)

(** An attribute as written, and the offset of its name. *)
Record attribute := mkAttribute {
  a_name : str;
  a_value : str;
  a_at : nat
}.

(** A token and the offset it is reported at: a tag at its [<], an end
    tag at its name. *)
Inductive token :=
| TStart (name : str) (attrs : list attribute) (at_offset : nat)
| TEmpty (name : str) (attrs : list attribute) (at_offset : nat)
| TEnd (name : str) (at_offset : nat)
| TText (data : str).

Inductive lex_state :=
| LText (buf : str) (brackets : nat)
| LLt
| LPIStart
| LPITarget (target : str)
| LPIData (qmark : bool)
| LPIEnd
| LName (name : str) (colon : bool)
| LNameColon (name : str)
| LTag (name : str) (attrs : list attribute) (spaced : bool)
| LAttrName (name : str) (attrs : list attribute) (an : str) (colon : bool)
| LAttrColon (name : str) (attrs : list attribute) (an : str)
| LAttrEq (name : str) (attrs : list attribute) (an : str)
| LAttrQuote (name : str) (attrs : list attribute) (an : str)
| LAttrValue (name : str) (attrs : list attribute) (an : str)
             (quote : char) (buf : str)
| LEmptyTag (name : str) (attrs : list attribute)
| LEndSlash
| LEndName (name : str)
| LEndSpace (name : str)
| LFail (message : str) (at_offset : nat)
| LOutside.

(** The lexer between two characters: its state, the tokens so far,
    the offset of the next character, the offset the token being read
    started at, the offset of the name being read, the number of
    elements that are open, and whether the root element has been
    started. *)
Record lexing := mkLexing {
  state : lex_state;
  out : list token;
  offset : nat;
  token_at : nat;
  name_at : nat;
  depth : nat;
  rooted : bool
}.

Definition flush (buf : str) (toks : list token) : list token :=
  match buf with
  | [] => toks
  | _ => toks ++ [TText buf]
  end.

Definition INVALID_TOKEN : str := u "not well-formed (invalid token)".
Definition JUNK : str := u "junk after document element".

(** One character of input.  Outside the root element only white
    space, processing instructions and the start of an element are
    read; a name character that is not ASCII is outside the
    fragment. *)
Definition lex_step (l : lexing) (c : char) : lexing :=
  let k := offset l in
  let go st :=
    mkLexing st (out l) (S k) (token_at l) (name_at l) (depth l) (rooted l) in
  let name st :=
    mkLexing st (out l) (S k) (token_at l) k (depth l) (rooted l) in
  let invalid := go (LFail INVALID_TOKEN k) in
  let outside := go LOutside in
  let bad := if non_ascii c then outside else invalid in
  let emit tok d :=
    mkLexing (LText [] 0) (out l ++ [tok]) (S k) (S k) (name_at l) d true in
  let resume :=
    mkLexing (LText [] 0) (out l) (S k) (S k) (name_at l) (depth l) (rooted l) in
  let open toks :=
    mkLexing LLt toks (S k) k (name_at l) (depth l) (rooted l) in
  match state l with
  | LText buf brackets =>
      match depth l with
      | O =>
          if is_space c then go (LText [] 0)
          else if N.eqb c c_lt then open (out l)
          else outside
      | S _ =>
          if N.eqb c c_lt then open (flush buf (out l))
          else if N.eqb c c_amp then outside
          else if forbidden c then invalid
          else if N.eqb c c_gt && (2 <=? brackets) then invalid
          else go (LText (buf ++ [c]) (if N.eqb c c_rsqb then S brackets else 0))
      end
  | LLt =>
      if N.eqb c c_qmark then go LPIStart
      else if N.eqb c c_bang then outside
      else
        match depth l with
        | O =>
            if is_name_start c then
              if rooted l then go (LFail JUNK (token_at l))
              else go (LName [c] false)
            else bad
        | S _ =>
            if N.eqb c c_slash then go LEndSlash
            else if is_name_start c then go (LName [c] false)
            else bad
        end
  | LPIStart => if is_name_start c then go (LPITarget [c]) else bad
  | LPITarget target =>
      if is_name_char c then go (LPITarget (target ++ [c]))
      else if is_space c || N.eqb c c_qmark then
        if str_eqb (map lower_char target) (u "xml")
           && negb (str_eqb target (u "xml") && Nat.eqb (token_at l) 0)
        then outside
        else go (if is_space c then LPIData false else LPIEnd)
      else bad
  | LPIData qmark =>
      if qmark && N.eqb c c_gt then resume
      else if forbidden c then invalid
      else go (LPIData (N.eqb c c_qmark))
  | LPIEnd => if N.eqb c c_gt then resume else invalid
  | LName n colon =>
      if is_name_char c then go (LName (n ++ [c]) colon)
      else if N.eqb c c_colon then
        if colon then invalid else go (LNameColon n)
      else if is_space c then go (LTag n [] true)
      else if N.eqb c c_gt then emit (TStart n [] (token_at l)) (S (depth l))
      else if N.eqb c c_slash then go (LEmptyTag n [])
      else bad
  | LNameColon n =>
      if is_name_start c then go (LName (n ++ [c_colon; c]) true) else bad
  | LTag n attrs spaced =>
      if is_space c then go (LTag n attrs true)
      else if N.eqb c c_gt then emit (TStart n attrs (token_at l)) (S (depth l))
      else if N.eqb c c_slash then go (LEmptyTag n attrs)
      else if spaced then
        if is_name_start c then name (LAttrName n attrs [c] false) else bad
      else invalid
  | LAttrName n attrs an colon =>
      if is_name_char c then go (LAttrName n attrs (an ++ [c]) colon)
      else if N.eqb c c_colon then
        if colon then invalid else go (LAttrColon n attrs an)
      else if N.eqb c c_eq then go (LAttrQuote n attrs an)
      else if is_space c then go (LAttrEq n attrs an)
      else bad
  | LAttrColon n attrs an =>
      if is_name_start c then go (LAttrName n attrs (an ++ [c_colon; c]) true)
      else bad
  | LAttrEq n attrs an =>
      if is_space c then go (state l)
      else if N.eqb c c_eq then go (LAttrQuote n attrs an)
      else invalid
  | LAttrQuote n attrs an =>
      if is_space c then go (state l)
      else if is_quote c then go (LAttrValue n attrs an c [])
      else invalid
  | LAttrValue n attrs an q buf =>
      if N.eqb c q
      then go (LTag n (attrs ++ [mkAttribute an buf (name_at l)]) false)
      else if N.eqb c c_lt then invalid
      else if N.eqb c c_amp then outside
      else if forbidden c then invalid
      else go (LAttrValue n attrs an q (buf ++ [if is_space c then c_space else c]))
  | LEmptyTag n attrs =>
      if N.eqb c c_gt then emit (TEmpty n attrs (token_at l)) (depth l)
      else invalid
  | LEndSlash =>
      if is_name_start c then name (LEndName [c]) else bad
  | LEndName n =>
      if is_name_char c || N.eqb c c_colon then go (LEndName (n ++ [c]))
      else if is_space c then go (LEndSpace n)
      else if N.eqb c c_gt then emit (TEnd n (name_at l)) (pred (depth l))
      else bad
  | LEndSpace n =>
      if is_space c then go (state l)
      else if N.eqb c c_gt then emit (TEnd n (name_at l)) (pred (depth l))
      else invalid
  | LFail _ _ => l
  | LOutside => l
  end.

Definition lex (s : str) : lexing :=
  fold_left lex_step s (mkLexing (LText [] 0) [] 0 0 0 0 false).

(** *** Namespaces *)

Definition XML_NS : str := u "http://www.w3.org/XML/1998/namespace".
Definition XMLNS_NS : str := u "http://www.w3.org/2000/xmlns/".

(** The bindings in scope: prefix to URI, the default namespace under
    the empty prefix.  The prefix [xml] is always bound. *)
Definition initial_ns : dict str := [(u "xml", XML_NS)].

(** [prefix:local] split at its first colon. *)
Fixpoint split_qname (name : str) : option str * str :=
  match name with
  | [] => (None, [])
  | c :: rest =>
      if N.eqb c c_colon then (Some [], rest)
      else
        match split_qname rest with
        | (Some p, l) => (Some (c :: p), l)
        | (None, l) => (None, c :: l)
        end
  end.

(** The prefix that an attribute declares, the empty prefix for the
    default namespace. *)
Definition declared_prefix (name : str) : option str :=
  match split_qname name with
  | (None, l) => if str_eqb l (u "xmlns") then Some [] else None
  | (Some p, l) => if str_eqb p (u "xmlns") then Some l else None
  end.

Definition is_declaration (a : attribute) : bool :=
  match declared_prefix (a_name a) with
  | Some _ => true
  | None => false
  end.

(** Declarations that touch the reserved prefixes and namespace names,
    or a namespace name that holds the brace ElementTree writes after
    it, are outside the fragment. *)
Definition reserved (prefix uri : str) : bool :=
  str_eqb prefix (u "xml") || str_eqb prefix (u "xmlns")
  || str_eqb uri XML_NS || str_eqb uri XMLNS_NS || existsb (N.eqb 125) uri.

Inductive attr_scan :=
| Scanned (ns : dict str)
| ScanFail (message : str) (at_offset : nat)
| ScanOutside.

(** The attributes of a start tag in the order written: a name that
    repeats an earlier one is an error at that name, a declaration
    that binds a prefix to the empty namespace name is an error at the
    tag, any other declaration is added to the bindings in scope. *)
Fixpoint scan_attrs (seen : list str) (ns : dict str) (attrs : list attribute)
  (tag_at : nat) : attr_scan :=
  match attrs with
  | [] => Scanned ns
  | a :: rest =>
      if mem_str (a_name a) seen
      then ScanFail (u "duplicate attribute") (a_at a)
      else
        match declared_prefix (a_name a) with
        | Some p =>
            if reserved p (a_value a) then ScanOutside
            else
              match p, a_value a with
              | _ :: _, [] => ScanFail (u "must not undeclare prefix") tag_at
              | _, uri =>
                  scan_attrs (a_name a :: seen) (dict_set ns p uri) rest tag_at
              end
        | None => scan_attrs (a_name a :: seen) ns rest tag_at
        end
  end.

(** The expanded name of an element: a prefix must be bound, a bare
    name takes the default namespace when one is in scope. *)
Definition expand_tag (ns : dict str) (name : str) : option str :=
  match split_qname name with
  | (Some p, l) =>
      match dict_get ns p with
      | Some uri => Some (qname uri l)
      | None => None
      end
  | (None, l) =>
      match dict_get ns [] with
      | Some [] | None => Some l
      | Some uri => Some (qname uri l)
      end
  end.

(** The expanded name of an attribute: a bare name is in no namespace. *)
Definition expand_attr (ns : dict str) (name : str) : option str :=
  match split_qname name with
  | (Some p, l) =>
      match dict_get ns p with
      | Some uri => Some (qname uri l)
      | None => None
      end
  | (None, l) => Some l
  end.

Fixpoint present {A} (l : list (option A)) : list A :=
  match l with
  | [] => []
  | Some a :: rest => a :: present rest
  | None :: rest => present rest
  end.

Fixpoint repeats (names : list str) : bool :=
  match names with
  | [] => false
  | n :: rest => mem_str n rest || repeats rest
  end.

(** *** Tree construction *)

(** An element whose end tag has not been read yet. *)
Record frame := mkFrame {
  f_name : str;
  f_tag : str;
  f_attrib : dict str;
  f_text : option str;
  f_children : list Element;
  f_ns : dict str
}.

Inductive build_state :=
| Building (stack : list frame) (root : option Element)
| BFail (message : str) (at_offset : nat)
| BOutside.

Definition scope (stack : list frame) : dict str :=
  match stack with
  | f :: _ => f_ns f
  | [] => initial_ns
  end.

(** A start tag: its attributes are scanned, then the names of the
    other attributes and of the element are expanded.  Two attributes
    with one expanded name are outside the fragment. *)
Definition open_element (stack : list frame) (name : str)
  (attrs : list attribute) (at_offset : nat) : build_state :=
  match scan_attrs [] (scope stack) attrs at_offset with
  | ScanFail message k => BFail message k
  | ScanOutside => BOutside
  | Scanned ns =>
      let plain := filter (fun a => negb (is_declaration a)) attrs in
      let names := map (fun a => expand_attr ns (a_name a)) plain in
      if repeats (present names) then BOutside
      else if Nat.eqb (List.length (present names)) (List.length names) then
        match expand_tag ns name with
        | Some t =>
            Building
              (mkFrame name t (combine (present names) (map a_value plain))
                 None [] ns :: stack) None
        | None => BFail (u "unbound prefix") at_offset
        end
      else BFail (u "unbound prefix") at_offset
  end.

Definition close_element (stack : list frame) (name : str) (at_offset : nat)
  : build_state :=
  match stack with
  | [] => BOutside
  | f :: rest =>
      if str_eqb (f_name f) name then
        let e := mkElement (f_tag f) (f_attrib f) (f_text f) (f_children f) in
        match rest with
        | [] => Building [] (Some e)
        | p :: rest' =>
            Building (mkFrame (f_name p) (f_tag p) (f_attrib p) (f_text p)
                              (f_children p ++ [e]) (f_ns p) :: rest') None
        end
      else BFail (u "mismatched tag") at_offset
  end.

(** Character data goes to the text of the innermost open element
    until that element has a child. *)
Definition add_text (stack : list frame) (root : option Element) (data : str)
  : build_state :=
  match stack with
  | [] => Building stack root
  | f :: rest =>
      match f_children f with
      | [] =>
          let t := match f_text f with Some s => s ++ data | None => data end in
          Building (mkFrame (f_name f) (f_tag f) (f_attrib f) (Some t) []
                            (f_ns f) :: rest) root
      | _ => Building stack root
      end
  end.

Definition build_step (st : build_state) (tok : token) : build_state :=
  match st with
  | Building stack root =>
      match tok with
      | TText data => add_text stack root data
      | TEnd name k => close_element stack name k
      | TStart name attrs k => open_element stack name attrs k
      | TEmpty name attrs k =>
          match open_element stack name attrs k with
          | Building stack' _ => close_element stack' name k
          | failed => failed
          end
      end
  | _ => st
  end.

Definition outside_fragment : exn + Element := inl (ParseError (u "unsupported")).

Definition ends_with_cr (s : str) : bool :=
  match rev s with
  | c :: _ => N.eqb c CR
  | [] => false
  end.

(** The tree of a decoded document.  The tokens read before the input
    breaks off are built first, so that the earliest error is the one
    reported; an input that stops at a byte sequence that is no
    character has an invalid token there. *)
Definition parse (text : decoded) : exn + Element :=
  let s := line_ends (fst text) in
  let l := lex s in
  let error message k := inl (ParseError (diagnostic_at s message k)) in
  match read_declaration (fst text) with
  | BadDeclaration => outside_fragment
  | _ =>
      match fold_left build_step (out l) (Building [] None) with
      | BFail message k => error message k
      | BOutside => outside_fragment
      | Building stack root =>
          match state l, snd text with
          | LFail message k, _ => error message k
          | LOutside, _ => outside_fragment
          | _, Beyond => outside_fragment
          | _, Broken => error INVALID_TOKEN (List.length s)
          | LText _ _, Whole =>
              match stack, root with
              | [], Some e => inr e
              | _, _ =>
                  if ends_with_cr (fst text) then outside_fragment
                  else error (u "no element found") (List.length s)
              end
          | _, Whole => error (u "unclosed token") (token_at l)
          end
      end
  end.

(** [ET.fromstring(data)]: the root element, or what it raises. *)
Definition fromstring (data : bytes) : exn + Element :=
  let bs := map Byte.to_N data in
  if utf16_mark bs then outside_fragment
  else
    match read_declaration bs with
    | BadDeclaration => outside_fragment
    | NoDeclaration | Declared None => parse (utf8_decode bs)
    | Declared (Some name) =>
        match classify name with
        | Utf8 => parse (utf8_decode bs)
        | UsAscii => parse (ascii_decode bs)
        | Latin1 => parse (latin1_decode bs)
        | MultiByte =>
            inl (ValueError (u "multi-byte encodings are not supported"))
        | OutsideFragment => outside_fragment
        | Unknown => inl (LookupError (u "unknown encoding: " ++ name))
        end
    end.

End MiniXML.

(* ================================================================== *)
(** ** The script *)
(* ================================================================== *)

Open Scope py_scope.

Section App.

(** The libraries the script calls into.  [requests.get] returns a
    response or raises a [RequestException] with a message;
    [raise_for_status] raises one ([Some message]) on an error status;
    [ET.fromstring] returns the root element or raises: [ParseError]
    with a diagnostic for input that is not well formed, and for a
    declared encoding that the codec lookup does not know, or that is
    multi-byte, the [LookupError] or [ValueError] of that lookup;
    [str.lower] is Python's. *)
Variable Response : Type.
Variable requests_get : str -> str + Response.
Variable raise_for_status : Response -> option str.
Variable content : Response -> bytes.
Variable ET_fromstring : bytes -> exn + Element.
Variable str_lower : str -> str.

Definition API_ENDPOINT : str :=
  u "https://stats-nsi-stable.pacificdata.org/rest/codelist?detail=allstubs".

Definition NS_STRUCTURE : str :=
  u "http://www.sdmx.org/resources/sdmxml/schemas/v2_1/structure".
Definition NS_COMMON : str :=
  u "http://www.sdmx.org/resources/sdmxml/schemas/v2_1/common".
Definition XML_LANG : str :=
  u "{http://www.w3.org/XML/1998/namespace}lang".

Definition TAG_CODELIST : str := qname NS_STRUCTURE (u "Codelist").
Definition TAG_CODE : str := qname NS_STRUCTURE (u "Code").
Definition TAG_NAME : str := qname NS_COMMON (u "Name").

Definition call_requests_get (url : str) : M Response :=
  match requests_get url with
  | inl message => raise (RequestException message)
  | inr response => ret response
  end.

Definition call_raise_for_status (response : Response) : M unit :=
  match raise_for_status response with
  | Some message => raise (RequestException message)
  | None => ret tt
  end.

Definition call_fromstring (xml_content : bytes) : M Element :=
  match ET_fromstring xml_content with
  | inl e => raise e
  | inr root => ret root
  end.

(** The inner loop of both parsers (lines 42-47 and 92-97):
[[
    names = {}
    for name_elem in elem.findall(".//common:Name", ...):
        lang = name_elem.attrib.get("{...namespace}lang", "unknown")
        names[lang] = name_elem.text
]] *)
Definition lang_of (name_elem : Element) : str :=
  dict_get_default (attrib name_elem) XML_LANG (u "unknown").

Definition extract_names (elem : Element) : dict value :=
  fold_left
    (fun names name_elem =>
       dict_set names (lang_of name_elem) (of_text (text name_elem)))
    (findall_descendants elem TAG_NAME) [].

(** The body of the loop over [Codelist] elements (lines 35-58). *)
Definition codelist_record (codelist : Element) : dict value :=
  let codelist_id := dict_get_default (attrib codelist) (u "id") (u "Unknown ID") in
  let agency_id :=
    dict_get_default (attrib codelist) (u "agencyID") (u "Unknown Agency") in
  let version :=
    dict_get_default (attrib codelist) (u "version") (u "Unknown Version") in
  let is_final :=
    str_eqb
      (str_lower (dict_get_default (attrib codelist) (u "isFinal") (u "Unknown")))
      (u "true") in
  let structure_url :=
    dict_get_default (attrib codelist) (u "structureURL") (u "Unknown URL") in
  let names := extract_names codelist in
  [ (u "Codelist ID", VStr codelist_id);
    (u "Agency ID", VStr agency_id);
    (u "Version", VStr version);
    (u "Is Final", VBool is_final);
    (u "Structure URL", VStr structure_url);
    (u "Name (en)", dict_get_default names (u "en") (VStr (u "N/A")));
    (u "Name (fr)", dict_get_default names (u "fr") (VStr (u "N/A"))) ].

(** [codelist_data] after the loop of lines 31-58 over the root. *)
Definition codelist_data (root : Element) : list (dict value) :=
  fold_left (fun data codelist => data ++ [codelist_record codelist])
            (findall_descendants root TAG_CODELIST) [].

Definition fetch_codelists_from_xml : M DataFrame :=
  try_except
    (response <- call_requests_get API_ENDPOINT ;;
     call_raise_for_status response ;;;
     let xml_content := content response in
     root <- call_fromstring xml_content ;;
     ret (DataFrame_of (codelist_data root)))
    (fun e =>
       match e with
       | ParseError diagnostic =>
           st_error (u "Error parsing XML: " ++ diagnostic) ;;;
           ret (DataFrame_of [])
       | RequestException message =>
           st_error (u "Error fetching data from API: " ++ message) ;;;
           ret (DataFrame_of [])
       | _ => raise e
       end).

(** The body of the loop over [Code] elements (lines 91-103). *)
Definition code_record (code : Element) : dict value :=
  let code_id := dict_get_default (attrib code) (u "id") (u "Unknown Code") in
  let names := extract_names code in
  [ (u "Code ID", VStr code_id);
    (u "Name (en)", dict_get_default names (u "en") (VStr (u "N/A")));
    (u "Name (fr)", dict_get_default names (u "fr") (VStr (u "N/A"))) ].

Definition code_items (root : Element) : list (dict value) :=
  fold_left (fun items code => items ++ [code_record code])
            (findall_descendants root TAG_CODE) [].

Definition parse_codelist_items (xml_content : bytes) : M DataFrame :=
  try_except
    (root <- call_fromstring xml_content ;;
     ret (DataFrame_of (code_items root)))
    (fun e =>
       match e with
       | ParseError diagnostic =>
           st_error (u "Error parsing codelist XML: " ++ diagnostic) ;;;
           ret (DataFrame_of [])
       | _ => raise e
       end).

(** [row[key]] for a row handed out by [iterrows]. *)
Fixpoint row_lookup (cols : list str) (row : list value) (key : str)
  : option value :=
  match cols, row with
  | c :: cols', v :: row' =>
      if str_eqb c key then Some v else row_lookup cols' row' key
  | _, _ => None
  end.

Definition row_get (df : DataFrame) (row : list value) (key : str) : M value :=
  match row_lookup (columns df) row key with
  | Some v => ret v
  | None => raise (KeyError key)
  end.

(** [for x in xs: acc = body(acc, x)] where the body may raise. *)
Fixpoint for_each {A S} (xs : list A) (body : S -> A -> M S) (s : S) : M S :=
  match xs with
  | [] => ret s
  | x :: xs' => s' <- body s x ;; for_each xs' body s'
  end.

(** The document is kept as its pages, each the lines placed on it; the
    PDF byte stream is not modelled. *)
Definition create_pdf (dataframe : DataFrame) : M (list Page) :=
  let c := new_Canvas letter in
  let text := beginText c (pt 50) (pt 750) in
  let text := setFont text (u "Helvetica") (pt 10) in
  let text := textLine text (u "Codelist Details") in
  let text := textLine text (repeat 45%N 50) in
  text <- for_each (rows dataframe)
            (fun text row =>
               code_id <- row_get dataframe row (u "Code ID") ;;
               let text := textLine text (u "Code ID: " ++ py_str code_id) in
               name_en <- row_get dataframe row (u "Name (en)") ;;
               let text := textLine text (u "Name (en): " ++ py_str name_en) in
               name_fr <- row_get dataframe row (u "Name (fr)") ;;
               let text := textLine text (u "Name (fr): " ++ py_str name_fr) in
               ret (textLine text []))
            text ;;
  let c := drawText c text in
  ret (save c).

(** The CSV download (lines 180-184): the table is written to a text
    buffer, and the text is then encoded. *)
Definition csv_download_data (codelist_items_df : DataFrame) : M bytes :=
  let csv_buffer := to_csv codelist_items_df (u "ISO-8859-1") in
  lift (encode_latin1 csv_buffer).

End App.

(* ================================================================== *)
(** ** Reference notions the properties are stated with *)
(* ================================================================== *)

Module Ref.

Definition has_tag (t : str) (e : Element) : bool := str_eqb (tag e) t.

(** An element followed by everything below it, in document order. *)
Fixpoint self_and_descendants (e : Element) : list Element :=
  match e with
  | mkElement _ _ _ cs => e :: flat_map self_and_descendants cs
  end.

(** Everything below an element, at any depth, in document order. *)
Definition descendants (e : Element) : list Element :=
  flat_map self_and_descendants (children e).

(** The elements below [root] that carry the tag [t]. *)
Definition elements_tagged (t : str) (root : Element) : list Element :=
  filter (has_tag t) (descendants root).

(** How many elements carry the tag [t], the element itself counted. *)
Fixpoint count_in (t : str) (e : Element) : nat :=
  match e with
  | mkElement t' _ _ cs =>
      (if str_eqb t' t then 1 else 0)
      + fold_right (fun c n => count_in t c + n) 0 cs
  end.

(** How many elements below [root] carry the tag [t]. *)
Definition count_tagged (t : str) (root : Element) : nat :=
  fold_right (fun c n => count_in t c + n) 0 (children root).

(** One dict of [pd.DataFrame(data)]: its keys not yet among the
    columns are added after them. *)
Definition add_keys (cols ks : list str) : list str :=
  fold_left (fun cols k => if mem_str k cols then cols else cols ++ [k]) ks cols.

(** One round of the names loop. *)
Definition names_step (names : dict value) (name_elem : Element) : dict value :=
  dict_set names (lang_of name_elem) (of_text (text name_elem)).

(** The last [Name] element, in document order, whose language tag is
    [lang]. *)
Definition last_named (lang : str) (names : list Element) : option Element :=
  find (fun e => str_eqb (lang_of e) lang) (rev names).

(** The languages of a list of [Name] elements. *)
Definition languages (names : list Element) : list str := map lang_of names.

(** The column of a record that a language would be read from. *)
Definition name_column (lang : str) : str := u "Name (" ++ lang ++ u ")".

(** Case folding on the ASCII range. *)
Definition ascii_lower_char (c : char) : char :=
  if ((65 <=? c) && (c <=? 90))%N then (c + 32)%N else c.

Definition ascii_lower (s : str) : str := map ascii_lower_char s.

Definition is_ascii (s : str) : bool := forallb (fun c => (c <? 128)%N) s.

(** A code point that ISO-8859-1 can encode. *)
Definition latin1 (c : char) : bool := (c <? 256)%N.

(** The three columns of the codelist table. *)
Definition CODE_COLUMNS : list str :=
  [u "Code ID"; u "Name (en)"; u "Name (fr)"].

Definition CODELIST_COLUMNS : list str :=
  [u "Codelist ID"; u "Agency ID"; u "Version"; u "Is Final";
   u "Structure URL"; u "Name (en)"; u "Name (fr)"].

(** The baseline of line number [k] of the text block of [create_pdf]:
    the first line at 750 points, 12 points between lines. *)
Definition baseline (k : nat) : Z := (pt 750 - 120 * Z.of_nat k)%Z.

(** The lines of the text block placed one under the other from line
    number [k] on, in 10 point Helvetica at the left margin of 50
    points. *)
Fixpoint place (k : nat) (lines : list str) : list TextLine :=
  match lines with
  | [] => []
  | s :: rest =>
      mkTextLine (pt 50) (baseline k) (u "Helvetica") (pt 10) s
      :: place (S k) rest
  end.

(** A text object of [create_pdf] about to write line number [k]. *)
Definition at_line (k : nat) (t : TextObject) : Prop :=
  cur_x t = pt 50 /\ cur_y t = baseline k /\ font_name t = u "Helvetica"
  /\ font_size t = pt 10 /\ leading t = 120%Z.

(** The four lines of a row of the codelist table. *)
Definition row_lines (row : list value) : list str :=
  match row with
  | [code_id; name_en; name_fr] =>
      [ u "Code ID: " ++ py_str code_id;
        u "Name (en): " ++ py_str name_en;
        u "Name (fr): " ++ py_str name_fr;
        [] ]
  | _ => []
  end.

Definition title_lines : list str := [u "Codelist Details"; repeat 45%N 50].

(** All lines of the document: title, separator, four lines per row. *)
Definition document_lines (table : list (list value)) : list str :=
  title_lines ++ flat_map row_lines table.

(** The table of a sequence of [Code] elements. *)
Definition code_table (codes : list Element) : DataFrame :=
  DataFrame_of (map code_record codes).

Definition code_rows (codes : list Element) : list (list value) :=
  map (fun code => map snd (code_record code)) codes.

End Ref.

Import Ref.

(* ================================================================== *)
(** ** Reference notions for the exports *)
(* ================================================================== *)

Module RefExport.

(** The id and the name in a language that a [Code] element is
    exported under. *)
Definition code_id_of (code : Element) : str :=
  dict_get_default (attrib code) (u "id") (u "Unknown Code").

Definition name_of (lang : str) (elem : Element) : value :=
  dict_get_default (extract_names elem) lang (VStr (u "N/A")).

(** A text as a CSV field: as it is, or between double quotes with
    every double quote doubled when it holds a comma, a double quote
    or a line feed. *)
Definition needs_quotes (s : str) : bool :=
  existsb (fun c => N.eqb c 44 || N.eqb c 34 || N.eqb c 10) s.

Definition quoted (s : str) : str :=
  34%N :: flat_map (fun c => if N.eqb c 34 then [34%N; 34%N] else [c]) s ++ [34%N].

(** A cell as a CSV field: a missing value is the empty field. *)
Definition written (v : value) : str :=
  match v with
  | VStr s => if needs_quotes s then quoted s else s
  | VBool true => u "True"
  | VBool false => u "False"
  | VNone | VNaN => []
  end.

(** The header line of the codelist CSV, and the line of a code. *)
Definition CSV_HEADER : str := u "Code ID,Name (en),Name (fr)" ++ [10%N].

Definition code_line (code : Element) : str :=
  written (VStr (code_id_of code)) ++ [44%N]
  ++ written (name_of (u "en") code) ++ [44%N]
  ++ written (name_of (u "fr") code) ++ [10%N].

(** The CSV text of a sequence of codes: the header line, then one
    line per code. *)
Definition csv_text (codes : list Element) : str :=
  CSV_HEADER ++ flat_map code_line codes.

(** The row of a code in the table. *)
Definition code_row (code : Element) : list value :=
  [VStr (code_id_of code); name_of (u "en") code; name_of (u "fr") code].

End RefExport.

Import RefExport.

(* ================================================================== *)
(** ** Concrete libraries and documents *)
(* ================================================================== *)

Module Concrete.

(** An HTTP client that answers every request with [doc], status 200. *)
Definition serve (doc : bytes) : str -> str + bytes := fun _ => inr doc.
Definition status_ok : bytes -> option str := fun _ => None.
Definition body : bytes -> bytes := fun response => response.

(** The registry parser run on a served document. *)
Definition registry (doc : bytes) : M DataFrame :=
  fetch_codelists_from_xml (serve doc) status_ok body MiniXML.fromstring
    ascii_lower.

(** The detail parser run on a document. *)
Definition detail (doc : bytes) : M DataFrame :=
  parse_codelist_items MiniXML.fromstring doc.

Definition xmlns_decls : string :=
  " xmlns:s='http://www.sdmx.org/resources/sdmxml/schemas/v2_1/structure' xmlns:c='http://www.sdmx.org/resources/sdmxml/schemas/v2_1/common'".

Definition xmlns_message : string :=
  " xmlns:m='http://www.sdmx.org/resources/sdmxml/schemas/v2_1/message'".

Definition cl_sex_body : string :=
  "<s:Codelist id='CL_SEX' agencyID='SPC' version='1.0' isFinal='true' structureURL='http://x/cl_sex'><c:Name xml:lang='en'>Sex</c:Name><c:Name xml:lang='fr'>Sexe</c:Name></s:Codelist></m:Codelists>".

(** The scenario document as written: the prefix [m] of its root is
    not declared. *)
Definition cl_sex_doc : bytes :=
  bq ("<m:Codelists" ++ xmlns_decls ++ ">" ++ cl_sex_body).

(** The same document with the prefix [m] declared. *)
Definition cl_sex_doc_declared : bytes :=
  bq ("<m:Codelists" ++ xmlns_message ++ xmlns_decls ++ ">" ++ cl_sex_body).

(** The [Codelist] element of the scenario document and the tree
    around it. *)
Definition cl_sex_codelist : Element :=
  mkElement TAG_CODELIST
    [ (u "id", u "CL_SEX"); (u "agencyID", u "SPC");
      (u "version", u "1.0"); (u "isFinal", u "true");
      (u "structureURL", u "http://x/cl_sex") ]
    None
    [ mkElement TAG_NAME [(XML_LANG, u "en")] (Some (u "Sex")) [];
      mkElement TAG_NAME [(XML_LANG, u "fr")] (Some (u "Sexe")) [] ].

Definition cl_sex_tree : Element :=
  mkElement
    (qname (u "http://www.sdmx.org/resources/sdmxml/schemas/v2_1/message")
           (u "Codelists"))
    [] None [cl_sex_codelist].

(** The row the scenario expects. *)
Definition cl_sex_row : list value :=
  [ VStr (u "CL_SEX"); VStr (u "SPC"); VStr (u "1.0"); VBool true;
    VStr (u "http://x/cl_sex"); VStr (u "Sex"); VStr (u "Sexe") ].

(** A registry with two codelists at different depths. *)
Definition registry_doc : bytes :=
  bq ("<m:Structure" ++ xmlns_message ++ xmlns_decls ++ "><m:Structures><s:Codelists><s:Codelist id='CL_A' agencyID='SPC'/></s:Codelists><s:Codelist isFinal='TRUE'><c:Name xml:lang='en'>B</c:Name><c:Name>b</c:Name></s:Codelist></m:Structures></m:Structure>").

(** A codelist with three codes: both names, French only, and an
    English name without text. *)
Definition detail_doc : bytes :=
  bq ("<m:Structure" ++ xmlns_message ++ xmlns_decls ++ "><s:Codelist id='CL_SEX'><s:Code id='F'><c:Name xml:lang='en'>Female</c:Name><c:Name xml:lang='fr'>Femme</c:Name></s:Code><s:Code id='M'><c:Name xml:lang='fr'>Homme</c:Name></s:Code><s:Code id='U'><c:Name xml:lang='en'/></s:Code></s:Codelist></m:Structure>").

(** What [MiniXML] reads from a document; the empty element stands
    for a rejected one. *)
Definition tree_of (doc : bytes) : Element :=
  match MiniXML.fromstring doc with
  | inr root => root
  | inl _ => mkElement [] [] None []
  end.

Definition registry_tree : Element := Eval vm_compute in tree_of registry_doc.
Definition detail_tree : Element := Eval vm_compute in tree_of detail_doc.

(** A codelist without attributes and names. *)
Definition bare_codelist : Element := mkElement TAG_CODELIST [] None [].

(** A codelist whose only name is German. *)
Definition codelist_de : Element :=
  mkElement TAG_CODELIST [(u "id", u "CL_SEX")] None
    [ mkElement TAG_NAME [(XML_LANG, u "de")] (Some (u "Geschlecht")) [] ].

(** A code with two English names, the first without text. *)
Definition empty_english_name : Element :=
  mkElement TAG_NAME [(XML_LANG, u "en")] None [].

Definition code_two_english : Element :=
  mkElement TAG_CODE [(u "id", u "F")] None
    [ empty_english_name;
      mkElement TAG_NAME [(XML_LANG, u "en")] (Some (u "Female")) [] ].

(** A code whose only English name has no text. *)
Definition code_empty_english : Element :=
  mkElement TAG_CODE [(u "id", u "U")] None [empty_english_name].

(** A code whose English name is the euro sign, U+20AC. *)
Definition euro_code : Element :=
  mkElement TAG_CODE [(u "id", u "EUR")] None
    [ mkElement TAG_NAME [(XML_LANG, u "en")] (Some [8364%N]) [] ].

(** The same code in a detail document, the euro sign in UTF-8. *)
Definition euro_doc : bytes :=
  bq ("<m:Structure" ++ xmlns_message ++ xmlns_decls ++ "><s:Code id='EUR'><c:Name xml:lang='en'>")
  ++ [xe2; x82; xac] ++ b "</c:Name></s:Code></m:Structure>".

Definition euro_tree : Element := Eval vm_compute in tree_of euro_doc.

(** Sixteen codes: 66 lines of text. *)
Definition sixteen_codes : list Element := repeat code_empty_english 16.

(** The codes of [detail_doc], and the second of them, which has a
    French name only. *)
Definition detail_codes : list Element :=
  Eval vm_compute in findall_descendants detail_tree TAG_CODE.

Definition code_male : Element :=
  Eval vm_compute in nth 1 detail_codes bare_codelist.

(** The bytes of the CSV download of [detail_doc]. *)
Definition detail_csv : bytes :=
  Eval vm_compute in
    match csv_download_data (code_table detail_codes) [] with
    | (inr data, _) => data
    | _ => []
    end.

(** The truncated input. *)
Definition truncated : bytes := b "<Codelist".


Definition truncated_foo : bytes :=
  bq "<?xml version='1.0' encoding='foo'?><Codelist".

(** A detail document of two codes: one with a French name only, one
    whose English name is the euro sign. *)
Definition male_euro_doc : bytes :=
  bq ("<m:Structure" ++ xmlns_message ++ xmlns_decls ++ "><s:Code id='M'><c:Name xml:lang='fr'>Homme</c:Name></s:Code><s:Code id='EUR'><c:Name xml:lang='en'>")
  ++ [xe2; x82; xac] ++ b "</c:Name></s:Code></m:Structure>".

(** A name without a language tag, and a codelist whose English name
    is followed by it. *)
Definition name_b : Element := mkElement TAG_NAME [] (Some (u "b")) [].

Definition codelist_b : Element :=
  mkElement TAG_CODELIST [(u "isFinal", u "TRUE")] None
    [ mkElement TAG_NAME [(XML_LANG, u "en")] (Some (u "B")) []; name_b ].

(** A code whose only [Name] child has no text, followed by an English
    name with text one level below. *)
Definition code_nested_english : Element :=
  mkElement TAG_CODE [(u "id", u "F")] None
    [ empty_english_name;
      mkElement (qname NS_STRUCTURE (u "Annotations")) [] None
        [ mkElement TAG_NAME [(XML_LANG, u "en")] (Some (u "Female")) [] ] ].

(** The lines of the CSV download of [detail_doc]. *)
Definition detail_csv_text : str :=
  u "Code ID,Name (en),Name (fr)" ++ [10%N] ++ u "F,Female,Femme" ++ [10%N]
  ++ u "M,N/A,Homme" ++ [10%N] ++ u "U,,N/A" ++ [10%N].

End Concrete.

(* ================================================================== *)
(** ** Data frame indexing *)
(* ================================================================== *)

Module Frame.

(** [df.empty]: an axis of length zero. *)
Definition empty (df : DataFrame) : bool :=
  match columns df, rows df with
  | [], _ => true
  | _, [] => true
  | _, _ => false
  end.

(** The cell of a row under a column label. *)
Definition cell (df : DataFrame) (row : list value) (key : str) : value :=
  match row_lookup (columns df) row key with
  | Some v => v
  | None => VNaN
  end.

(** [df[key]]: the cells of a column, [KeyError] for an unknown label. *)
Definition column (df : DataFrame) (key : str) : exn + list value :=
  if mem_str key (columns df)
  then inr (map (fun row => cell df row key) (rows df))
  else inl (KeyError key).

(** [cell == x] as the comparison of a column with a scalar computes
    it: strings and booleans compare by value, a missing value is
    equal to nothing. *)
Definition value_eqb (v w : value) : bool :=
  match v, w with
  | VStr s, VStr t => str_eqb s t
  | VBool a, VBool c => Bool.eqb a c
  | _, _ => false
  end.

(** [df[df[key] == x]]: the rows whose cell under [key] equals [x], in
    their order. *)
Definition where_eq (df : DataFrame) (key : str) (x : value) : exn + DataFrame :=
  match column df key with
  | inl e => inl e
  | inr _ =>
      inr (mkDataFrame (columns df)
             (filter (fun row => value_eqb (cell df row key) x) (rows df)))
  end.

(** [if v:] for a cell value or [None]. *)
Definition truthy (v : option value) : bool :=
  match v with
  | Some (VStr (_ :: _)) => true
  | Some (VBool flag) => flag
  | Some VNaN => true
  | _ => false
  end.

End Frame.

(* ================================================================== *)
(** ** Streamlit: the page, the session and the cache *)
(* ================================================================== *)

Module Streamlit.

(** What a download button offers: bytes, or the buffer of
    [create_pdf] (kept as the pages of the document). *)
Inductive download :=
| DataBytes (data : bytes)
| DataPdf (document : list Page).

(** The elements a run of the script puts on the page, in the order of
    the calls. *)
Inductive element :=
| ElTitle (body : str)
| ElSidebarTitle (body : str)
| ElSidebarButton (label : str)
| ElSpinner (text : str)
| ElHeader (body : str)
| ElSubheader (body : str)
| ElDataFrame (data : DataFrame)
| ElSelectbox (label : str) (options : list str)
| ElWrite (body : str)
| ElInfo (body : str)
| ElError (body : str)
| ElDownloadButton (label : str) (data : download) (file_name mime : str).

(** What outlives a run: [st.session_state.codelists_df] ([None] while
    the key is not set) and the entry that [st.cache_data] keeps for
    [fetch_codelists_from_xml], the returned table with the messages
    shown while it was computed. *)
Record store := mkStore {
  codelists_df : option DataFrame;
  fetch_cache : option (DataFrame * list str)
}.

(** What a run may raise: an exception of the functions above, or one
    of the script's own lookups. *)
Inductive raised :=
| PyExn (e : exn)
| IndexError
| AttributeError (name : str).

(** A step of the script: from the state and the page so far to an
    outcome, the state and the page after. *)
Definition Script (A : Type) : Type :=
  store * list element -> (raised + A) * (store * list element).

Definition sret {A} (a : A) : Script A := fun s => (inr a, s).

Definition sraise {A} (e : raised) : Script A := fun s => (inl e, s).

Definition sbind {A B} (m : Script A) (k : A -> Script B) : Script B :=
  fun s =>
    match m s with
    | (inr a, s') => k a s'
    | (inl e, s') => (inl e, s')
    end.

(** A Streamlit call that shows an element. *)
Definition put (e : element) : Script unit :=
  fun s => (inr tt, (fst s, snd s ++ [e])).

(** A call of one of the functions of the script: its [st.error]
    messages are shown as error elements, its exception is raised. *)
Definition call {A} (m : M A) : Script A :=
  fun s =>
    match m [] with
    | (inr a, messages) => (inr a, (fst s, snd s ++ map ElError messages))
    | (inl e, messages) => (inl (PyExn e), (fst s, snd s ++ map ElError messages))
    end.

(** A pandas expression that returns or raises. *)
Definition index {A} (r : exn + A) : Script A :=
  match r with
  | inl e => sraise (PyExn e)
  | inr a => sret a
  end.

(** [series.values[0]] *)
Definition first_value (cells : list value) : Script value :=
  match cells with
  | v :: _ => sret v
  | [] => sraise IndexError
  end.

(** [f(x) for x in xs] where [f] may raise. *)
Fixpoint for_all {A B} (f : A -> Script B) (xs : list A) : Script (list B) :=
  match xs with
  | [] => sret []
  | x :: xs' =>
      sbind (f x) (fun y => sbind (for_all f xs') (fun ys => sret (y :: ys)))
  end.

(** [st.session_state.codelists_df] *)
Definition get_codelists_df : Script DataFrame :=
  fun s =>
    match codelists_df (fst s) with
    | Some df => (inr df, s)
    | None => (inl (AttributeError (u "codelists_df")), s)
    end.

(** [st.session_state.codelists_df = df] *)
Definition set_codelists_df (df : DataFrame) : Script unit :=
  fun s => (inr tt, (mkStore (Some df) (fetch_cache (fst s)), snd s)).

(** A function without arguments under [@st.cache_data]: the first
    call that returns stores the value and the messages it showed;
    every later call returns the stored value and shows the stored
    messages again, without running the function. *)
Definition cache_data (f : M DataFrame) : Script DataFrame :=
  fun s =>
    match fetch_cache (fst s) with
    | Some (df, messages) => (inr df, (fst s, snd s ++ map ElError messages))
    | None =>
        match f [] with
        | (inr df, messages) =>
            (inr df, (mkStore (codelists_df (fst s)) (Some (df, messages)),
                      snd s ++ map ElError messages))
        | (inl e, messages) =>
            (inl (PyExn e), (fst s, snd s ++ map ElError messages))
        end
    end.

End Streamlit.

Import Streamlit.

Declare Scope script_scope.
Delimit Scope script_scope with script.
Notation "x <- m ;; k" := (sbind m (fun x => k))
  (at level 61, m at next level, right associativity) : script_scope.
Notation "m ;;; k" := (sbind m (fun _ => k))
  (at level 61, right associativity) : script_scope.

Section Script.

Variable Response : Type.
Variable requests_get : str -> str + Response.
Variable raise_for_status : Response -> option str.
Variable content : Response -> bytes.
Variable ET_fromstring : bytes -> exn + Element.
Variable str_lower : str -> str.

(** What the user does during a run: whether the sidebar button is
    pressed, and which of its options the select box returns ([None]
    when there is none). *)
Variable button_clicked : bool.
Variable selectbox_choice : list value -> option value.

(** Lines 71-78. *)
Definition fetch_codelist_detail (url : str) : M (option bytes) :=
  try_except
    (response <- call_requests_get requests_get url ;;
     call_raise_for_status raise_for_status response ;;;
     ret (Some (content response)))%py
    (fun e =>
       match e with
       | RequestException message =>
           (st_error (u "Error fetching codelist from " ++ url ++ u ": "
                      ++ message) ;;;
            ret None)%py
       | _ => raise e
       end).

Local Open Scope script_scope.

(** The [format_func] of the select box (line 152): the id and the
    English name of the first row with that id. *)
Definition format_option (df : DataFrame) (x : value) : Script str :=
  matching <- index (Frame.where_eq df (u "Codelist ID") x) ;;
  names <- index (Frame.column matching (u "Name (en)")) ;;
  name <- first_value names ;;
  sret (py_str x ++ u " - " ++ py_str name).

(** [st.selectbox(label, options=..., format_func=...)]: the options
    are shown under their formatted labels, the user's choice is
    returned. *)
Definition selectbox (label : str) (options : list value)
  (format_func : value -> Script str) : Script (option value) :=
  labels <- for_all format_func options ;;
  put (ElSelectbox label labels) ;;;
  sret (selectbox_choice options).

(** Lines 167-195: the table of the codelist and its three downloads. *)
Definition show_codelist_details (selected_codelist_id : value)
  (codelist_detail_xml : bytes) : Script unit :=
  put (ElSubheader (u "Codelist Details")) ;;;
  codelist_items_df <- call (parse_codelist_items ET_fromstring codelist_detail_xml) ;;
  put (ElDataFrame codelist_items_df) ;;;
  put (ElDownloadButton (u "Download Codelist as XML")
          (DataBytes codelist_detail_xml)
          (py_str selected_codelist_id ++ u ".xml") (u "application/xml")) ;;;
  csv_data <- call (csv_download_data codelist_items_df) ;;
  put (ElDownloadButton (u "Download Codelist as CSV")
          (DataBytes csv_data)
          (py_str selected_codelist_id ++ u ".csv") (u "text/csv")) ;;;
  pdf_buffer <- call (create_pdf codelist_items_df) ;;
  put (ElDownloadButton (u "Download Codelist as PDF")
          (DataPdf pdf_buffer)
          (py_str selected_codelist_id ++ u ".pdf") (u "application/pdf")).

(** Lines 158-159: the structure URL of the first row with the
    selected id. *)
Definition selected_url (df : DataFrame) (selected_codelist_id : value)
  : Script value :=
  codelist_row <- index (Frame.where_eq df (u "Codelist ID") selected_codelist_id) ;;
  urls <- index (Frame.column codelist_row (u "Structure URL")) ;;
  first_value urls.

(** Lines 156-195: the URL of the selected codelist is looked up in the
    table and fetched; [requests] takes the text of the cell as the
    URL. *)
Definition browse_selected (df : DataFrame) (selected_codelist_id : value)
  : Script unit :=
  codelist_url <- selected_url df selected_codelist_id ;;
  put (ElWrite (u "**Selected Codelist URL**: " ++ py_str codelist_url)) ;;;
  put (ElSpinner (u "Fetching details for " ++ py_str selected_codelist_id
                   ++ u "...")) ;;;
  codelist_detail_xml <- call (fetch_codelist_detail (py_str codelist_url)) ;;
  match codelist_detail_xml with
  | Some ((_ :: _) as xml) => show_codelist_details selected_codelist_id xml
  | _ => sret tt
  end.

(** Lines 143-153: the registry table and the select box. *)
Definition browse (df : DataFrame) : Script unit :=
  put (ElHeader (u "Codelists from API")) ;;;
  put (ElDataFrame df) ;;;
  put (ElSubheader (u "Browse Individual Codelists")) ;;;
  options <- index (Frame.column df (u "Codelist ID")) ;;
  selected_codelist_id <-
    selectbox (u "Select a Codelist to View Details:") options (format_option df) ;;
  match selected_codelist_id with
  | Some x =>
      if Frame.truthy selected_codelist_id then browse_selected df x else sret tt
  | None => sret tt
  end.

(** One run of the script, top to bottom (lines 11-12 and 133-197). *)
Definition main : Script unit :=
  put (ElTitle (u "SDMX Codelist Registry")) ;;;
  put (ElSidebarTitle (u "Options")) ;;;
  (fun s =>
     match codelists_df (fst s) with
     | None => set_codelists_df (DataFrame_of []) s
     | Some _ => sret tt s
     end) ;;;
  put (ElSidebarButton (u "Fetch Codelists from API")) ;;;
  (if button_clicked then
     put (ElSpinner (u "Fetching codelists...")) ;;;
     df <- cache_data
             (fetch_codelists_from_xml requests_get raise_for_status content
                ET_fromstring str_lower) ;;
     set_codelists_df df
   else sret tt) ;;;
  df <- get_codelists_df ;;
  if negb (Frame.empty df) then browse df
  else put (ElInfo (u "Click the 'Fetch Codelists from API' button to load codelists.")).

(** The last step of [main] (lines 143-197) on its own: what is shown
    of the session table. *)
Definition view_session (df : DataFrame) : Script unit :=
  if negb (Frame.empty df) then browse df
  else put (ElInfo (u "Click the 'Fetch Codelists from API' button to load codelists.")).

End Script.

(* ================================================================== *)
(** ** Reference notions for the script *)
(* ================================================================== *)

Module RefScript.

(** The id, structure URL and English name a [Codelist] element is
    listed under. *)
Definition id_of (codelist : Element) : str :=
  dict_get_default (attrib codelist) (u "id") (u "Unknown ID").

Definition url_of (codelist : Element) : str :=
  dict_get_default (attrib codelist) (u "structureURL") (u "Unknown URL").

Definition name_en_of (codelist : Element) : value :=
  dict_get_default (extract_names codelist) (u "en") (VStr (u "N/A")).

(** The first element, in document order, listed under [id]. *)
Definition first_with_id (id : str) (codelists : list Element) : option Element :=
  find (fun e => str_eqb (id_of e) id) codelists.

(** The table of a sequence of [Codelist] elements. *)
Definition codelist_table (lower : str -> str) (codelists : list Element)
  : DataFrame :=
  DataFrame_of (map (codelist_record lower) codelists).

(** The state a run can be started in: the session table and the
    cached table, when set, are tables of [Codelist] elements. *)
Definition registry_frame (lower : str -> str) (df : DataFrame) : Prop :=
  exists codelists, df = codelist_table lower codelists.

Definition reachable (lower : str -> str) (a : store) : Prop :=
  (forall df, codelists_df a = Some df -> registry_frame lower df)
  /\ (forall df messages, fetch_cache a = Some (df, messages) ->
                          registry_frame lower df).

(** The select box returns one of its options, or nothing. *)
Definition chooses_an_option (choice : list value -> option value) : Prop :=
  forall options x, choice options = Some x -> In x options.

(** A step that leaves the state as it is: its outcome and the
    elements it adds to the page. *)
Definition yields {A} (m : Script A) (s : store * list element)
  (r : raised + A) (added : list element) : Prop :=
  m s = (r, (fst s, snd s ++ added)).

(** The row of a [Codelist] element in the table. *)
Definition codelist_row (lower : str -> str) (codelist : Element) : list value :=
  map snd (codelist_record lower codelist).

(** Whether an element is listed under the id that a value spells. *)
Definition listed_as (x : value) (codelist : Element) : bool :=
  Frame.value_eqb (VStr (id_of codelist)) x.

(** A step that leaves the state as it is, whatever its outcome. *)
Definition steady {A} (m : Script A) : Prop :=
  forall s, exists r added, yields m s r added.

(** An outcome of a run: it ends normally, or with the encoding error
    of the CSV export, or with an exception other than [ParseError]
    that the XML parser raised on some input. *)
Definition ends_well (fromstring : bytes -> exn + Element) (r : raised + unit)
  : Prop :=
  r = inr tt
  \/ (exists position ch, r = inl (PyExn (UnicodeEncodeError position ch)))
  \/ (exists xml e,
        fromstring xml = inl e /\ (forall d, e <> ParseError d)
        /\ r = inl (PyExn e)).

(** The label of a codelist in the select box: its id, and the English
    name of the first codelist listed under that id. *)
Definition option_label (codelists : list Element) (codelist : Element) : str :=
  match first_with_id (id_of codelist) codelists with
  | Some first => id_of codelist ++ u " - " ++ py_str (name_en_of first)
  | None => []
  end.

(** What the script shows of a table before a codelist is selected. *)
Definition registry_view (lower : str -> str) (codelists : list Element)
  : list element :=
  [ ElHeader (u "Codelists from API");
    ElDataFrame (codelist_table lower codelists);
    ElSubheader (u "Browse Individual Codelists");
    ElSelectbox (u "Select a Codelist to View Details:")
      (map (option_label codelists) codelists) ].

(** What it shows of a selected codelist before its details. *)
Definition selection_view (id url : str) : list element :=
  [ ElWrite (u "**Selected Codelist URL**: " ++ url);
    ElSpinner (u "Fetching details for " ++ id ++ u "...") ].

(** The spinner of the registry fetch and the messages of the fetch. *)
Definition spinner_and (messages : list str) : list element :=
  ElSpinner (u "Fetching codelists...") :: map ElError messages.

(** The message of a failed detail fetch. *)
Definition detail_error (url message : str) : str :=
  u "Error fetching codelist from " ++ url ++ u ": " ++ message.

(** The three download buttons of a codelist. *)
Definition xml_button (id : value) (xml : bytes) : element :=
  ElDownloadButton (u "Download Codelist as XML") (DataBytes xml)
    (py_str id ++ u ".xml") (u "application/xml").

Definition csv_button (id : value) (data : bytes) : element :=
  ElDownloadButton (u "Download Codelist as CSV") (DataBytes data)
    (py_str id ++ u ".csv") (u "text/csv").

Definition pdf_button (id : value) (document : list Page) : element :=
  ElDownloadButton (u "Download Codelist as PDF") (DataPdf document)
    (py_str id ++ u ".pdf") (u "application/pdf").

(** The elements every run starts with. *)
Definition page_top : list element :=
  [ ElTitle (u "SDMX Codelist Registry"); ElSidebarTitle (u "Options");
    ElSidebarButton (u "Fetch Codelists from API") ].

Definition hint : element :=
  ElInfo (u "Click the 'Fetch Codelists from API' button to load codelists.").

End RefScript.

Import RefScript.

(* ================================================================== *)
(** ** A concrete site for runs of the script *)
(* ================================================================== *)

Module Site.

Import Concrete.

(** A registry that lists two codelists under the same id, with
    different structure URLs and names. *)
Definition registry_doc : bytes :=
  bq ("<m:Structure" ++ xmlns_message ++ xmlns_decls ++ "><m:Structures><s:Codelists><s:Codelist id='CL_SEX' structureURL='http://x/first'><c:Name xml:lang='en'>Sex</c:Name></s:Codelist><s:Codelist id='CL_SEX' structureURL='http://x/second'><c:Name xml:lang='en'>Gender</c:Name></s:Codelist></s:Codelists></m:Structures></m:Structure>").

Definition registry_tree : Element := Eval vm_compute in tree_of registry_doc.

Definition codelists : list Element :=
  Eval vm_compute in findall_descendants registry_tree TAG_CODELIST.

Definition first_codelist : Element :=
  Eval vm_compute in nth 0 codelists bare_codelist.

(** The site: the registry at the API endpoint, the detail document at
    the first structure URL, no answer anywhere else. *)
Definition get (url : str) : str + bytes :=
  if str_eqb url API_ENDPOINT then inr registry_doc
  else if str_eqb url (u "http://x/first") then inr detail_doc
  else inl (u "Connection refused").

(** A site that is down. *)
Definition down (url : str) : str + bytes := inl (u "Connection refused").

(** The select box at its default: the first option. *)
Definition first_option (options : list value) : option value :=
  hd_error options.

(** One run of the script against a site. *)
Definition run (site : str -> str + bytes) (clicked : bool)
  : Script unit :=
  main site status_ok body MiniXML.fromstring ascii_lower clicked first_option.

Definition fresh : store := mkStore None None.

End Site.

(* ================================================================== *)
(** ** Strings, dicts and loops *)
(* ================================================================== *)

Lemma str_eqb_refl (s : str) : str_eqb s s = true.
Proof.
  induction s as [|c s IH]; simpl; [reflexivity|].
  now rewrite N.eqb_refl, IH.
Qed.

Lemma str_eqb_eq (s t : str) : str_eqb s t = true <-> s = t.
Proof.
  split; [|intros ->; apply str_eqb_refl].
  revert t; induction s as [|c s IH]; intros [|d t]; simpl; try discriminate; auto.
  intros H; apply andb_true_iff in H as [Hc Hs].
  apply N.eqb_eq in Hc; subst; f_equal; auto.
Qed.

Lemma str_eqb_neq (s t : str) : str_eqb s t = false <-> s <> t.
Proof.
  rewrite <- str_eqb_eq. destruct (str_eqb s t); intuition congruence.
Qed.

Lemma str_eqb_sym (s t : str) : str_eqb s t = str_eqb t s.
Proof.
  destruct (str_eqb s t) eqn:E.
  - apply str_eqb_eq in E; subst; symmetry; apply str_eqb_refl.
  - symmetry; apply str_eqb_neq; apply str_eqb_neq in E; congruence.
Qed.

Lemma mem_str_In (k : str) (ks : list str) : mem_str k ks = true <-> In k ks.
Proof.
  unfold mem_str; rewrite existsb_exists; split.
  - intros (x & Hx & E); apply str_eqb_eq in E; now subst.
  - intros H; exists k; split; [assumption|apply str_eqb_refl].
Qed.

(** A loop that appends one item per element builds the image of the
    list. *)
Lemma append_loop {A B} (f : A -> B) (xs : list A) (acc : list B) :
  fold_left (fun data x => data ++ [f x]) xs acc = acc ++ map f xs.
Proof.
  revert acc; induction xs as [|x xs IH]; intros acc; simpl.
  - now rewrite app_nil_r.
  - rewrite IH, <- app_assoc; reflexivity.
Qed.

Lemma dict_get_set {V} (d : dict V) (k k' : str) (v : V) :
  dict_get (dict_set d k v) k' =
  if str_eqb k k' then Some v else dict_get d k'.
Proof.
  induction d as [|[k0 v0] d IH]; simpl.
  - reflexivity.
  - destruct (str_eqb k0 k) eqn:E0; simpl.
    + apply str_eqb_eq in E0; subst k0.
      destruct (str_eqb k k'); reflexivity.
    + rewrite IH. destruct (str_eqb k0 k') eqn:E1; [|reflexivity].
      apply str_eqb_eq in E1; subst k0. now rewrite str_eqb_sym, E0.
Qed.

Lemma dict_keys_set {V} (d : dict V) (k : str) (v : V) :
  dict_keys (dict_set d k v) =
  if mem_str k (dict_keys d) then dict_keys d else dict_keys d ++ [k].
Proof.
  unfold dict_keys, mem_str.
  induction d as [|[k0 v0] d IH]; simpl; [reflexivity|].
  rewrite (str_eqb_sym k k0).
  destruct (str_eqb k0 k) eqn:E0; simpl; [reflexivity|].
  rewrite IH. now destruct (existsb (str_eqb k) (map fst d)).
Qed.

(** *** Element trees *)

Section ElementInduction.

Variable P : Element -> Prop.
Hypothesis step : forall t a x cs, Forall P cs -> P (mkElement t a x cs).

Fixpoint Element_tree_ind (e : Element) : P e :=
  match e with
  | mkElement t a x cs =>
      step t a x
        ((fix all (l : list Element) : Forall P l :=
            match l with
            | [] => Forall_nil P
            | c :: l' => Forall_cons c (Element_tree_ind c) (all l')
            end) cs)
  end.

End ElementInduction.

Lemma flat_map_filter {A B} (f g : A -> list B) (p : B -> bool) (l : list A) :
  Forall (fun x => f x = filter p (g x)) l ->
  flat_map f l = filter p (flat_map g l).
Proof.
  induction 1 as [|x l Hx _ IH]; simpl; [reflexivity|].
  now rewrite filter_app, Hx, IH.
Qed.

(** [iter] visits exactly the elements with the tag, in document order. *)
Lemma iter_filter (t : str) (e : Element) :
  iter t e = filter (has_tag t) (self_and_descendants e).
Proof.
  induction e as [t' a x cs IH] using Element_tree_ind.
  simpl. unfold has_tag at 1; simpl.
  rewrite (flat_map_filter _ _ _ IH).
  destruct (str_eqb t' t); reflexivity.
Qed.

Lemma findall_elements_tagged (root : Element) (t : str) :
  findall_descendants root t = elements_tagged t root.
Proof.
  unfold findall_descendants, elements_tagged, descendants.
  apply flat_map_filter, Forall_forall; intros e _; apply iter_filter.
Qed.

Lemma iter_count (t : str) (e : Element) : List.length (iter t e) = count_in t e.
Proof.
  induction e as [t' a x cs IH] using Element_tree_ind.
  simpl. rewrite length_app. f_equal.
  - destruct (str_eqb t' t); reflexivity.
  - induction IH as [|c cs Hc _ IHcs]; simpl; [reflexivity|].
    now rewrite length_app, Hc, IHcs.
Qed.

Lemma findall_count (root : Element) (t : str) :
  List.length (findall_descendants root t) = count_tagged t root.
Proof.
  unfold findall_descendants, count_tagged.
  induction (children root) as [|c cs IH]; simpl; [reflexivity|].
  now rewrite length_app, iter_count, IH.
Qed.

(** *** Data frames built from records with the same keys *)

Lemma add_keys_known (cols ks : list str) :
  incl ks cols -> add_keys cols ks = cols.
Proof.
  unfold add_keys; induction ks as [|k ks IH]; intros H; simpl; [reflexivity|].
  assert (Hk : mem_str k cols = true) by (apply mem_str_In, H; now left).
  rewrite Hk. apply IH. intros x Hx; apply H; now right.
Qed.

Lemma add_keys_fresh (cols ks : list str) :
  NoDup (cols ++ ks) -> add_keys cols ks = cols ++ ks.
Proof.
  unfold add_keys; revert cols; induction ks as [|k ks IH]; intros cols H; simpl.
  - now rewrite app_nil_r.
  - assert (Hk : mem_str k cols = false).
    { destruct (mem_str k cols) eqn:E; [|reflexivity].
      apply mem_str_In in E. apply NoDup_remove_2 in H.
      exfalso; apply H, in_or_app; now left. }
    rewrite Hk, IH; rewrite <- app_assoc; [reflexivity|exact H].
Qed.

Lemma union_keys_uniform (ks : list str) (d : dict value) (data : list (dict value)) :
  NoDup ks -> Forall (fun d => dict_keys d = ks) (d :: data) ->
  union_keys (d :: data) = ks.
Proof.
  intros Hnd H. inversion H as [|? ? Hd Hdata]; subst.
  unfold union_keys; simpl. fold (add_keys [] (dict_keys d)).
  rewrite add_keys_fresh by assumption. simpl.
  clear H. induction Hdata as [|d' data Hd' _ IH]; simpl; [reflexivity|].
  fold (add_keys (dict_keys d) (dict_keys d')).
  rewrite add_keys_known; [exact IH|rewrite Hd'; apply incl_refl].
Qed.

Lemma row_of_dict (d : dict value) :
  NoDup (dict_keys d) ->
  map (fun c => dict_get_default d c VNaN) (dict_keys d) = map snd d.
Proof.
  unfold dict_keys, dict_get_default.
  induction d as [|[k v] d IH]; intros H; simpl; [reflexivity|].
  inversion H as [|? ? Hk Hd]; subst.
  rewrite str_eqb_refl; f_equal.
  rewrite <- IH by assumption.
  apply map_ext_in; intros c Hc.
  assert (E : str_eqb k c = false) by (apply str_eqb_neq; intros ->; contradiction).
  now rewrite E.
Qed.

Lemma DataFrame_of_uniform (ks : list str) (data : list (dict value)) :
  NoDup ks -> Forall (fun d => dict_keys d = ks) data ->
  DataFrame_of data =
  mkDataFrame (match data with [] => [] | _ => ks end) (map (map snd) data).
Proof.
  intros Hnd H. destruct data as [|d data]; [reflexivity|].
  unfold DataFrame_of. rewrite (union_keys_uniform Hnd H). f_equal.
  apply map_ext_in; intros d' Hd'.
  rewrite Forall_forall in H. specialize (H d' Hd').
  rewrite <- H. apply row_of_dict. now rewrite H.
Qed.

Lemma CODE_COLUMNS_NoDup : NoDup CODE_COLUMNS.
Proof.
  vm_compute. repeat constructor; simpl; intuition discriminate.
Qed.

Lemma CODELIST_COLUMNS_NoDup : NoDup CODELIST_COLUMNS.
Proof.
  vm_compute. repeat constructor; simpl; intuition discriminate.
Qed.

(** The table of the detail parser: the three columns as soon as there
    is a record, and one row per record. *)
Lemma DataFrame_of_code_records (codes : list Element) :
  DataFrame_of (map code_record codes) =
  mkDataFrame (match codes with [] => [] | _ => CODE_COLUMNS end)
              (map (fun code => map snd (code_record code)) codes).
Proof.
  rewrite (@DataFrame_of_uniform CODE_COLUMNS).
  - rewrite map_map. now destruct codes.
  - exact CODE_COLUMNS_NoDup.
  - apply Forall_forall; intros d Hd. apply in_map_iff in Hd as (e & <- & _).
    reflexivity.
Qed.

Lemma DataFrame_of_codelist_records (lower : str -> str) (codelists : list Element) :
  DataFrame_of (map (codelist_record lower) codelists) =
  mkDataFrame (match codelists with [] => [] | _ => CODELIST_COLUMNS end)
              (map (fun e => map snd (codelist_record lower e)) codelists).
Proof.
  rewrite (@DataFrame_of_uniform CODELIST_COLUMNS).
  - rewrite map_map. now destruct codelists.
  - exact CODELIST_COLUMNS_NoDup.
  - apply Forall_forall; intros d Hd. apply in_map_iff in Hd as (e & <- & _).
    reflexivity.
Qed.

(** *** The names loop *)

Lemma find_snoc {A} (p : A -> bool) (l : list A) (x : A) :
  find p (l ++ [x]) =
  match find p l with
  | Some y => Some y
  | None => if p x then Some x else None
  end.
Proof.
  induction l as [|y l IH]; simpl; [reflexivity|].
  destruct (p y); [reflexivity|exact IH].
Qed.

Lemma names_loop_get (l : list Element) (d : dict value) (lang : str) :
  dict_get (fold_left names_step l d) lang =
  match last_named lang l with
  | Some e => Some (of_text (text e))
  | None => dict_get d lang
  end.
Proof.
  revert d; induction l as [|x l IH]; intros d; simpl; [reflexivity|].
  rewrite IH. unfold last_named; simpl. rewrite find_snoc.
  destruct (find _ (rev l)); [reflexivity|].
  unfold names_step; rewrite dict_get_set.
  destruct (str_eqb (lang_of x) lang); reflexivity.
Qed.

Lemma names_loop_keys (l : list Element) (d : dict value) :
  NoDup (dict_keys d) ->
  NoDup (dict_keys (fold_left names_step l d))
  /\ forall k, In k (dict_keys (fold_left names_step l d))
               <-> In k (dict_keys d) \/ In k (languages l).
Proof.
  revert d; induction l as [|x l IH]; intros d Hd; simpl.
  - split; [assumption|tauto].
  - assert (Hset : NoDup (dict_keys (names_step d x))
                   /\ forall k, In k (dict_keys (names_step d x))
                                <-> In k (dict_keys d) \/ lang_of x = k).
    { unfold names_step; rewrite dict_keys_set.
      destruct (mem_str (lang_of x) (dict_keys d)) eqn:E.
      - apply mem_str_In in E. split; [assumption|].
        intros k; split; [tauto|]. intros [H|<-]; assumption.
      - split.
        + apply NoDup_app; [assumption|repeat constructor; auto|].
          intros k Hk [<-|[]]. apply mem_str_In in Hk; congruence.
        + intros k; rewrite in_app_iff; simpl; tauto. }
    destruct Hset as [Hnd Hin]. destruct (IH _ Hnd) as [IH1 IH2].
    split; [assumption|]. intros k; rewrite IH2, Hin; tauto.
Qed.

(* ================================================================== *)
(** ** The records *)
(* ================================================================== *)

Section Records.

Variable str_lower : str -> str.

Local Abbreviation record_of := (codelist_record str_lower).

Lemma codelist_data_map (root : Element) :
  codelist_data str_lower root =
  map record_of (findall_descendants root TAG_CODELIST).
Proof. unfold codelist_data. now rewrite append_loop. Qed.

Lemma code_items_map (root : Element) :
  code_items root = map code_record (findall_descendants root TAG_CODE).
Proof. unfold code_items. now rewrite append_loop. Qed.

(** C5, amended.  The names dict built for a [Codelist] element has
    one entry per language tag found among its descendant [Name]
    elements (the tag read from [xml:lang], "unknown" when absent), the
    value being the text of the last such element in document order;
    the record keeps the entries for "en" and "fr" only, as its columns
    Name (en) and Name (fr), with "N/A" for a language without entry. *)
Theorem C5_names_dict_last_wins_record_keeps_en_fr
  (codelist : Element) (lang : str) :
  let names := findall_descendants codelist TAG_NAME in
  dict_get (extract_names codelist) lang
  = option_map (fun e => of_text (text e)) (last_named lang names)
  /\ NoDup (dict_keys (extract_names codelist))
  /\ (In lang (dict_keys (extract_names codelist)) <-> In lang (languages names))
  /\ dict_keys (record_of codelist) = CODELIST_COLUMNS
  /\ dict_get (record_of codelist) (u "Name (en)")
     = Some (dict_get_default (extract_names codelist) (u "en") (VStr (u "N/A")))
  /\ dict_get (record_of codelist) (u "Name (fr)")
     = Some (dict_get_default (extract_names codelist) (u "fr") (VStr (u "N/A"))).
Proof.
  intros names.
  change (extract_names codelist) with (fold_left names_step names []).
  destruct (@names_loop_keys names []) as [Hnd Hin]; [constructor|].
  split; [|split; [exact Hnd|split; [|repeat split]]].
  - rewrite names_loop_get. now destruct (last_named lang names).
  - rewrite Hin; simpl; tauto.
Qed.

(** On ASCII text [str.lower] folds the letters A to Z. *)
Hypothesis str_lower_ascii :
  forall s, is_ascii s = true -> str_lower s = ascii_lower s.

(** C4.  Every [Codelist] element yields a record.  Without an [id]
    attribute the record's id is "Unknown ID".  The Is Final field is
    the lower-cased [isFinal] text compared with "true": false without
    the attribute, and for an ASCII value true exactly when the value
    is "true" up to letter case. *)
Theorem C4_unknown_id_and_is_final (root codelist : Element) :
  let raw := dict_get_default (attrib codelist) (u "isFinal") (u "Unknown") in
  codelist_data str_lower root
  = map record_of (findall_descendants root TAG_CODELIST)
  /\ (dict_get (attrib codelist) (u "id") = None ->
      dict_get (record_of codelist) (u "Codelist ID")
      = Some (VStr (u "Unknown ID")))
  /\ dict_get (record_of codelist) (u "Is Final")
     = Some (VBool (str_eqb (str_lower raw) (u "true")))
  /\ (dict_get (attrib codelist) (u "isFinal") = None ->
      dict_get (record_of codelist) (u "Is Final") = Some (VBool false))
  /\ (forall v, dict_get (attrib codelist) (u "isFinal") = Some v ->
                is_ascii v = true ->
                dict_get (record_of codelist) (u "Is Final")
                = Some (VBool (str_eqb (ascii_lower v) (u "true")))).
Proof.
  intros raw. split; [apply codelist_data_map|].
  assert (Hfinal : dict_get (record_of codelist) (u "Is Final")
                   = Some (VBool (str_eqb (str_lower raw) (u "true"))))
    by reflexivity.
  split; [|split; [exact Hfinal|split]].
  - intros Hid. unfold codelist_record, dict_get_default at 1.
    rewrite Hid. reflexivity.
  - intros Hnone. rewrite Hfinal. subst raw. unfold dict_get_default.
    rewrite Hnone, str_lower_ascii by reflexivity. reflexivity.
  - intros v Hv Hascii. rewrite Hfinal. subst raw. unfold dict_get_default.
    rewrite Hv, str_lower_ascii by assumption. reflexivity.
Qed.

End Records.

(* ================================================================== *)
(** ** The parsers *)
(* ================================================================== *)

Section Parsers.

Variable Response : Type.
Variable requests_get : str -> str + Response.
Variable raise_for_status : Response -> option str.
Variable content : Response -> bytes.
Variable ET_fromstring : bytes -> exn + Element.
Variable str_lower : str -> str.

(** On ASCII text [str.lower] folds the letters A to Z. *)
Hypothesis str_lower_ascii :
  forall s, is_ascii s = true -> str_lower s = ascii_lower s.

Local Abbreviation registry_parse :=
  (fetch_codelists_from_xml requests_get raise_for_status content
     ET_fromstring str_lower).
Local Abbreviation detail_parse := (parse_codelist_items ET_fromstring).
Local Abbreviation record_of := (codelist_record str_lower).

Lemma registry_parse_ok (response : Response) (root : Element) (log : list str) :
  requests_get API_ENDPOINT = inr response ->
  raise_for_status response = None ->
  ET_fromstring (content response) = inr root ->
  registry_parse log = (inr (DataFrame_of (codelist_data str_lower root)), log).
Proof.
  intros Hget Hstatus Hxml.
  unfold fetch_codelists_from_xml, try_except, bind, call_requests_get,
    call_raise_for_status, call_fromstring.
  rewrite Hget; simpl. rewrite Hstatus; simpl. rewrite Hxml; reflexivity.
Qed.

Lemma detail_parse_ok (xml : bytes) (root : Element) (log : list str) :
  ET_fromstring xml = inr root ->
  detail_parse xml log = (inr (DataFrame_of (code_items root)), log).
Proof.
  intros Hxml.
  unfold parse_codelist_items, try_except, bind, call_fromstring.
  rewrite Hxml; reflexivity.
Qed.

(** C1.  When the registry document is well formed, the registry parse
    returns one record per [Codelist] element found below the root, in
    document order, so as many records as there are such elements; and
    the detail parse does the same for the [Code] elements of a well
    formed detail document. *)
Theorem C1_one_record_per_element_in_document_order
  (response : Response) (registry_root : Element)
  (xml : bytes) (detail_root : Element) (log : list str) :
  requests_get API_ENDPOINT = inr response ->
  raise_for_status response = None ->
  ET_fromstring (content response) = inr registry_root ->
  ET_fromstring xml = inr detail_root ->
  (exists df,
      registry_parse log = (inr df, log)
      /\ rows df = map (fun codelist => map snd (record_of codelist))
                       (elements_tagged TAG_CODELIST registry_root)
      /\ List.length (rows df) = count_tagged TAG_CODELIST registry_root)
  /\ (exists df,
        detail_parse xml log = (inr df, log)
        /\ rows df = map (fun code => map snd (code_record code))
                         (elements_tagged TAG_CODE detail_root)
        /\ List.length (rows df) = count_tagged TAG_CODE detail_root).
Proof.
  intros Hget Hstatus Hreg Hdet. split.
  - eexists; split; [eapply registry_parse_ok; eassumption|].
    rewrite codelist_data_map, DataFrame_of_codelist_records; simpl.
    rewrite length_map, findall_count, findall_elements_tagged; auto.
  - eexists; split; [eapply detail_parse_ok; eassumption|].
    rewrite code_items_map, DataFrame_of_code_records; simpl.
    rewrite length_map, findall_count, findall_elements_tagged; auto.
Qed.


(** C2, amended.  With the prefix of its root declared, the scenario
    document holds one [Codelist] element, and the registry parse
    returns exactly one record: id CL_SEX, agency SPC, version 1.0,
    final, the structure URL, and the names Sex (en) and Sexe (fr). *)
Theorem C2_declared_scenario_yields_one_record
  (response : Response) (log : list str) :
  requests_get API_ENDPOINT = inr response ->
  raise_for_status response = None ->
  content response = Concrete.cl_sex_doc_declared ->
  ET_fromstring Concrete.cl_sex_doc_declared = inr Concrete.cl_sex_tree ->
  registry_parse log
  = (inr (mkDataFrame CODELIST_COLUMNS [Concrete.cl_sex_row]), log)
  /\ map extract_names (findall_descendants Concrete.cl_sex_tree TAG_CODELIST)
     = [[(u "en", VStr (u "Sex")); (u "fr", VStr (u "Sexe"))]].
Proof.
  intros Hget Hstatus Hbody Hxml. rewrite <- Hbody in Hxml.
  split; [|vm_compute; reflexivity].
  rewrite (registry_parse_ok _ Hget Hstatus Hxml), codelist_data_map.
  change (findall_descendants Concrete.cl_sex_tree TAG_CODELIST)
    with [Concrete.cl_sex_codelist].
  rewrite DataFrame_of_codelist_records. simpl map.
  match goal with
  | |- context [str_lower ?raw] => change raw with (u "true")
  end.
  rewrite (str_lower_ascii (u "true")) by reflexivity.
  vm_compute. reflexivity.
Qed.

End Parsers.

(* ================================================================== *)
(** ** The exports *)
(* ================================================================== *)

Lemma code_table_eq (codes : list Element) :
  code_table codes =
  mkDataFrame (match codes with [] => [] | _ => CODE_COLUMNS end) (code_rows codes).
Proof. apply DataFrame_of_code_records. Qed.

(** *** The text block *)

Lemma baseline_next (k : nat) : (baseline k - 120 = baseline (S k))%Z.
Proof. unfold baseline. lia. Qed.

Lemma textLine_at_line (k : nat) (t : TextObject) (s : str) :
  at_line k t ->
  at_line (S k) (textLine t s) /\ code (textLine t s) = code t ++ place k [s].
Proof.
  intros (Hx & Hy & Hf & Hs & Hl). unfold at_line, textLine; simpl.
  rewrite Hx, Hy, Hf, Hs, Hl, baseline_next. auto 6.
Qed.

Lemma place_app (k : nat) (l1 l2 : list str) :
  place k (l1 ++ l2) = place k l1 ++ place (k + List.length l1) l2.
Proof.
  revert k; induction l1 as [|s l1 IH]; intros k; simpl.
  - now rewrite Nat.add_0_r.
  - rewrite IH. now rewrite Nat.add_succ_r.
Qed.

Lemma textLines_at_line (ss : list str) (k : nat) (t : TextObject) :
  at_line k t ->
  at_line (k + List.length ss) (fold_left textLine ss t)
  /\ code (fold_left textLine ss t) = code t ++ place k ss.
Proof.
  revert k t; induction ss as [|s ss IH]; intros k t H; simpl.
  - now rewrite Nat.add_0_r, app_nil_r.
  - destruct (textLine_at_line s H) as [H1 H2].
    destruct (IH _ _ H1) as [H3 H4].
    rewrite Nat.add_succ_r. split; [exact H3|].
    rewrite H4, H2, <- app_assoc. reflexivity.
Qed.

(** The loop of [create_pdf] over the rows of a codelist table writes
    the four lines of each row and does not raise. *)
Lemma rows_loop (table : list (list value))
  (codes : list Element) (t : TextObject) (log : list str) :
  for_each (code_rows codes)
    (fun text row =>
       code_id <- row_get (mkDataFrame CODE_COLUMNS table) row (u "Code ID") ;;
       let text := textLine text (u "Code ID: " ++ py_str code_id) in
       name_en <- row_get (mkDataFrame CODE_COLUMNS table) row (u "Name (en)") ;;
       let text := textLine text (u "Name (en): " ++ py_str name_en) in
       name_fr <- row_get (mkDataFrame CODE_COLUMNS table) row (u "Name (fr)") ;;
       let text := textLine text (u "Name (fr): " ++ py_str name_fr) in
       ret (textLine text []))
    t log
  = (inr (fold_left textLine (flat_map row_lines (code_rows codes)) t), log).
Proof.
  revert t; induction codes as [|c codes IH]; intros t; [reflexivity|].
  cbn [code_rows map for_each flat_map]. fold (code_rows codes).
  rewrite fold_left_app. unfold bind at 1.
  match goal with
  | |- context [for_each _ ?body] =>
      assert (Hbody : body t (map snd (code_record c)) log
                      = (inr (fold_left textLine
                                (row_lines (map snd (code_record c))) t), log))
        by reflexivity
  end.
  cbv beta in Hbody. rewrite Hbody. apply IH.
Qed.

(** The text object after the font is set and the two title lines are
    written. *)
Lemma title_block :
  let t := textLine
             (textLine
                (setFont (beginText (new_Canvas letter) (pt 50) (pt 750))
                         (u "Helvetica") (pt 10))
                (u "Codelist Details"))
             (repeat 45%N 50) in
  at_line 2 t /\ code t = place 0 title_lines.
Proof. repeat split. Qed.

(** The document of a codelist table: a single page that holds every
    line, line number [k] at [baseline k]. *)
Lemma create_pdf_layout (codes : list Element) (log : list str) :
  create_pdf (code_table codes) log
  = (inr [mkPage letter (place 0 (document_lines (code_rows codes)))], log).
Proof.
  rewrite code_table_eq. destruct codes as [|c codes]; [reflexivity|].
  set (cs := c :: codes). unfold create_pdf. cbn [rows columns].
  unfold bind at 1. rewrite rows_loop. cbv beta iota.
  destruct title_block as [Hat Hcode].
  match goal with
  | |- context [fold_left textLine ?ss ?t] =>
      destruct (textLines_at_line ss Hat) as [_ Hc];
      set (text := fold_left textLine ss t) in *
  end.
  unfold ret, save, drawText, showPage; simpl page_code; simpl pages.
  rewrite Hc, Hcode. unfold document_lines.
  rewrite place_app. reflexivity.
Qed.

Lemma place_length (k : nat) (lines : list str) :
  List.length (place k lines) = List.length lines.
Proof. revert k; induction lines; intros k; simpl; auto. Qed.

Lemma place_nth (lines : list str) (k i : nat) (l : TextLine) :
  nth_error (place k lines) i = Some l ->
  line_x l = pt 50 /\ line_y l = baseline (k + i)
  /\ nth_error lines i = Some (line_text l).
Proof.
  revert k i; induction lines as [|s lines IH]; intros k [|i] H; simpl in *;
    try discriminate.
  - inversion H; subst; simpl. now rewrite Nat.add_0_r.
  - rewrite Nat.add_succ_r. apply (IH (S k)), H.
Qed.

Lemma document_lines_length (codes : list Element) :
  List.length (document_lines (code_rows codes)) = 2 + 4 * List.length codes.
Proof.
  unfold document_lines. rewrite length_app. simpl. f_equal. f_equal.
  induction codes as [|c codes IH]; simpl; [reflexivity|].
  rewrite IH. lia.
Qed.

(** C7, amended.  The printable-document export writes all its lines
    (title, separator, four per record) as one block on a single page
    and never starts another page: line number [k] is placed 12 points
    below line [k-1], at 750 - 12 k points, so exactly the first 63
    lines lie on the page and every later line is placed below its
    bottom edge. *)
Theorem C7_single_page_without_page_breaks (codes : list Element) (log : list str) :
  exists page,
    create_pdf (code_table codes) log = (inr [page], log)
    /\ page_size page = letter
    /\ map line_text (page_lines page) = document_lines (code_rows codes)
    /\ List.length (page_lines page) = 2 + 4 * List.length codes
    /\ forall k l, nth_error (page_lines page) k = Some l ->
                   line_y l = baseline k
                   /\ (on_page page l = true <-> k <= 62).
Proof.
  eexists; split; [apply create_pdf_layout|]. cbn [page_size page_lines].
  split; [reflexivity|]. split; [|split].
  - generalize (document_lines (code_rows codes)), 0.
    induction l as [|s l IH]; intros k; simpl; [reflexivity|]. now rewrite IH.
  - now rewrite place_length, document_lines_length.
  - intros k l H. apply place_nth in H as (_ & Hy & _). simpl in Hy.
    split; [exact Hy|]. unfold on_page; cbn [page_size]. rewrite Hy.
    unfold baseline, letter, pt; simpl snd.
    rewrite andb_true_iff, !Z.leb_le. lia.
Qed.

(** *** The CSV text and its encoding *)

Lemma encode_latin1_from_ok (s : str) (pos : nat) :
  forallb latin1 s = true ->
  exists data, encode_latin1_from pos s = inr data /\ map Byte.to_N data = s.
Proof.
  revert pos; induction s as [|c s IH]; intros pos H; simpl.
  - now exists [].
  - simpl in H. apply andb_true_iff in H as [Hc Hs].
    destruct (Byte.of_N c) as [x|] eqn:E.
    + destruct (IH (S pos) Hs) as (data & -> & Hd). exists (x :: data).
      split; [reflexivity|]. simpl. apply Byte.to_of_N in E. now rewrite E, Hd.
    + apply Byte.of_N_None_iff in E. unfold latin1 in Hc.
      apply N.ltb_lt in Hc. lia.
Qed.

Lemma encode_latin1_from_fails (s : str) (pos : nat) (c : char) :
  In c s -> (255 < c)%N ->
  exists i ch, encode_latin1_from pos s = inl (UnicodeEncodeError (pos + i) ch)
               /\ (255 < ch)%N /\ nth_error s i = Some ch
               /\ forallb latin1 (firstn i s) = true.
Proof.
  revert pos; induction s as [|d s IH]; intros pos Hin Hc; [contradiction|].
  simpl. destruct (Byte.of_N d) as [x|] eqn:E.
  - destruct Hin as [->|Hin].
    + apply Byte.of_N_None_iff in Hc. congruence.
    + destruct (IH (S pos) Hin Hc) as (i & ch & -> & Hch & Hnth & Hfirst).
      exists (S i), ch. rewrite Nat.add_succ_r. repeat split; auto.
      simpl. rewrite Hfirst, andb_true_r. unfold latin1. apply N.ltb_lt.
      destruct (N.lt_ge_cases d 256) as [|Hge]; [assumption|].
      assert (Hd : (255 < d)%N) by lia.
      apply Byte.of_N_None_iff in Hd. congruence.
  - exists 0, d. rewrite Nat.add_0_r. repeat split.
    now apply Byte.of_N_None_iff.
Qed.

Lemma In_csv_field (c : char) (s : str) : In c s -> In c (csv_field s).
Proof.
  intros H. unfold csv_field. destruct (existsb csv_special s); [|assumption].
  right. apply in_or_app; left. apply in_flat_map. exists c. split; [assumption|].
  destruct (N.eqb c dquote) eqn:E; [|now left].
  apply N.eqb_eq in E; subst; now left.
Qed.

Lemma In_csv_fields (c : char) (s : str) (fields : list str) :
  In c s -> In s fields -> exists f, In f (csv_fields fields) /\ In c f.
Proof.
  intros Hc Hs.
  assert (H : csv_fields fields = map csv_field fields).
  { destruct fields as [|[|] [|]]; try reflexivity.
    destruct Hs as [<-|[]]. contradiction. }
  rewrite H. exists (csv_field s). split; [now apply in_map|now apply In_csv_field].
Qed.

Lemma In_join (sep : str) (c : char) (f : str) (fields : list str) :
  In f fields -> In c f -> In c (join sep fields).
Proof.
  induction fields as [|g fields IH]; intros Hf Hc; [contradiction|].
  simpl. destruct Hf as [->|Hf].
  - destruct fields; [assumption|apply in_or_app; now left].
  - destruct fields as [|h fields]; [contradiction|].
    apply in_or_app; right. apply in_or_app; right. now apply IH.
Qed.

(** Every character of a text cell is in the CSV text. *)
Lemma In_to_csv (df : DataFrame) (row : list value) (s : str) (c : char)
  (encoding : str) :
  In row (rows df) -> In (VStr s) row -> In c s -> In c (to_csv df encoding).
Proof.
  intros Hrow Hcell Hc. unfold to_csv, csv_table.
  destruct (@In_csv_fields c s (map csv_cell row) Hc) as (f & Hf & Hcf).
  { change s with (csv_cell (VStr s)). now apply in_map. }
  apply in_flat_map. exists (csv_fields (map csv_cell row)). split.
  - right. apply in_map_iff. now exists row.
  - apply in_or_app; left. now apply In_join with f.
Qed.

Lemma csv_fields_several (f g : str) (rest : list str) :
  csv_fields (f :: g :: rest) = map csv_field (f :: g :: rest).
Proof. now destruct f. Qed.

(** The CSV table of a non-empty codelist table: the three column
    names, then the three fields of each record. *)
Lemma csv_table_codes (code : Element) (codes : list Element) :
  csv_table (code_table (code :: codes))
  = CODE_COLUMNS
    :: map (fun row => map csv_field (map csv_cell row))
           (code_rows (code :: codes)).
Proof.
  rewrite code_table_eq. unfold csv_table. cbn [columns rows].
  f_equal. apply map_ext_in. intros row Hrow.
  apply in_map_iff in Hrow as (e & <- & _). apply csv_fields_several.
Qed.

(** *** The bytes of the CSV download *)

Lemma csv_written (v : value) : csv_field (csv_cell v) = written v.
Proof. destruct v as [s|[|]| |]; reflexivity. Qed.

Lemma code_record_row (code : Element) : map snd (code_record code) = code_row code.
Proof. reflexivity. Qed.

Lemma join_three (a c d : str) :
  join [comma] [a; c; d] ++ [LF] = a ++ [44%N] ++ c ++ [44%N] ++ d ++ [10%N].
Proof. cbn [join]. now rewrite <- !app_assoc. Qed.

(** The CSV text of a non-empty table of codes, line by line. *)
Lemma to_csv_codes (codes : list Element) (encoding : str) :
  codes <> [] -> to_csv (code_table codes) encoding = csv_text codes.
Proof.
  destruct codes as [|c0 codes]; [congruence|intros _].
  unfold to_csv. rewrite csv_table_codes. cbn [flat_map]. unfold csv_text.
  f_equal. unfold code_rows. generalize (c0 :: codes). clear.
  induction l as [|c l IH]; [reflexivity|].
  cbn [map flat_map]. rewrite IH. f_equal.
  rewrite code_record_row. unfold code_row. cbn [map].
  rewrite join_three, !csv_written. reflexivity.
Qed.

Lemma encode_latin1_from_inv (text : str) (pos : nat) (data : bytes) :
  encode_latin1_from pos text = inr data -> map Byte.to_N data = text.
Proof.
  revert pos data; induction text as [|c text IH]; intros pos data; simpl.
  - now intros [= <-].
  - destruct (Byte.of_N c) as [x|] eqn:E; [|discriminate].
    destruct (encode_latin1_from (S pos) text) as [e|rest] eqn:Er; [discriminate|].
    intros [= <-]. simpl. apply Byte.to_of_N in E. now rewrite E, (IH _ _ Er).
Qed.

(** What the download holds when the export returns. *)
Lemma csv_download_returns (codes : list Element) (data : bytes) (log : list str) :
  codes <> [] ->
  csv_download_data (code_table codes) log = (inr data, log) ->
  map Byte.to_N data = csv_text codes.
Proof.
  intros Hcodes. unfold csv_download_data, lift, encode_latin1.
  rewrite to_csv_codes by assumption.
  destruct (encode_latin1_from 0 (csv_text codes)) as [e|d] eqn:E; [discriminate|].
  intros [= <-]. eapply encode_latin1_from_inv, E.
Qed.

Lemma csv_text_split (before after : list Element) (code : Element) :
  csv_text (before ++ code :: after)
  = CSV_HEADER ++ flat_map code_line before ++ code_line code
    ++ flat_map code_line after.
Proof. unfold csv_text. now rewrite flat_map_app. Qed.

Lemma code_line_without_english (code : Element) :
  name_of (u "en") code = VStr (u "N/A") ->
  code_line code
  = written (VStr (code_id_of code)) ++ u ",N/A,"
    ++ written (name_of (u "fr") code) ++ [10%N].
Proof. intros H. unfold code_line. rewrite H. reflexivity. Qed.

Lemma code_line_without_french (code : Element) :
  name_of (u "fr") code = VStr (u "N/A") ->
  code_line code
  = written (VStr (code_id_of code)) ++ [44%N]
    ++ written (name_of (u "en") code) ++ u ",N/A" ++ [10%N].
Proof. intros H. unfold code_line. rewrite H. reflexivity. Qed.

(** C8, amended.  Whenever the delimited-text export returns its
    bytes, they are the header line followed by one line per code, and
    the line of a code whose names dict has no entry for "en" has the
    field N/A in the Name (en) column; likewise for "fr" and the
    Name (fr) column. *)
Theorem C8_missing_language_is_exported_as_NA
  (root code : Element) (i : nat) (data : bytes) (log : list str) :
  let codes := findall_descendants root TAG_CODE in
  nth_error codes i = Some code ->
  csv_download_data (DataFrame_of (code_items root)) log = (inr data, log) ->
  map Byte.to_N data
  = CSV_HEADER ++ flat_map code_line (firstn i codes) ++ code_line code
    ++ flat_map code_line (skipn (S i) codes)
  /\ (dict_get (extract_names code) (u "en") = None ->
      code_line code
      = written (VStr (code_id_of code)) ++ u ",N/A,"
        ++ written (name_of (u "fr") code) ++ [10%N])
  /\ (dict_get (extract_names code) (u "fr") = None ->
      code_line code
      = written (VStr (code_id_of code)) ++ [44%N]
        ++ written (name_of (u "en") code) ++ u ",N/A" ++ [10%N]).
Proof.
  intros codes Hnth Hdata. subst codes.
  rewrite code_items_map in Hdata.
  fold (code_table (findall_descendants root TAG_CODE)) in Hdata.
  set (codes := findall_descendants root TAG_CODE) in *.
  assert (Hsplit : codes = firstn i codes ++ code :: skipn (S i) codes).
  { clear Hdata. revert i Hnth. induction codes as [|c codes IH]; intros [|i] H;
      try discriminate.
    - now injection H as ->.
    - cbn [firstn skipn app]. f_equal. now apply IH. }
  split; [|split].
  - rewrite <- csv_text_split, <- Hsplit.
    apply csv_download_returns with log; [|exact Hdata].
    intros E. rewrite E in Hnth. destruct i; discriminate.
  - intros Hnone. apply code_line_without_english.
    unfold name_of, dict_get_default. now rewrite Hnone.
  - intros Hnone. apply code_line_without_french.
    unfold name_of, dict_get_default. now rewrite Hnone.
Qed.

(** C10.  When a text cell of the table holds a code point above 255,
    the CSV download raises [UnicodeEncodeError]: the text is built
    first, whatever encoding [to_csv] is given, and the strict
    ISO-8859-1 encoding of that text stops at its first code point
    above 255. *)
Theorem C10_non_latin1_cell_raises
  (df : DataFrame) (row : list value) (s : str) (c : char) (log : list str) :
  In row (rows df) -> In (VStr s) row -> In c s -> (255 < c)%N ->
  (forall encoding, to_csv df encoding = to_csv df (u "ISO-8859-1"))
  /\ exists position ch,
       csv_download_data df log = (inl (UnicodeEncodeError position ch), log)
       /\ (255 < ch)%N
       /\ nth_error (to_csv df (u "ISO-8859-1")) position = Some ch
       /\ forallb latin1 (firstn position (to_csv df (u "ISO-8859-1"))) = true.
Proof.
  intros Hrow Hcell Hc Hbig. split; [reflexivity|].
  pose proof (@In_to_csv df row s c (u "ISO-8859-1") Hrow Hcell Hc) as Hin.
  destruct (@encode_latin1_from_fails _ 0 c Hin Hbig) as (i & ch & He & H1 & H2 & H3).
  exists i, ch. unfold csv_download_data, lift, encode_latin1. rewrite He. auto.
Qed.

(** C6, amended.  On the table of any sequence of parsed records the
    printable-document export returns a document, and for the empty
    sequence that document holds the title and separator lines only.
    The delimited-text export of the empty sequence returns a single
    empty line: the columns come from the records, so no header is
    written.  For a non-empty sequence whose characters are all within
    ISO-8859-1 it returns the bytes of the three-column header line
    followed by one line per record. *)
Theorem C6_exports_of_parsed_records
  (code : Element) (codes : list Element) (log : list str) :
  create_pdf (code_table codes) log
  = (inr [mkPage letter (place 0 (document_lines (code_rows codes)))], log)
  /\ create_pdf (code_table []) log
     = (inr [mkPage letter (place 0 title_lines)], log)
  /\ csv_download_data (code_table []) log = (inr [x0a], log)
  /\ (forallb latin1 (csv_text (code :: codes)) = true ->
      exists data,
        csv_download_data (code_table (code :: codes)) log = (inr data, log)
        /\ map Byte.to_N data
           = CSV_HEADER ++ code_line code ++ flat_map code_line codes).
Proof.
  split; [apply create_pdf_layout|].
  split; [reflexivity|]. split; [reflexivity|].
  intros Hlatin. destruct (@encode_latin1_from_ok _ 0 Hlatin) as (data & He & Hd).
  exists data. unfold csv_download_data, lift, encode_latin1.
  rewrite to_csv_codes by discriminate. rewrite He. split; [reflexivity|].
  exact Hd.
Qed.

Lemma place_texts (lines : list str) (k : nat) :
  map line_text (place k lines) = lines.
Proof.
  revert k; induction lines as [|s lines IH]; intros k; simpl; [reflexivity|].
  now rewrite IH.
Qed.

Lemma row_lines_length (codes : list Element) :
  List.length (flat_map row_lines (code_rows codes)) = 4 * List.length codes.
Proof.
  induction codes as [|c codes IH]; simpl; [reflexivity|]. rewrite IH. lia.
Qed.

(** The last of the names with a language is the one written with
    it that no later name repeats. *)
Lemma lang_of_attribute (name_elem : Element) (lang : str) :
  lang <> u "unknown" ->
  str_eqb (lang_of name_elem) lang = true
  <-> dict_get (attrib name_elem) XML_LANG = Some lang.
Proof.
  intros Hlang. unfold lang_of, dict_get_default. rewrite str_eqb_eq.
  destruct (dict_get (attrib name_elem) XML_LANG) as [v|].
  - split; congruence.
  - split; [intros E; now rewrite E in Hlang|discriminate].
Qed.

Lemma last_named_split (lang : str) (earlier later : list Element)
  (name_elem : Element) :
  str_eqb (lang_of name_elem) lang = true ->
  (forall e, In e later -> str_eqb (lang_of e) lang = false) ->
  last_named lang (earlier ++ name_elem :: later) = Some name_elem.
Proof.
  intros Hx Hlater. unfold last_named.
  rewrite rev_app_distr. cbn [rev]. rewrite <- app_assoc. cbn [app].
  assert (Hrev : forall e, In e (rev later) -> str_eqb (lang_of e) lang = false)
    by (intros e He; apply Hlater; now apply in_rev).
  revert Hrev. generalize (rev later). intros l.
  induction l as [|y l IH]; intros Hl; cbn [find app].
  - now rewrite Hx.
  - rewrite (Hl y (or_introl eq_refl)). apply IH.
    intros e He. apply Hl. now right.
Qed.

(** C9, amended.  When the last descendant [Name] of an element with
    [xml:lang] "en" has no text, the names dict holds [None] for "en"
    (not "N/A", which stands for a missing entry only, and not the
    empty string), and so does the Name (en) field of the record of
    either parser and the cell of the table.  The null then goes into
    the exports: the CSV download, when it returns, has an empty
    Name (en) field on the line of that code, and the document of
    [create_pdf] has the line "Name (en): None" for it. *)
Theorem C9_empty_english_name_is_none
  (lower : str -> str) (before after : list Element)
  (elem name_elem : Element) (earlier later : list Element)
  (log : list str) :
  findall_descendants elem TAG_NAME = earlier ++ name_elem :: later ->
  dict_get (attrib name_elem) XML_LANG = Some (u "en") ->
  (forall e, In e later -> dict_get (attrib e) XML_LANG <> Some (u "en")) ->
  text name_elem = None ->
  let codes := before ++ elem :: after in
  dict_get (extract_names elem) (u "en") = Some VNone
  /\ dict_get (code_record elem) (u "Name (en)") = Some VNone
  /\ dict_get (codelist_record lower elem) (u "Name (en)") = Some VNone
  /\ VNone <> VStr (u "N/A") /\ VNone <> VStr []
  /\ nth_error (rows (code_table codes)) (List.length before)
     = Some [VStr (code_id_of elem); VNone; name_of (u "fr") elem]
  /\ (forall data,
        csv_download_data (code_table codes) log = (inr data, log) ->
        map Byte.to_N data
        = CSV_HEADER ++ flat_map code_line before
          ++ (written (VStr (code_id_of elem)) ++ u ",,"
              ++ written (name_of (u "fr") elem) ++ [10%N])
          ++ flat_map code_line after)
  /\ (exists page,
        create_pdf (code_table codes) log = (inr [page], log)
        /\ nth_error (map line_text (page_lines page))
                     (2 + 4 * List.length before + 1)
           = Some (u "Name (en): None")).
Proof.
  intros Hnames Hlang Hlater Htext codes.
  assert (Hlast : last_named (u "en") (findall_descendants elem TAG_NAME)
                  = Some name_elem).
  { rewrite Hnames. apply last_named_split.
    - apply lang_of_attribute; [discriminate|exact Hlang].
    - intros e He. apply not_true_is_false. intros E.
      apply lang_of_attribute in E; [|discriminate]. exact (Hlater e He E). }
  assert (Hen : dict_get (extract_names elem) (u "en") = Some VNone).
  { change (extract_names elem)
      with (fold_left names_step (findall_descendants elem TAG_NAME) []).
    rewrite names_loop_get, Hlast, Htext. reflexivity. }
  assert (Hname : name_of (u "en") elem = VNone)
    by (unfold name_of, dict_get_default; now rewrite Hen).
  assert (Hrow : map snd (code_record elem)
                 = [VStr (code_id_of elem); VNone; name_of (u "fr") elem])
    by (rewrite code_record_row; unfold code_row; now rewrite Hname).
  split; [exact Hen|].
  split; [change (Some (name_of (u "en") elem) = Some VNone); now rewrite Hname|].
  split; [change (Some (name_of (u "en") elem) = Some VNone); now rewrite Hname|].
  split; [discriminate|]. split; [discriminate|].
  assert (Hcodes : codes <> []) by (subst codes; now destruct before).
  split; [|split].
  - rewrite code_table_eq. destruct codes eqn:E; [congruence|]. rewrite <- E.
    cbn [rows]. unfold code_rows, codes. rewrite map_app. cbn [map].
    rewrite nth_error_app2 by (rewrite length_map; lia).
    rewrite length_map, Nat.sub_diag. cbn [nth_error]. now rewrite Hrow.
  - intros data Hdata.
    rewrite (csv_download_returns Hcodes Hdata). unfold codes.
    rewrite csv_text_split. do 2 f_equal.
    unfold code_line. rewrite Hname. reflexivity.
  - eexists. split; [apply create_pdf_layout|]. cbn [page_lines].
    rewrite place_texts. unfold document_lines, codes, code_rows.
    rewrite map_app, flat_map_app. cbn [map flat_map].
    fold (code_rows before).
    rewrite nth_error_app2 by (simpl; lia).
    rewrite nth_error_app2 by (rewrite row_lines_length; simpl; lia).
    rewrite row_lines_length.
    replace (2 + 4 * List.length before + 1 - List.length title_lines
             - 4 * List.length before) with 1 by (simpl; lia).
    rewrite Hrow. reflexivity.
Qed.

(* ================================================================== *)
(** ** Concrete runs *)
(* ================================================================== *)

Import Concrete.

Lemma ascii_lower_on_ascii (s : str) :
  is_ascii s = true -> ascii_lower s = ascii_lower s.
Proof. reflexivity. Defined.

Lemma registry_doc_tree : MiniXML.fromstring registry_doc = inr registry_tree.
Proof. vm_compute. reflexivity. Defined.

Lemma detail_doc_tree : MiniXML.fromstring detail_doc = inr detail_tree.
Proof. vm_compute. reflexivity. Defined.

Lemma cl_sex_doc_declared_tree :
  MiniXML.fromstring cl_sex_doc_declared = inr cl_sex_tree.
Proof. vm_compute. reflexivity. Defined.

Lemma truncated_diagnostic :
  MiniXML.fromstring truncated
  = inl (ParseError (u "unclosed token: line 1, column 0")).
Proof. vm_compute. reflexivity. Defined.


Lemma truncated_foo_error :
  MiniXML.fromstring truncated_foo
  = inl (LookupError (u "unknown encoding: foo")).
Proof. vm_compute. reflexivity. Defined.

(** The registry with two codelists yields two records, the detail
    document with three codes yields three. *)
Lemma C1_two_codelists_three_codes :
  (exists df,
      registry registry_doc [] = (inr df, [])
      /\ rows df = map (fun codelist => map snd (codelist_record ascii_lower codelist))
                       (elements_tagged TAG_CODELIST registry_tree)
      /\ List.length (rows df) = 2)
  /\ (exists df,
        detail detail_doc [] = (inr df, [])
        /\ rows df = map (fun code => map snd (code_record code))
                         (elements_tagged TAG_CODE detail_tree)
        /\ List.length (rows df) = 3).
Proof.
  exact (@C1_one_record_per_element_in_document_order
           bytes (serve registry_doc) status_ok body MiniXML.fromstring
           ascii_lower registry_doc registry_tree detail_doc detail_tree []
           eq_refl eq_refl registry_doc_tree detail_doc_tree).
Defined.

(** The scenario document as written is rejected: the prefix of its
    root is not bound, so the registry parse shows the parser's
    diagnostic and returns no record. *)
Lemma C2_undeclared_prefix_yields_no_record :
  registry cl_sex_doc []
  = (inr (mkDataFrame [] []),
     [u "Error parsing XML: unbound prefix: line 1, column 0"])
  /\ ~ (exists df row, registry cl_sex_doc [] = (inr df, []) /\ rows df = [row]).
Proof.
  assert (H : registry cl_sex_doc []
              = (inr (mkDataFrame [] []),
                 [u "Error parsing XML: unbound prefix: line 1, column 0"]))
    by (vm_compute; reflexivity).
  split; [exact H|]. intros (df & row & Hrun & _).
  rewrite H in Hrun. discriminate.
Qed.

Lemma C2_declared_scenario_run :
  registry cl_sex_doc_declared []
  = (inr (mkDataFrame CODELIST_COLUMNS [cl_sex_row]), [])
  /\ map extract_names (findall_descendants cl_sex_tree TAG_CODELIST)
     = [[(u "en", VStr (u "Sex")); (u "fr", VStr (u "Sexe"))]].
Proof.
  exact (@C2_declared_scenario_yields_one_record
           bytes (serve cl_sex_doc_declared) status_ok body MiniXML.fromstring
           ascii_lower ascii_lower_on_ascii cl_sex_doc_declared []
           eq_refl eq_refl eq_refl cl_sex_doc_declared_tree).
Defined.



(** A [Codelist] element without attributes. *)
Lemma C4_bare_codelist :
  dict_get (codelist_record ascii_lower bare_codelist) (u "Codelist ID")
  = Some (VStr (u "Unknown ID"))
  /\ dict_get (codelist_record ascii_lower bare_codelist) (u "Is Final")
     = Some (VBool false).
Proof.
  destruct (@C4_unknown_id_and_is_final ascii_lower ascii_lower_on_ascii
              registry_tree bare_codelist) as (_ & Hid & _ & Hfinal & _).
  split; [apply Hid|apply Hfinal]; reflexivity.
Defined.

(** A codelist named in German only: the names dict has the entry, the
    record has no field for it. *)
Lemma C5_german_name_is_not_in_the_record :
  languages (findall_descendants codelist_de TAG_NAME) = [u "de"]
  /\ dict_get (extract_names codelist_de) (u "de") = Some (VStr (u "Geschlecht"))
  /\ dict_get (codelist_record ascii_lower codelist_de) (name_column (u "de"))
     = None
  /\ ~ In (VStr (u "Geschlecht"))
          (map snd (codelist_record ascii_lower codelist_de)).
Proof.
  repeat split; try (vm_compute; reflexivity).
  vm_compute. intuition discriminate.
Qed.

(** The names dict of the scenario codelist. *)
Lemma C5_scenario_french_name :
  dict_get (extract_names cl_sex_codelist) (u "fr") = Some (VStr (u "Sexe")).
Proof.
  exact (proj1 (C5_names_dict_last_wins_record_keeps_en_fr
                  ascii_lower cl_sex_codelist (u "fr"))).
Defined.

(** The empty table is exported as one empty line, not as a header
    line; and a record with a euro sign makes the CSV export raise. *)
Lemma C6_empty_table_has_no_header_and_euro_raises :
  detail (bq "<Codelist/>") [] = (inr (code_table []), [])
  /\ csv_download_data (code_table []) [] = (inr [x0a], [])
  /\ [x0a] <> b "Code ID,Name (en),Name (fr)" ++ [x0a]
  /\ csv_download_data (code_table [euro_code]) []
     = (inl (UnicodeEncodeError 32 8364%N), []).
Proof.
  repeat split; try (vm_compute; reflexivity). discriminate.
Qed.

Lemma C6_three_codes_exported :
  exists data,
    csv_download_data (code_table detail_codes) [] = (inr data, [])
    /\ map Byte.to_N data = detail_csv_text.
Proof.
  destruct (C6_exports_of_parsed_records
              (hd bare_codelist detail_codes) (tl detail_codes) [])
    as (_ & _ & _ & Hcsv).
  exact (Hcsv eq_refl).
Defined.

(** Sixteen records: 66 lines on one page, the last three below the
    bottom edge. *)
Lemma C7_sixteen_records_overflow_one_page :
  exists page,
    create_pdf (code_table sixteen_codes) [] = (inr [page], [])
    /\ List.length (page_lines page) = 66
    /\ map line_y (filter (fun l => negb (on_page page l)) (page_lines page))
       = [-60; -180; -300]%Z.
Proof.
  eexists. split; [vm_compute; reflexivity|].
  split; vm_compute; reflexivity.
Qed.

Lemma C7_last_line_of_sixteen_records :
  exists page l,
    create_pdf (code_table sixteen_codes) [] = (inr [page], [])
    /\ nth_error (page_lines page) 65 = Some l
    /\ line_y l = (-300)%Z
    /\ on_page page l = false.
Proof.
  destruct (C7_single_page_without_page_breaks sixteen_codes [])
    as (page & Hrun & _ & _ & Hlen & Hlines).
  destruct (nth_error (page_lines page) 65) as [l|] eqn:E.
  - exists page, l. destruct (Hlines 65 l E) as [Hy Hon].
    split; [exact Hrun|]. split; [exact E|]. split; [exact Hy|].
    destruct (on_page page l); [|reflexivity].
    assert (65 <= 62) by (apply Hon; reflexivity). lia.
  - apply nth_error_None in E. rewrite Hlen in E. simpl in E. lia.
Defined.

(** A code with a French name only beside a code named with the euro
    sign: the row of the first holds N/A, and the export raises. *)
Lemma C8_another_cell_outside_latin1 :
  detail male_euro_doc [] = (inr (code_table [code_male; euro_code]), [])
  /\ dict_get (extract_names code_male) (u "en") = None
  /\ nth_error (rows (code_table [code_male; euro_code])) 0
     = Some [VStr (u "M"); VStr (u "N/A"); VStr (u "Homme")]
  /\ csv_download_data (code_table [code_male; euro_code]) []
     = (inl (UnicodeEncodeError 44 8364%N), [])
  /\ ~ (exists data,
          csv_download_data (code_table [code_male; euro_code]) []
          = (inr data, [])).
Proof.
  repeat split; try (vm_compute; reflexivity).
  intros (data & H); vm_compute in H; discriminate.
Qed.

(** The second code of [detail_doc] has a French name only. *)
Lemma C8_french_only_code :
  dict_get (extract_names code_male) (u "en") = None
  /\ detail detail_doc [] = (inr (DataFrame_of (code_items detail_tree)), [])
  /\ csv_download_data (DataFrame_of (code_items detail_tree)) []
     = (inr detail_csv, [])
  /\ map Byte.to_N detail_csv = detail_csv_text
  /\ code_line code_male = u "M,N/A,Homme" ++ [10%N].
Proof.
  destruct (@C8_missing_language_is_exported_as_NA
              detail_tree code_male 1 detail_csv [] eq_refl eq_refl)
    as (Hdata & Hen & _).
  split; [reflexivity|]. split; [vm_compute; reflexivity|].
  split; [reflexivity|]. split; [exact Hdata|]. exact (Hen eq_refl).
Defined.

(** A code with two English names, the first without text: the record
    holds the text of the second.  The same when the second is one
    level below, so that the first is the only [Name] child.  And a
    null name beside a code named with the euro sign: the CSV export
    raises, so the null reaches no exported field. *)
Lemma C9_later_english_name_wins :
  In empty_english_name (children code_two_english)
  /\ tag empty_english_name = TAG_NAME
  /\ dict_get (attrib empty_english_name) XML_LANG = Some (u "en")
  /\ text empty_english_name = None
  /\ dict_get (code_record code_two_english) (u "Name (en)")
     = Some (VStr (u "Female"))
  /\ dict_get (codelist_record ascii_lower code_two_english) (u "Name (en)")
     = Some (VStr (u "Female"))
  /\ filter (has_tag TAG_NAME) (children code_nested_english)
     = [empty_english_name]
  /\ dict_get (code_record code_nested_english) (u "Name (en)")
     = Some (VStr (u "Female"))
  /\ dict_get (code_record code_empty_english) (u "Name (en)") = Some VNone
  /\ csv_download_data (code_table [code_empty_english; euro_code]) []
     = (inl (UnicodeEncodeError 39 8364%N), []).
Proof.
  repeat split; try (vm_compute; reflexivity). now left.
Qed.

(** The third code of [detail_doc]: its only English name has no
    text. *)
Lemma C9_only_english_name_empty :
  detail_codes = firstn 2 detail_codes ++ [code_empty_english]
  /\ dict_get (extract_names code_empty_english) (u "en") = Some VNone
  /\ dict_get (code_record code_empty_english) (u "Name (en)") = Some VNone
  /\ dict_get (codelist_record ascii_lower code_empty_english) (u "Name (en)")
     = Some VNone
  /\ nth_error (rows (code_table detail_codes)) 2
     = Some [VStr (u "U"); VNone; VStr (u "N/A")]
  /\ csv_download_data (code_table detail_codes) [] = (inr detail_csv, [])
  /\ map Byte.to_N detail_csv = detail_csv_text
  /\ (exists page,
        create_pdf (code_table detail_codes) [] = (inr [page], [])
        /\ nth_error (map line_text (page_lines page)) 11
           = Some (u "Name (en): None")).
Proof.
  destruct (@C9_empty_english_name_is_none ascii_lower
              (firstn 2 detail_codes) [] code_empty_english
              empty_english_name [] [] [] eq_refl eq_refl
              (fun e (H : In e []) => False_ind _ H) eq_refl)
    as (Hnames & Hcode & Hcodelist & _ & _ & Hrow & Hcsv & Hpdf).
  split; [reflexivity|]. split; [exact Hnames|]. split; [exact Hcode|].
  split; [exact Hcodelist|]. split; [exact Hrow|].
  split; [reflexivity|]. split; [exact (Hcsv detail_csv eq_refl)|].
  exact Hpdf.
Defined.

(** A detail document with a euro sign. *)
Lemma C10_euro_sign_raises :
  detail euro_doc [] = (inr (code_table [euro_code]), [])
  /\ exists position ch,
       csv_download_data (code_table [euro_code]) []
       = (inl (UnicodeEncodeError position ch), [])
       /\ (255 < ch)%N
       /\ nth_error (to_csv (code_table [euro_code]) (u "ISO-8859-1")) position
          = Some ch
       /\ forallb latin1
            (firstn position (to_csv (code_table [euro_code]) (u "ISO-8859-1")))
          = true.
Proof.
  split; [vm_compute; reflexivity|].
  apply (@C10_non_latin1_cell_raises (code_table [euro_code])
           [VStr (u "EUR"); VStr [8364%N]; VStr (u "N/A")] [8364%N] 8364%N []).
  - left. reflexivity.
  - right. left. reflexivity.
  - left. reflexivity.
  - reflexivity.
Defined.

(* ================================================================== *)
(** ** The fetches *)
(* ================================================================== *)

Section Fetches.

Variable Response : Type.
Variable requests_get : str -> str + Response.
Variable raise_for_status : Response -> option str.
Variable content : Response -> bytes.
Variable ET_fromstring : bytes -> exn + Element.
Variable str_lower : str -> str.

Local Abbreviation registry_parse :=
  (fetch_codelists_from_xml requests_get raise_for_status content
     ET_fromstring str_lower).
Local Abbreviation detail_parse := (parse_codelist_items ET_fromstring).
Local Abbreviation detail_fetch :=
  (fetch_codelist_detail requests_get raise_for_status content).

(** X1.  When the request for the registry raises, or its status is
    an error, [fetch_codelists_from_xml] shows one message that ends
    with the error text and returns the empty table, whatever the XML
    parser would do. *)
Theorem registry_fetch_failure_is_reported (message : str) (log : list str) :
  (requests_get API_ENDPOINT = inl message
   \/ exists response, requests_get API_ENDPOINT = inr response
                       /\ raise_for_status response = Some message) ->
  registry_parse log
  = (inr (mkDataFrame [] []),
     log ++ [u "Error fetching data from API: " ++ message]).
Proof.
  unfold fetch_codelists_from_xml, try_except, bind, call_requests_get,
    call_raise_for_status.
  intros [Hget|(response & Hget & Hstatus)]; rewrite Hget; simpl;
    [|rewrite Hstatus; simpl]; reflexivity.
Qed.

(** X2.  What a parser raises is what [ET.fromstring] raised, and it
    is never a [ParseError], nor from the registry parser a
    [RequestException]: those are handled.  A parser that returns
    keeps the messages shown before, adds at most one, and returns the
    empty table whenever it adds one; a parser that raises adds
    none. *)
Theorem parsers_raise_only_what_the_xml_parser_raises
  (xml : bytes) (log : list str) :
  ((exists df shown,
       registry_parse log = (inr df, log ++ shown)
       /\ (shown = [] \/ (exists m, shown = [m]) /\ df = mkDataFrame [] []))
   \/ (exists response e,
         requests_get API_ENDPOINT = inr response
         /\ raise_for_status response = None
         /\ ET_fromstring (content response) = inl e
         /\ (forall d, e <> ParseError d)
         /\ (forall m, e <> RequestException m)
         /\ registry_parse log = (inl e, log)))
  /\ ((exists df shown,
         detail_parse xml log = (inr df, log ++ shown)
         /\ (shown = [] \/ (exists m, shown = [m]) /\ df = mkDataFrame [] []))
      \/ (exists e,
            ET_fromstring xml = inl e
            /\ (forall d, e <> ParseError d)
            /\ detail_parse xml log = (inl e, log))).
Proof.
  split.
  - unfold fetch_codelists_from_xml, try_except, bind, call_requests_get,
      call_raise_for_status, call_fromstring.
    destruct (requests_get API_ENDPOINT) as [m|response] eqn:Hget; simpl.
    { left. do 2 eexists; split; [reflexivity|right; eauto]. }
    destruct (raise_for_status response) as [m|] eqn:Hstatus; simpl.
    { left. do 2 eexists; split; [reflexivity|right; eauto]. }
    destruct (ET_fromstring (content response)) as [e|root] eqn:Hxml; simpl.
    + destruct e;
        try (left; do 2 eexists; split; [reflexivity|right; eauto]; fail);
        right; exists response; eexists; repeat split;
          try reflexivity; try assumption; discriminate.
    + left. exists (DataFrame_of (codelist_data str_lower root)), [].
      rewrite app_nil_r; auto.
  - unfold parse_codelist_items, try_except, bind, call_fromstring.
    destruct (ET_fromstring xml) as [e|root] eqn:Hxml; simpl.
    + destruct e;
        try (left; do 2 eexists; split; [reflexivity|right; eauto]; fail);
        right; eexists; repeat split; try reflexivity; discriminate.
    + left. exists (DataFrame_of (code_items root)), [].
      rewrite app_nil_r; auto.
Qed.

(** X3.  [fetch_codelist_detail] never raises: it returns the body of
    the response when the request succeeds with a good status, and
    otherwise shows one message naming the URL and the error and
    returns [None]. *)
Theorem detail_fetch_outcomes (url : str) (log : list str) :
  detail_fetch url log
  = match requests_get url with
    | inl message => (inr None, log ++ [detail_error url message])
    | inr response =>
        match raise_for_status response with
        | Some message => (inr None, log ++ [detail_error url message])
        | None => (inr (Some (content response)), log)
        end
    end.
Proof.
  unfold fetch_codelist_detail, try_except, bind, call_requests_get,
    call_raise_for_status.
  destruct (requests_get url) as [m|response]; simpl; [reflexivity|].
  destruct (raise_for_status response); reflexivity.
Qed.

End Fetches.

(* ================================================================== *)
(** ** The registry table in the script *)
(* ================================================================== *)

Lemma codelist_table_eq (lower : str -> str) (codelists : list Element) :
  codelist_table lower codelists
  = mkDataFrame (match codelists with [] => [] | _ => CODELIST_COLUMNS end)
                (map (codelist_row lower) codelists).
Proof. apply DataFrame_of_codelist_records. Qed.

Lemma filter_map_commute {A B} (f : A -> B) (p : B -> bool) (l : list A) :
  filter p (map f l) = map f (filter (fun x => p (f x)) l).
Proof.
  induction l as [|x l IH]; simpl; [reflexivity|].
  destruct (p (f x)); simpl; now rewrite IH.
Qed.

Lemma find_filter {A} (p : A -> bool) (l : list A) :
  find p l = hd_error (filter p l).
Proof.
  induction l as [|x l IH]; simpl; [reflexivity|].
  destruct (p x); [reflexivity|exact IH].
Qed.

(** The columns the script reads, on the rows of a non-empty table. *)
Lemma column_of_codelists (lower : str -> str) (rows_of : list Element)
  (key : str) (f : Element -> value) :
  (forall e, row_lookup CODELIST_COLUMNS (codelist_row lower e) key = Some (f e)) ->
  mem_str key CODELIST_COLUMNS = true ->
  Frame.column (mkDataFrame CODELIST_COLUMNS (map (codelist_row lower) rows_of)) key
  = inr (map f rows_of).
Proof.
  intros Hcell Hmem. unfold Frame.column. cbn [columns rows]. rewrite Hmem.
  rewrite map_map. f_equal. apply map_ext. intros e.
  unfold Frame.cell. cbn [columns]. now rewrite Hcell.
Qed.

Lemma where_id_of_codelists (lower : str -> str) (e0 : Element)
  (codelists : list Element) (x : value) :
  Frame.where_eq (codelist_table lower (e0 :: codelists)) (u "Codelist ID") x
  = inr (mkDataFrame CODELIST_COLUMNS
           (map (codelist_row lower) (filter (listed_as x) (e0 :: codelists)))).
Proof.
  rewrite codelist_table_eq. unfold Frame.where_eq.
  rewrite (@column_of_codelists lower (e0 :: codelists) (u "Codelist ID")
             (fun e => VStr (id_of e))) by reflexivity.
  cbn [columns rows]. rewrite filter_map_commute. reflexivity.
Qed.

(** X4.  The options of the select box are the ids of the [Codelist]
    elements of the registry in document order, "Unknown ID" for an
    element without id; a registry without [Codelist] elements gives
    an empty table, which has no id column at all. *)
Theorem registry_options_in_document_order (lower : str -> str) (root : Element) :
  let codelists := elements_tagged TAG_CODELIST root in
  let df := DataFrame_of (codelist_data lower root) in
  Frame.empty df = match codelists with [] => true | _ => false end
  /\ Frame.column df (u "Codelist ID")
     = match codelists with
       | [] => inl (KeyError (u "Codelist ID"))
       | _ => inr (map (fun e => VStr (id_of e)) codelists)
       end.
Proof.
  intros codelists df. subst df codelists.
  rewrite codelist_data_map, findall_elements_tagged.
  fold (codelist_table lower (elements_tagged TAG_CODELIST root)).
  rewrite codelist_table_eq.
  destruct (elements_tagged TAG_CODELIST root) as [|e0 codelists];
    [split; reflexivity|].
  split; [reflexivity|]. now apply column_of_codelists.
Qed.

Lemma selected_url_eq (lower : str -> str) (codelists : list Element)
  (id : str) (s : store * list element) :
  selected_url (codelist_table lower codelists) (VStr id) s
  = match codelists, first_with_id id codelists with
    | [], _ => (inl (PyExn (KeyError (u "Codelist ID"))), s)
    | _, Some e => (inr (VStr (url_of e)), s)
    | _, None => (inl IndexError, s)
    end.
Proof.
  destruct codelists as [|e0 codelists]; [reflexivity|].
  unfold selected_url, sbind.
  rewrite where_id_of_codelists. cbn [index sret].
  unfold first_with_id. rewrite find_filter.
  change (fun e => str_eqb (id_of e) id) with (listed_as (VStr id)).
  rewrite (@column_of_codelists lower _ (u "Structure URL")
             (fun e => VStr (url_of e))) by reflexivity.
  cbn [index sret].
  now destruct (filter (listed_as (VStr id)) (e0 :: codelists)).
Qed.

Lemma format_option_eq (lower : str -> str) (codelists : list Element)
  (id : str) (s : store * list element) :
  format_option (codelist_table lower codelists) (VStr id) s
  = match codelists, first_with_id id codelists with
    | [], _ => (inl (PyExn (KeyError (u "Codelist ID"))), s)
    | _, Some e => (inr (id ++ u " - " ++ py_str (name_en_of e)), s)
    | _, None => (inl IndexError, s)
    end.
Proof.
  destruct codelists as [|e0 codelists]; [reflexivity|].
  unfold format_option, sbind.
  rewrite where_id_of_codelists. cbn [index sret].
  unfold first_with_id. rewrite find_filter.
  change (fun e => str_eqb (id_of e) id) with (listed_as (VStr id)).
  rewrite (@column_of_codelists lower _ (u "Name (en)") name_en_of)
    by reflexivity.
  cbn [index sret].
  now destruct (filter (listed_as (VStr id)) (e0 :: codelists)).
Qed.

(** X5.  Selection by id takes the first match: for a table of
    [Codelist] elements the URL that is looked up, and the name in the
    label of the select box, are those of the first element in
    document order listed under the id.  An id that no element is
    listed under raises [IndexError], and the empty table raises
    [KeyError]. *)
Theorem selection_takes_the_first_match
  (lower : str -> str) (codelists : list Element) (id : str)
  (s : store * list element) :
  selected_url (codelist_table lower codelists) (VStr id) s
  = match codelists, first_with_id id codelists with
    | [], _ => (inl (PyExn (KeyError (u "Codelist ID"))), s)
    | _, Some e => (inr (VStr (url_of e)), s)
    | _, None => (inl IndexError, s)
    end
  /\ format_option (codelist_table lower codelists) (VStr id) s
     = match codelists, first_with_id id codelists with
       | [], _ => (inl (PyExn (KeyError (u "Codelist ID"))), s)
       | _, Some e => (inr (id ++ u " - " ++ py_str (name_en_of e)), s)
       | _, None => (inl IndexError, s)
       end.
Proof. split; [apply selected_url_eq|apply format_option_eq]. Qed.

(* ================================================================== *)
(** ** The steps of the script *)
(* ================================================================== *)

Lemma yields_put (e : element) (s : store * list element) :
  yields (put e) s (inr tt) [e].
Proof. reflexivity. Qed.

Lemma yields_sret {A} (a : A) (s : store * list element) :
  yields (sret a) s (inr a) [].
Proof. unfold yields, sret. rewrite app_nil_r. now destruct s. Qed.

Lemma yields_bind {A B} (m : Script A) (k : A -> Script B)
  (s : store * list element) (a : A) (r : raised + B) (e1 e2 : list element) :
  yields m s (inr a) e1 ->
  yields (k a) (fst s, snd s ++ e1) r e2 ->
  yields (sbind m k) s r (e1 ++ e2).
Proof.
  unfold yields, sbind. intros -> ->. cbn [fst snd]. now rewrite app_assoc.
Qed.

Lemma yields_bind_raise {A B} (m : Script A) (k : A -> Script B)
  (s : store * list element) (e : raised) (e1 : list element) :
  yields m s (inl e) e1 -> yields (sbind m k) s (inl e) e1.
Proof. unfold yields, sbind. now intros ->. Qed.

Lemma yields_call {A} (m : M A) (s : store * list element) (a : A)
  (messages : list str) :
  m [] = (inr a, messages) -> yields (call m) s (inr a) (map ElError messages).
Proof. unfold yields, call. now intros ->. Qed.

Lemma yields_call_raise {A} (m : M A) (s : store * list element) (e : exn)
  (messages : list str) :
  m [] = (inl e, messages) ->
  yields (call m) s (inl (PyExn e)) (map ElError messages).
Proof. unfold yields, call. now intros ->. Qed.

Section Details.

Variable ET_fromstring : bytes -> exn + Element.

Local Abbreviation details := (show_codelist_details ET_fromstring).

Lemma code_items_table (root : Element) :
  DataFrame_of (code_items root) = code_table (findall_descendants root TAG_CODE).
Proof. now rewrite code_items_map. Qed.

(** X6.  For a well formed detail document whose table is within
    ISO-8859-1, the script shows the table and offers three downloads
    named after the selected id: the fetched bytes unchanged as XML,
    the ISO-8859-1 bytes of the CSV text, and the one-page document of
    [create_pdf]. *)
Theorem details_offer_three_downloads
  (id : value) (xml : bytes) (root : Element) (a : store) (ui : list element) :
  ET_fromstring xml = inr root ->
  let codes := findall_descendants root TAG_CODE in
  forallb latin1 (to_csv (code_table codes) (u "ISO-8859-1")) = true ->
  exists data,
    map Byte.to_N data = to_csv (code_table codes) (u "ISO-8859-1")
    /\ details id xml (a, ui)
       = (inr tt,
          (a, ui ++ [ ElSubheader (u "Codelist Details");
                      ElDataFrame (code_table codes);
                      xml_button id xml;
                      csv_button id data;
                      pdf_button id
                        [mkPage letter (place 0 (document_lines (code_rows codes)))] ])).
Proof.
  intros Hxml codes Hlatin.
  destruct (@encode_latin1_from_ok _ 0 Hlatin) as (data & Hdata & Hback).
  exists data. split; [exact Hback|].
  unfold show_codelist_details, sbind, put, call. cbn [fst snd].
  rewrite (detail_parse_ok _ _ [] Hxml), code_items_table. fold codes.
  unfold csv_download_data, lift, encode_latin1. rewrite Hdata.
  rewrite create_pdf_layout. cbn [fst snd map].
  rewrite !app_nil_r, <- !app_assoc. reflexivity.
Qed.

(** X7.  A code point above 255 in a cell of the table ends the run
    with [UnicodeEncodeError] after the XML download has been offered:
    neither the CSV nor the PDF download is reached. *)
Theorem non_latin1_cell_ends_the_run
  (id : value) (xml : bytes) (root : Element) (a : store) (ui : list element)
  (row : list value) (cell : str) (c : char) :
  ET_fromstring xml = inr root ->
  let codes := findall_descendants root TAG_CODE in
  In row (rows (code_table codes)) -> In (VStr cell) row -> In c cell ->
  (255 < c)%N ->
  exists position ch,
    (255 < ch)%N
    /\ details id xml (a, ui)
       = (inl (PyExn (UnicodeEncodeError position ch)),
          (a, ui ++ [ ElSubheader (u "Codelist Details");
                      ElDataFrame (code_table codes);
                      xml_button id xml ])).
Proof.
  intros Hxml codes Hrow Hcell Hc Hbig.
  pose proof (@In_to_csv _ row cell c (u "ISO-8859-1") Hrow Hcell Hc) as Hin.
  destruct (@encode_latin1_from_fails _ 0 c Hin Hbig)
    as (i & ch & He & Hch & _ & _).
  exists i, ch. split; [exact Hch|].
  unfold show_codelist_details, sbind, put, call. cbn [fst snd].
  rewrite (detail_parse_ok _ _ [] Hxml), code_items_table. fold codes.
  unfold csv_download_data, lift, encode_latin1. rewrite He.
  cbn [fst snd map Nat.add].
  rewrite !app_nil_r, <- !app_assoc. reflexivity.
Qed.

(** X8.  For a detail document on which [ET.fromstring] raises
    [ParseError], the script shows the parse error and an empty table,
    and still offers the three downloads: the rejected bytes as XML, a
    CSV of one empty line, and a PDF with the title lines only. *)
Theorem malformed_details_still_offer_downloads
  (id : value) (xml : bytes) (diagnostic : str) (a : store) (ui : list element) :
  ET_fromstring xml = inl (ParseError diagnostic) ->
  details id xml (a, ui)
  = (inr tt,
     (a, ui ++ [ ElSubheader (u "Codelist Details");
                 ElError (u "Error parsing codelist XML: " ++ diagnostic);
                 ElDataFrame (mkDataFrame [] []);
                 xml_button id xml;
                 csv_button id [x0a];
                 pdf_button id [mkPage letter (place 0 title_lines)] ])).
Proof.
  intros Hxml.
  unfold show_codelist_details, sbind, put, call. cbn [fst snd].
  unfold parse_codelist_items, try_except, bind, call_fromstring.
  rewrite Hxml. cbn. rewrite <- !app_assoc. reflexivity.
Qed.

Lemma encode_latin1_from_error (text : str) (pos : nat) (e : exn) :
  encode_latin1_from pos text = inl e ->
  exists position ch, e = UnicodeEncodeError position ch.
Proof.
  revert pos; induction text as [|c text IH]; intros pos; simpl; [discriminate|].
  destruct (Byte.of_N c); [|intros [= <-]; eauto].
  destruct (encode_latin1_from (S pos) text) eqn:E; [|discriminate].
  intros [= <-]. eapply IH, E.
Qed.

(** Whatever the detail bytes are, the step adds elements to the page,
    leaves the state alone, and raises nothing but the encoding error
    of the CSV export or what the XML parser raised. *)
Lemma details_safe (id : value) (xml : bytes) (s : store * list element) :
  exists r added,
    yields (details id xml) s r added /\ ends_well ET_fromstring r.
Proof.
  destruct s as [a ui]. unfold yields, ends_well. cbn [fst snd].
  unfold show_codelist_details, sbind, put, call. cbn [fst snd].
  destruct (ET_fromstring xml) as [e|root] eqn:Hxml.
  - unfold parse_codelist_items, try_except, bind, call_fromstring.
    rewrite Hxml.
    destruct e; cbn; rewrite ?app_nil_r, <- ?app_assoc;
      try (do 2 eexists; split; [reflexivity|left; reflexivity]; fail);
      (do 2 eexists; split; [reflexivity|];
       right; right; do 2 eexists; split; [exact Hxml|];
       split; [discriminate|reflexivity]).
  - rewrite (detail_parse_ok _ _ [] Hxml), code_items_table.
    set (codes := findall_descendants root TAG_CODE).
    unfold csv_download_data, lift, encode_latin1.
    destruct (encode_latin1_from 0 (to_csv (code_table codes) (u "ISO-8859-1")))
      as [e|data] eqn:He.
    + destruct (encode_latin1_from_error _ _ He) as (p & ch & ->).
      cbn [fst snd map]. rewrite !app_nil_r, <- !app_assoc.
      do 2 eexists. split; [reflexivity|right; left; eauto].
    + rewrite create_pdf_layout.
      cbn [fst snd map]. rewrite !app_nil_r, <- !app_assoc.
      do 2 eexists. split; [reflexivity|left; reflexivity].
Qed.

End Details.

(* ================================================================== *)
(** ** Browsing *)
(* ================================================================== *)

Lemma steady_put (e : element) : steady (put e).
Proof. intros s. do 2 eexists. apply yields_put. Qed.

Lemma steady_sret {A} (a : A) : steady (sret a).
Proof. intros s. do 2 eexists. apply yields_sret. Qed.

Lemma steady_sraise {A} (e : raised) : steady (@sraise A e).
Proof.
  intros [a ui]. exists (inl e), []. unfold yields, sraise; cbn.
  now rewrite app_nil_r.
Qed.

Lemma steady_bind {A B} (m : Script A) (k : A -> Script B) :
  steady m -> (forall a, steady (k a)) -> steady (sbind m k).
Proof.
  intros Hm Hk s. destruct (Hm s) as ([e|a] & e1 & H1).
  - do 2 eexists. eapply yields_bind_raise, H1.
  - destruct (Hk a (fst s, snd s ++ e1)) as (r & e2 & H2).
    do 2 eexists. eapply yields_bind; eassumption.
Qed.

Lemma steady_call {A} (m : M A) : steady (call m).
Proof.
  intros s. destruct (m []) as [[e|a] messages] eqn:E.
  - do 2 eexists. eapply yields_call_raise, E.
  - do 2 eexists. eapply yields_call, E.
Qed.

Lemma steady_index {A} (r : exn + A) : steady (index r).
Proof. destruct r; [apply steady_sraise|apply steady_sret]. Qed.

Lemma steady_first_value (cells : list value) : steady (first_value cells).
Proof. destruct cells; [apply steady_sraise|apply steady_sret]. Qed.

Lemma steady_for_all {A B} (f : A -> Script B) (xs : list A) :
  (forall x, steady (f x)) -> steady (for_all f xs).
Proof.
  intros Hf. induction xs as [|x xs IH]; simpl; [apply steady_sret|].
  apply steady_bind; [apply Hf|]. intros y.
  apply steady_bind; [exact IH|]. intros ys. apply steady_sret.
Qed.

Ltac steady_steps :=
  repeat lazymatch goal with
    | |- steady (sbind _ _) => apply steady_bind; [|intros ?]
    | |- steady (put _) => apply steady_put
    | |- steady (sret _) => apply steady_sret
    | |- steady (sraise _) => apply steady_sraise
    | |- steady (call _) => apply steady_call
    | |- steady (index _) => apply steady_index
    | |- steady (first_value _) => apply steady_first_value
    end.

Section Browsing.

Variable Response : Type.
Variable requests_get : str -> str + Response.
Variable raise_for_status : Response -> option str.
Variable content : Response -> bytes.
Variable ET_fromstring : bytes -> exn + Element.
Variable selectbox_choice : list value -> option value.

Local Abbreviation details := (show_codelist_details ET_fromstring).
Local Abbreviation selected :=
  (browse_selected requests_get raise_for_status content ET_fromstring).
Local Abbreviation browsing :=
  (browse requests_get raise_for_status content ET_fromstring selectbox_choice).

Lemma steady_details (id : value) (xml : bytes) : steady (details id xml).
Proof. unfold show_codelist_details. steady_steps. Qed.

Lemma steady_format_option (df : DataFrame) (x : value) :
  steady (format_option df x).
Proof. unfold format_option. steady_steps. Qed.

Lemma steady_selected (df : DataFrame) (x : value) : steady (selected df x).
Proof.
  unfold browse_selected, selected_url. steady_steps.
  match goal with
  | |- steady (match ?xml with _ => _ end) => destruct xml as [[|x0 xml']|]
  end; steady_steps. apply steady_details.
Qed.

Lemma steady_browsing (df : DataFrame) : steady (browsing df).
Proof.
  unfold browse, selectbox. steady_steps.
  - apply steady_for_all, steady_format_option.
  - match goal with
    | |- steady (match ?c with _ => _ end) => destruct c as [x|]
    end; steady_steps.
    destruct (Frame.truthy (Some x)); steady_steps. apply steady_selected.
Qed.

(** X12.  Browsing (lines 143-195) writes neither the session table
    nor the cache: whatever the table, the answers of the libraries,
    the choice in the select box and the outcome, also when a lookup
    or an export raises, the state after it is the state before, and
    the page is the old page with elements added at its end. *)
Theorem browsing_leaves_the_session_alone
  (df : DataFrame) (a : store) (ui : list element) :
  exists r added, browsing df (a, ui) = (r, (a, ui ++ added)).
Proof. exact (steady_browsing df (a, ui)). Qed.

Lemma detail_fetch_eq (url : str) :
  fetch_codelist_detail requests_get raise_for_status content url []
  = match requests_get url with
    | inl message => (inr None, [detail_error url message])
    | inr response =>
        match raise_for_status response with
        | Some message => (inr None, [detail_error url message])
        | None => (inr (Some (content response)), [])
        end
    end.
Proof.
  unfold fetch_codelist_detail, try_except, bind, call_requests_get,
    call_raise_for_status.
  destruct (requests_get url) as [m|response]; simpl; [reflexivity|].
  destruct (raise_for_status response); reflexivity.
Qed.

Lemma selected_eq (lower : str -> str) (codelists : list Element)
  (id : str) (e : Element) (a : store) (ui : list element) :
  first_with_id id codelists = Some e ->
  selected (codelist_table lower codelists) (VStr id) (a, ui)
  = let ui' := ui ++ selection_view id (url_of e) in
    match requests_get (url_of e) with
    | inl message =>
        (inr tt, (a, ui' ++ [ElError (detail_error (url_of e) message)]))
    | inr response =>
        match raise_for_status response with
        | Some message =>
            (inr tt, (a, ui' ++ [ElError (detail_error (url_of e) message)]))
        | None =>
            match content response with
            | [] => (inr tt, (a, ui'))
            | xml => details (VStr id) xml (a, ui')
            end
        end
    end.
Proof.
  intros Hfirst. unfold browse_selected. unfold sbind at 1.
  rewrite selected_url_eq.
  destruct codelists as [|e0 codelists]; [discriminate|].
  cbv beta iota. rewrite Hfirst.
  unfold sbind, put, call. cbn [fst snd py_str]. rewrite detail_fetch_eq.
  unfold selection_view. cbv zeta.
  destruct (requests_get (url_of e)) as [m|response]; cbn [map fst snd].
  { unfold sret. now rewrite <- !app_assoc. }
  destruct (raise_for_status response) as [m|]; cbn [map fst snd].
  { unfold sret. now rewrite <- !app_assoc. }
  rewrite app_nil_r, <- !app_assoc. cbn [List.app].
  destruct (content response); reflexivity.
Qed.

Lemma first_with_id_listed (codelists : list Element) (e : Element) :
  In e codelists -> exists first, first_with_id (id_of e) codelists = Some first.
Proof.
  intros Hin. unfold first_with_id.
  destruct (find _ codelists) as [first|] eqn:E; [eauto|].
  pose proof (find_none _ _ E e Hin) as Hnone. cbv beta in Hnone.
  now rewrite str_eqb_refl in Hnone.
Qed.

(** The labels of the select box, for the options of a table. *)
Lemma labels_of_codelists (lower : str -> str) (codelists sub : list Element)
  (s : store * list element) :
  incl sub codelists ->
  for_all (format_option (codelist_table lower codelists))
          (map (fun e => VStr (id_of e)) sub) s
  = (inr (map (option_label codelists) sub), s).
Proof.
  revert s; induction sub as [|e sub IH]; intros s Hincl; [reflexivity|].
  cbn [map for_all]. unfold sbind at 1. rewrite format_option_eq.
  assert (Hin : In e codelists) by (apply Hincl; now left).
  destruct (first_with_id_listed _ _ Hin) as (first & Hfirst).
  destruct codelists as [|e0 codelists]; [contradiction|].
  cbv beta iota. rewrite Hfirst. unfold sbind at 1.
  rewrite IH by (intros x Hx; apply Hincl; now right).
  unfold sret, option_label. now rewrite Hfirst.
Qed.

Lemma column_ids (lower : str -> str) (e0 : Element) (rest : list Element) :
  Frame.column (codelist_table lower (e0 :: rest)) (u "Codelist ID")
  = inr (map (fun e => VStr (id_of e)) (e0 :: rest)).
Proof. rewrite codelist_table_eq. now apply column_of_codelists. Qed.

Lemma browsing_eq (lower : str -> str) (e0 : Element) (rest : list Element)
  (a : store) (ui : list element) :
  let codelists := e0 :: rest in
  let df := codelist_table lower codelists in
  let ui' := ui ++ registry_view lower codelists in
  browsing df (a, ui)
  = match selectbox_choice (map (fun e => VStr (id_of e)) codelists) with
    | Some x =>
        if Frame.truthy (Some x) then selected df x (a, ui') else (inr tt, (a, ui'))
    | None => (inr tt, (a, ui'))
    end.
Proof.
  intros codelists df ui'. subst codelists df ui'.
  unfold browse, selectbox, sbind, put. cbn [fst snd].
  rewrite column_ids. cbn [index sret].
  rewrite labels_of_codelists by apply incl_refl. cbn [fst snd].
  unfold registry_view. rewrite <- !app_assoc. cbn [List.app].
  unfold sret. cbv beta iota.
  destruct (selectbox_choice _) as [x|]; [|reflexivity].
  destruct (Frame.truthy (Some x)); reflexivity.
Qed.

(** X9.  The script requests the structure URL of the first codelist
    listed under the selected id ("Unknown URL" when that element has
    none).  A failed request shows one error and nothing else; a
    response with an empty body shows nothing at all; any other body
    goes on to the details. *)
Theorem selected_codelist_is_fetched (lower : str -> str)
  (codelists : list Element) (id : str) (e : Element)
  (a : store) (ui : list element) :
  first_with_id id codelists = Some e ->
  selected (codelist_table lower codelists) (VStr id) (a, ui)
  = let ui' := ui ++ selection_view id (url_of e) in
    match requests_get (url_of e) with
    | inl message =>
        (inr tt, (a, ui' ++ [ElError (detail_error (url_of e) message)]))
    | inr response =>
        match raise_for_status response with
        | Some message =>
            (inr tt, (a, ui' ++ [ElError (detail_error (url_of e) message)]))
        | None =>
            match content response with
            | [] => (inr tt, (a, ui'))
            | xml => details (VStr id) xml (a, ui')
            end
        end
    end.
Proof. apply selected_eq. Qed.

(** X10.  For a table with at least one codelist the script shows the
    table and a select box whose labels pair each id with the English
    name of the first codelist listed under that id, so codelists that
    share an id share a label.  Nothing more is shown when the select
    box returns nothing or a codelist whose id is the empty string. *)
Theorem registry_view_and_selection (lower : str -> str) (e0 : Element)
  (rest : list Element) (a : store) (ui : list element) :
  let codelists := e0 :: rest in
  let df := codelist_table lower codelists in
  let ui' := ui ++ registry_view lower codelists in
  browsing df (a, ui)
  = match selectbox_choice (map (fun e => VStr (id_of e)) codelists) with
    | Some (VStr []) | None => (inr tt, (a, ui'))
    | Some x =>
        if Frame.truthy (Some x) then selected df x (a, ui') else (inr tt, (a, ui'))
    end.
Proof.
  intros codelists df ui'. subst codelists df ui'. rewrite browsing_eq.
  destruct (selectbox_choice _) as [[[|c id]| | |]|]; reflexivity.
Qed.

(** With a table of codelists and a select box that returns one of its
    options, browsing raises nothing but the encoding error of the CSV
    export or what the XML parser raised. *)
Lemma browsing_safe (lower : str -> str) (e0 : Element) (rest : list Element)
  (s : store * list element) :
  chooses_an_option selectbox_choice ->
  exists r added,
    yields (browsing (codelist_table lower (e0 :: rest))) s r added
    /\ ends_well ET_fromstring r.
Proof.
  intros Hchoice. destruct s as [a ui]. unfold yields. cbn [fst snd].
  rewrite browsing_eq.
  destruct (selectbox_choice _) as [x|] eqn:Hx;
    [|do 2 eexists; split; [reflexivity|now left]].
  destruct (Frame.truthy (Some x));
    [|do 2 eexists; split; [reflexivity|now left]].
  apply Hchoice, in_map_iff in Hx as (e & <- & Hin).
  destruct (first_with_id_listed _ _ Hin) as (first & Hfirst).
  rewrite (selected_eq lower _ _ a _ Hfirst). cbv zeta.
  unfold registry_view, selection_view.
  destruct (requests_get (url_of first)) as [m|response].
  { rewrite <- !app_assoc. do 2 eexists; split; [reflexivity|now left]. }
  destruct (raise_for_status response) as [m|].
  { rewrite <- !app_assoc. do 2 eexists; split; [reflexivity|now left]. }
  destruct (content response) as [|b0 xml].
  { rewrite <- !app_assoc. do 2 eexists; split; [reflexivity|now left]. }
  match goal with
  | |- context [show_codelist_details _ ?id ?x (?a0, ?u0)] =>
      destruct (details_safe ET_fromstring id x (a0, u0)) as (r & added & Hy & Hr)
  end.
  unfold yields in Hy. cbn [fst snd] in Hy. rewrite Hy.
  rewrite <- !app_assoc. do 2 eexists; split; [reflexivity|exact Hr].
Qed.

End Browsing.

(* ================================================================== *)
(** ** A run of the script *)
(* ================================================================== *)

Section Run.

Variable Response : Type.
Variable requests_get : str -> str + Response.
Variable raise_for_status : Response -> option str.
Variable content : Response -> bytes.
Variable ET_fromstring : bytes -> exn + Element.
Variable str_lower : str -> str.
Variable button_clicked : bool.
Variable selectbox_choice : list value -> option value.

Local Abbreviation registry_parse :=
  (fetch_codelists_from_xml requests_get raise_for_status content
     ET_fromstring str_lower).
Local Abbreviation browsing :=
  (browse requests_get raise_for_status content ET_fromstring selectbox_choice).
Local Abbreviation run :=
  (main requests_get raise_for_status content ET_fromstring str_lower
     button_clicked selectbox_choice).
Local Abbreviation view :=
  (view_session requests_get raise_for_status content ET_fromstring
     selectbox_choice).

Lemma run_eq (a : store) (ui : list element) :
  run (a, ui)
  = let df0 := match codelists_df a with
               | Some df => df
               | None => DataFrame_of []
               end in
    if button_clicked then
      match fetch_cache a with
      | Some (df, messages) =>
          view df (mkStore (Some df) (Some (df, messages)),
                   ui ++ page_top ++ spinner_and messages)
      | None =>
          match registry_parse [] with
          | (inr df, messages) =>
              view df (mkStore (Some df) (Some (df, messages)),
                       ui ++ page_top ++ spinner_and messages)
          | (inl e, messages) =>
              (inl (PyExn e),
               (mkStore (Some df0) None, ui ++ page_top ++ spinner_and messages))
          end
      end
    else view df0 (mkStore (Some df0) (fetch_cache a), ui ++ page_top).
Proof.
  destruct a as [session cache].
  unfold main, view_session, page_top, spinner_and, sbind, put, cache_data,
    set_codelists_df, get_codelists_df, sret.
  cbn [fst snd codelists_df fetch_cache].
  destruct button_clicked; destruct session as [df0|];
    cbn [fst snd codelists_df fetch_cache];
    try (destruct cache as [[df messages]|];
         [|destruct (registry_parse []) as [[e|df] messages]]);
    cbn [fst snd codelists_df fetch_cache];
    rewrite <- ?app_assoc; reflexivity.
Qed.

Lemma registry_parse_result :
  (exists codelists messages,
      registry_parse [] = (inr (codelist_table str_lower codelists), messages))
  \/ (exists xml e,
        ET_fromstring xml = inl e /\ (forall d, e <> ParseError d)
        /\ registry_parse [] = (inl e, [])).
Proof.
  unfold fetch_codelists_from_xml, try_except, bind, call_requests_get,
    call_raise_for_status, call_fromstring.
  destruct (requests_get API_ENDPOINT) as [m|response]; simpl.
  { left. exists []. eexists. reflexivity. }
  destruct (raise_for_status response) as [m|]; simpl.
  { left. exists []. eexists. reflexivity. }
  destruct (ET_fromstring (content response)) as [e|root] eqn:Hxml; simpl.
  { destruct e; try (left; exists []; eexists; reflexivity);
      right; do 2 eexists; (split; [exact Hxml|]);
      (split; [discriminate|reflexivity]). }
  left. exists (findall_descendants root TAG_CODELIST), [].
  now rewrite codelist_data_map.
Qed.

(** X11.  A run without a click on a session without codelists shows
    the title, the button and the hint, whatever the libraries would
    answer: nothing is requested and nothing is parsed. *)
Theorem idle_run_shows_the_hint (a : store) (ui : list element) :
  button_clicked = false ->
  (forall df, codelists_df a = Some df -> Frame.empty df = true) ->
  run (a, ui)
  = (inr tt,
     (mkStore (Some (match codelists_df a with
                     | Some df => df
                     | None => mkDataFrame [] []
                     end)) (fetch_cache a),
      ui ++ page_top ++ [hint])).
Proof.
  intros Hclick Hempty. rewrite run_eq, Hclick. cbv zeta. unfold view_session.
  destruct (codelists_df a) as [df|].
  - rewrite (Hempty df eq_refl). unfold put. cbn. now rewrite <- app_assoc.
  - unfold put. cbn. now rewrite <- app_assoc.
Qed.

Lemma codelist_table_not_empty (lower : str -> str) (e0 : Element)
  (rest : list Element) :
  Frame.empty (codelist_table lower (e0 :: rest)) = false.
Proof. now rewrite codelist_table_eq. Qed.

Lemma view_safe (codelists : list Element) (s : store * list element) :
  chooses_an_option selectbox_choice ->
  exists r added,
    yields (view (codelist_table str_lower codelists)) s r added
    /\ ends_well ET_fromstring r.
Proof.
  intros Hchoice. unfold view_session. destruct codelists as [|e0 rest].
  - exists (inr tt), [hint]. split; [reflexivity|now left].
  - rewrite codelist_table_not_empty. now apply browsing_safe.
Qed.

(** X13.  Started with a session table and a cache that hold tables of
    codelists, and with a select box that returns one of its options,
    a run only adds elements to the page and leaves a session table
    and a cache of the same kind.  It ends normally, or with the
    [UnicodeEncodeError] of the CSV export, or with an exception other
    than [ParseError] that [ET.fromstring] raised; never with an
    exception of its own table lookups. *)
Theorem run_is_safe (a : store) (ui : list element) :
  reachable str_lower a ->
  chooses_an_option selectbox_choice ->
  exists r a' more,
    run (a, ui) = (r, (a', ui ++ more))
    /\ ends_well ET_fromstring r
    /\ reachable str_lower a'.
Proof.
  intros [Hsession Hcache] Hchoice. rewrite run_eq. cbv zeta.
  destruct button_clicked.
  - destruct (fetch_cache a) as [[df messages]|] eqn:Hc.
    + destruct (Hcache df messages eq_refl) as (codelists & ->).
      destruct (view_safe codelists
                  (mkStore (Some (codelist_table str_lower codelists))
                     (Some (codelist_table str_lower codelists, messages)),
                   ui ++ page_top ++ spinner_and messages) Hchoice)
        as (r & more & Hy & Hr).
      unfold yields in Hy. cbn [fst snd] in Hy. rewrite Hy.
      rewrite <- !app_assoc. do 3 eexists. split; [reflexivity|].
      split; [exact Hr|]. split; cbn [codelists_df fetch_cache].
      * intros df [= <-]. now exists codelists.
      * intros df m [= <- <-]. now exists codelists.
    + destruct registry_parse_result
        as [(codelists & messages & Hparse)|(xml & e & Hxml & He & Hparse)];
        rewrite Hparse.
      2:{ do 3 eexists. split; [reflexivity|].
          split; [right; right; eauto|].
          split; cbn [codelists_df fetch_cache]; [|discriminate].
          intros df [= <-].
          destruct (codelists_df a) as [df|] eqn:Hs; [now apply Hsession|].
          now exists []. }
      destruct (view_safe codelists
                  (mkStore (Some (codelist_table str_lower codelists))
                     (Some (codelist_table str_lower codelists, messages)),
                   ui ++ page_top ++ spinner_and messages) Hchoice)
        as (r & more & Hy & Hr).
      unfold yields in Hy. cbn [fst snd] in Hy. rewrite Hy.
      rewrite <- !app_assoc. do 3 eexists. split; [reflexivity|].
      split; [exact Hr|]. split; cbn [codelists_df fetch_cache].
      * intros df [= <-]. now exists codelists.
      * intros df m [= <- <-]. now exists codelists.
  - assert (Hdf0 : registry_frame str_lower
                     match codelists_df a with
                     | Some df => df
                     | None => DataFrame_of []
                     end).
    { destruct (codelists_df a) as [df|] eqn:Hs; [now apply Hsession|].
      now exists []. }
    destruct Hdf0 as (codelists & Hdf0). rewrite Hdf0.
    destruct (view_safe codelists
                (mkStore (Some (codelist_table str_lower codelists)) (fetch_cache a),
                 ui ++ page_top) Hchoice)
      as (r & more & Hy & Hr).
    unfold yields in Hy. cbn [fst snd] in Hy. rewrite Hy.
    rewrite <- !app_assoc. do 3 eexists. split; [reflexivity|].
    split; [exact Hr|]. split; cbn [codelists_df fetch_cache].
    + intros df [= <-]. now exists codelists.
    + exact Hcache.
Qed.

End Run.

Lemma last_named_none (lang : str) (names : list Element) :
  (forall e, In e names -> str_eqb (lang_of e) lang = false) ->
  last_named lang names = None.
Proof.
  intros Hall. unfold last_named.
  assert (Hrev : forall e, In e (rev names) -> str_eqb (lang_of e) lang = false)
    by (intros e He; apply Hall; now apply in_rev).
  revert Hrev. generalize (rev names). intros l.
  induction l as [|y l IH]; intros Hl; cbn [find]; [reflexivity|].
  rewrite (Hl y (or_introl eq_refl)). apply IH.
  intros e He. apply Hl. now right.
Qed.

(** X15.  A [Name] element without [xml:lang] is filed under the key
    "unknown": when no later name is tagged "unknown" or left without
    a tag, the names dict holds its text under that key.  It does not
    count as English: when no other name is tagged "en", the Name (en)
    field of the record of either parser is "N/A". *)
Theorem name_without_language_is_filed_under_unknown
  (lower : str -> str) (elem name_elem : Element)
  (earlier later : list Element) :
  findall_descendants elem TAG_NAME = earlier ++ name_elem :: later ->
  dict_get (attrib name_elem) XML_LANG = None ->
  (forall e, In e later ->
             exists lang, dict_get (attrib e) XML_LANG = Some lang
                          /\ lang <> u "unknown") ->
  dict_get (extract_names elem) (u "unknown") = Some (of_text (text name_elem))
  /\ ((forall e, In e (earlier ++ later) ->
                 dict_get (attrib e) XML_LANG <> Some (u "en")) ->
      dict_get (code_record elem) (u "Name (en)") = Some (VStr (u "N/A"))
      /\ dict_get (codelist_record lower elem) (u "Name (en)")
         = Some (VStr (u "N/A"))).
Proof.
  intros Hnames Hattr Hlater.
  assert (Hloop : forall lang,
             dict_get (extract_names elem) lang
             = match last_named lang (earlier ++ name_elem :: later) with
               | Some e => Some (of_text (text e))
               | None => None
               end).
  { intros lang.
    change (extract_names elem)
      with (fold_left names_step (findall_descendants elem TAG_NAME) []).
    now rewrite names_loop_get, Hnames. }
  assert (Hunknown : lang_of name_elem = u "unknown")
    by (unfold lang_of, dict_get_default; now rewrite Hattr).
  split.
  - rewrite Hloop, last_named_split; [reflexivity| |].
    + rewrite Hunknown. apply str_eqb_refl.
    + intros e He. destruct (Hlater e He) as (lang & Hlang & Hneq).
      unfold lang_of, dict_get_default. rewrite Hlang.
      now apply str_eqb_neq.
  - intros Hother.
    assert (Hen : dict_get (extract_names elem) (u "en") = None).
    { rewrite Hloop, last_named_none; [reflexivity|].
      intros e He. apply not_true_is_false. intros E.
      apply lang_of_attribute in E; [|discriminate].
      apply in_app_or in He as [He|[<-|He]].
      - apply (Hother e); [apply in_or_app; now left|exact E].
      - congruence.
      - apply (Hother e); [apply in_or_app; now right|exact E]. }
    split.
    + change (Some (dict_get_default (extract_names elem) (u "en")
                      (VStr (u "N/A"))) = Some (VStr (u "N/A"))).
      unfold dict_get_default. now rewrite Hen.
    + change (Some (dict_get_default (extract_names elem) (u "en")
                      (VStr (u "N/A"))) = Some (VStr (u "N/A"))).
      unfold dict_get_default. now rewrite Hen.
Qed.

(** X14.  [create_pdf] reads the three columns of every row: a table
    without rows gives the title page whatever its columns are, and a
    table whose first row has no cell under Code ID raises [KeyError]
    and gives no document. *)
Theorem create_pdf_reads_the_code_columns (df : DataFrame) (log : list str) :
  (rows df = [] ->
   create_pdf df log = (inr [mkPage letter (place 0 title_lines)], log))
  /\ (forall row rest,
        rows df = row :: rest ->
        row_lookup (columns df) row (u "Code ID") = None ->
        create_pdf df log = (inl (KeyError (u "Code ID")), log)).
Proof.
  split.
  - intros Hrows. unfold create_pdf. rewrite Hrows. reflexivity.
  - intros row rest Hrows Hmissing. unfold create_pdf. rewrite Hrows.
    cbn [for_each]. unfold bind at 1 2. unfold row_get at 1.
    rewrite Hmissing. reflexivity.
Qed.

(* ================================================================== *)
(** ** Concrete runs of the script *)
(* ================================================================== *)

Lemma first_option_chooses : chooses_an_option Site.first_option.
Proof.
  intros [|o options] x H; [discriminate|].
  injection H as <-. now left.
Defined.

Lemma fresh_is_reachable : reachable ascii_lower Site.fresh.
Proof. split; intros; discriminate. Defined.

(** The registry fetch against a site that is down. *)
Lemma registry_fetch_from_a_site_that_is_down :
  fetch_codelists_from_xml Site.down status_ok body MiniXML.fromstring
    ascii_lower []
  = (inr (mkDataFrame [] []),
     [u "Error fetching data from API: Connection refused"]).
Proof.
  exact (@registry_fetch_failure_is_reported bytes Site.down status_ok body
           MiniXML.fromstring ascii_lower (u "Connection refused") []
           (or_introl eq_refl)).
Defined.

(** The details of the codelist with three codes. *)
Lemma details_of_three_codes :
  exists data,
    map Byte.to_N data = to_csv (code_table detail_codes) (u "ISO-8859-1")
    /\ show_codelist_details MiniXML.fromstring (VStr (u "CL_SEX")) detail_doc
         (Site.fresh, [])
       = (inr tt,
          (Site.fresh,
           [ ElSubheader (u "Codelist Details");
             ElDataFrame (code_table detail_codes);
             xml_button (VStr (u "CL_SEX")) detail_doc;
             csv_button (VStr (u "CL_SEX")) data;
             pdf_button (VStr (u "CL_SEX"))
               [mkPage letter (place 0 (document_lines (code_rows detail_codes)))] ])).
Proof.
  apply (@details_offer_three_downloads MiniXML.fromstring
           (VStr (u "CL_SEX")) detail_doc detail_tree Site.fresh []
           detail_doc_tree).
  vm_compute. reflexivity.
Defined.

Lemma euro_doc_tree : MiniXML.fromstring euro_doc = inr euro_tree.
Proof. vm_compute. reflexivity. Defined.

(** The details of the codelist with the euro sign. *)
Lemma details_of_the_euro_code :
  exists position ch,
    (255 < ch)%N
    /\ show_codelist_details MiniXML.fromstring (VStr (u "CL_CUR")) euro_doc
         (Site.fresh, [])
       = (inl (PyExn (UnicodeEncodeError position ch)),
          (Site.fresh,
           [ ElSubheader (u "Codelist Details");
             ElDataFrame (code_table [euro_code]);
             xml_button (VStr (u "CL_CUR")) euro_doc ])).
Proof.
  apply (@non_latin1_cell_ends_the_run MiniXML.fromstring
           (VStr (u "CL_CUR")) euro_doc euro_tree Site.fresh []
           [VStr (u "EUR"); VStr [8364%N]; VStr (u "N/A")] [8364%N] 8364%N
           euro_doc_tree).
  - left. reflexivity.
  - right. left. reflexivity.
  - left. reflexivity.
  - reflexivity.
Defined.

(** The details of the truncated input. *)
Lemma details_of_the_truncated_input :
  show_codelist_details MiniXML.fromstring (VStr (u "CL_SEX")) truncated
    (Site.fresh, [])
  = (inr tt,
     (Site.fresh,
      [ ElSubheader (u "Codelist Details");
        ElError
          (u "Error parsing codelist XML: unclosed token: line 1, column 0");
        ElDataFrame (mkDataFrame [] []);
        xml_button (VStr (u "CL_SEX")) truncated;
        csv_button (VStr (u "CL_SEX")) [x0a];
        pdf_button (VStr (u "CL_SEX")) [mkPage letter (place 0 title_lines)] ])).
Proof.
  exact (@malformed_details_still_offer_downloads MiniXML.fromstring
           (VStr (u "CL_SEX")) truncated
           (u "unclosed token: line 1, column 0") Site.fresh []
           truncated_diagnostic).
Defined.

(** Of the two codelists listed as CL_SEX the first is fetched; on a
    site that is down the fetch shows its error and nothing else. *)
Lemma first_of_two_codelists_is_fetched :
  browse_selected Site.down status_ok body MiniXML.fromstring
    (codelist_table ascii_lower Site.codelists) (VStr (u "CL_SEX"))
    (Site.fresh, [])
  = (inr tt,
     (Site.fresh,
      selection_view (u "CL_SEX") (u "http://x/first")
      ++ [ElError (detail_error (u "http://x/first") (u "Connection refused"))])).
Proof.
  exact (@selected_codelist_is_fetched bytes Site.down status_ok body
           MiniXML.fromstring ascii_lower Site.codelists (u "CL_SEX")
           Site.first_codelist Site.fresh [] eq_refl).
Defined.

(** The first visit. *)
Lemma first_visit :
  Site.run Site.get false (Site.fresh, [])
  = (inr tt, (mkStore (Some (mkDataFrame [] [])) None, page_top ++ [hint])).
Proof.
  apply (@idle_run_shows_the_hint bytes Site.get status_ok body
           MiniXML.fromstring ascii_lower false Site.first_option
           Site.fresh [] eq_refl).
  intros df H. discriminate H.
Defined.

(** A first click against the site. *)
Lemma first_click_is_safe :
  exists r a' more,
    Site.run Site.get true (Site.fresh, []) = (r, (a', more))
    /\ ends_well MiniXML.fromstring r
    /\ reachable ascii_lower a'.
Proof.
  exact (@run_is_safe bytes Site.get status_ok body MiniXML.fromstring
           ascii_lower true Site.first_option Site.fresh []
           fresh_is_reachable first_option_chooses).
Defined.

(** The second codelist of the registry document: its name without a
    language tag is filed under "unknown", its English name stays. *)
Lemma second_codelist_of_the_registry :
  nth_error (findall_descendants Concrete.registry_tree TAG_CODELIST) 1
  = Some codelist_b
  /\ dict_get (extract_names codelist_b) (u "unknown") = Some (VStr (u "b"))
  /\ dict_get (extract_names codelist_b) (u "en") = Some (VStr (u "B")).
Proof.
  destruct (@name_without_language_is_filed_under_unknown ascii_lower
              codelist_b name_b
              [mkElement TAG_NAME [(XML_LANG, u "en")] (Some (u "B")) []] []
              eq_refl eq_refl (fun e (H : In e []) => False_ind _ H))
    as (Hunknown & _).
  split; [reflexivity|]. split; [exact Hunknown|reflexivity].
Defined.

(** A table with one row and no Code ID column. *)
Lemma create_pdf_of_a_table_without_code_ids :
  create_pdf (mkDataFrame [u "Name (en)"] [[VStr (u "Female")]]) []
  = (inl (KeyError (u "Code ID")), []).
Proof.
  exact (proj2 (create_pdf_reads_the_code_columns
                  (mkDataFrame [u "Name (en)"] [[VStr (u "Female")]]) [])
           [VStr (u "Female")] [] eq_refl eq_refl).
Defined.
